(** * eMedosmotr_AI: the three-stage validation pipeline

    A shallow embedding of
      - app/services/contradiction_checker.py   (Stage 0),
      - app/services/rag_service.py             (semantic retriever),
      - app/services/criteria_validator.py      (reference look-ups),
      - app/services/full_validation_service.py (Stages 1-2 and the verdict),
      - app/routers/validation.py               (HTTP boundary),
      - app/services/openai_client.py           (batched embeddings),
    followed by the properties of the pipeline.

    Conventions.  A Python [str] is a list of Unicode code points, so that
    [len], slicing and [find] count characters exactly as Python does.
    Python floats (similarities, confidences, timestamps) are idealised as
    rationals.  A Python exception is the [Raise] branch of [Exc]. *)

From Stdlib Require Import List ZArith QArith Qround Lqa Bool String Ascii Lia.
From Stdlib Require Import Sorted Permutation.
Import ListNotations.
Close Scope Q_scope.

Set Implicit Arguments.

(* ===================================================================== *)
(** * Python strings *)
(* ===================================================================== *)

Module PyStr.

(** A string is the list of its code points. *)
Definition text := list N.

(** [bool(s)]: a string is truthy when it is not empty. *)
Definition truthy (s : text) : bool :=
  match s with [] => false | _ :: _ => true end.

Definition text_eqb (a b : text) : bool :=
  if list_eq_dec N.eq_dec a b then true else false.

Fixpoint starts_with (p s : text) : bool :=
  match p, s with
  | [], _ => true
  | _ :: _, [] => false
  | a :: p', b :: s' => N.eqb a b && starts_with p' s'
  end.

(** [s.find(sub)] scanning from offset [i]; [None] stands for -1. *)
Fixpoint find_from (sub s : text) (i : nat) : option nat :=
  if starts_with sub s then Some i
  else match s with
       | [] => None
       | _ :: s' => find_from sub s' (S i)
       end.

Definition find (s sub : text) : option nat := find_from sub s 0.

(** [sub in s]. *)
Definition contains (s sub : text) : bool :=
  match find s sub with Some _ => true | None => false end.

(** [s[lo:hi]] for non-negative bounds; bounds beyond the end are
    clamped by [firstn]/[skipn] as Python clamps them. *)
Definition slice (s : text) (lo hi : nat) : text :=
  firstn (hi - lo) (skipn lo s).

(** [str.isspace] for one code point. *)
Definition is_space (c : N) : bool :=
  ((9 <=? c) && (c <=? 13) || (28 <=? c) && (c <=? 32)
   || (c =? 133) || (c =? 160) || (c =? 5760)
   || (8192 <=? c) && (c <=? 8202)
   || (c =? 8232) || (c =? 8233) || (c =? 8239) || (c =? 8287)
   || (c =? 12288))%N.

Fixpoint lstrip (s : text) : text :=
  match s with
  | [] => []
  | c :: s' => if is_space c then lstrip s' else s
  end.

Definition rstrip (s : text) : text := rev (lstrip (rev s)).

Definition strip (s : text) : text := rstrip (lstrip s).

(** Source literals are written as UTF-8 byte strings and decoded. *)
Fixpoint utf8_aux (s : string) (need : nat) (acc : N) : text :=
  match s with
  | EmptyString => []
  | String c s' =>
      let b := N_of_ascii c in
      match need with
      | O => if (b <? 128)%N then b :: utf8_aux s' 0 0
             else if (b <? 224)%N then utf8_aux s' 1 (b - 192)
             else if (b <? 240)%N then utf8_aux s' 2 (b - 224)
             else utf8_aux s' 3 (b - 240)
      | S O => (acc * 64 + (b - 128))%N :: utf8_aux s' 0 0
      | S n => utf8_aux s' n (acc * 64 + (b - 128))%N
      end
  end.

Definition u (s : string) : text := utf8_aux s 0 0.

(** [str.lower] and [str.upper] on the Basic Latin and Cyrillic blocks
    (other code points are left alone).  The pipeline itself is
    parametric in the two case maps; these are the instance used to run
    it on Russian text. *)
Definition lower_char (c : N) : N :=
  (if (65 <=? c) && (c <=? 90) then c + 32
   else if (1040 <=? c) && (c <=? 1071) then c + 32
   else if (1024 <=? c) && (c <=? 1039) then c + 80
   else c)%N.

Definition upper_char (c : N) : N :=
  (if (97 <=? c) && (c <=? 122) then c - 32
   else if (1072 <=? c) && (c <=? 1103) then c - 32
   else if (1104 <=? c) && (c <=? 1119) then c - 80
   else c)%N.

Definition lower (s : text) : text := map lower_char s.
Definition upper (s : text) : text := map upper_char s.

End PyStr.

Import PyStr.

(* ===================================================================== *)
(** * Exceptions *)
(* ===================================================================== *)

(** The exception classes that matter to the pipeline: failures of the
    embedding / completion provider, failures of the database session,
    and anything else. *)
Inductive PyException : Type :=
| OpenAIError
| DatabaseError
| OtherError (msg : string).

Inductive Exc (A : Type) : Type :=
| Ok (a : A)
| Raise (e : PyException).

Arguments Ok {A} a.
Arguments Raise {A} e.

Definition exc_bind {A B} (m : Exc A) (k : A -> Exc B) : Exc B :=
  match m with
  | Ok a => k a
  | Raise e => Raise e
  end.

Declare Scope exc_scope.
Delimit Scope exc_scope with exc.
Notation "x <- m ;; k" := (exc_bind m (fun x => k))
  (at level 61, m at next level, right associativity) : exc_scope.

(* ===================================================================== *)
(** * Enumerations (contradiction_checker.py, schemas/validation.py) *)
(* ===================================================================== *)

Inductive ContradictionType : Type :=
| TYPE_A | TYPE_B | TYPE_C | TYPE_D | TYPE_E | TYPE_F.

Inductive Severity : Type := LOW | MEDIUM | HIGH | CRITICAL.

Inductive OverallStatusEnum : Type := VALID | WARNING | INVALID.

Inductive MatchStatusEnum : Type :=
| MATCH | MISMATCH | PARTIAL_MISMATCH | REVIEW_REQUIRED.

(** [ValidationStageResult.status] is a free string in the source; these
    are the four values the pipeline ever writes or documents. *)
Inductive StageStatus : Type :=
| SUCCESS | STAGE_WARNING | STAGE_ERROR | SKIPPED.

Definition ContradictionType_eqb (a b : ContradictionType) : bool :=
  match a, b with
  | TYPE_A, TYPE_A | TYPE_B, TYPE_B | TYPE_C, TYPE_C
  | TYPE_D, TYPE_D | TYPE_E, TYPE_E | TYPE_F, TYPE_F => true
  | _, _ => false
  end.

Definition Severity_eqb (a b : Severity) : bool :=
  match a, b with
  | LOW, LOW | MEDIUM, MEDIUM | HIGH, HIGH | CRITICAL, CRITICAL => true
  | _, _ => false
  end.

Definition OverallStatus_eqb (a b : OverallStatusEnum) : bool :=
  match a, b with
  | VALID, VALID | WARNING, WARNING | INVALID, INVALID => true
  | _, _ => false
  end.

Definition MatchStatus_eqb (a b : MatchStatusEnum) : bool :=
  match a, b with
  | MATCH, MATCH | MISMATCH, MISMATCH
  | PARTIAL_MISMATCH, PARTIAL_MISMATCH
  | REVIEW_REQUIRED, REVIEW_REQUIRED => true
  | _, _ => false
  end.

(* ===================================================================== *)
(** * The runtime the services are linked against *)
(* ===================================================================== *)

(** What the services take from Python and from their collaborators:
    the two case maps of [str], the embedding provider
    ([openai_service.create_embedding], which re-raises its failures) and
    pgvector's cosine distance. *)
Record Runtime : Type := {
  Embedding : Type;
  str_lower : text -> text;
  str_upper : text -> text;
  create_embedding : text -> Exc Embedding;
  cosine_distance : Embedding -> Embedding -> Q
}.

(** [ContradictionChecker.__init__]: the three vocabularies are read from
    [AIAnalyzer], which is not part of the verified sources, so they are
    fields of the instance. *)
Record ContradictionChecker : Type := {
  healthy_keywords : list text;
  pathology_keywords : list text;
  severe_keywords : list text
}.

(* ===================================================================== *)
(** * Reference store (models/reference.py) *)
(* ===================================================================== *)

(** The four category columns [graph_1] .. [graph_4]; also the
    ["categories"] dictionary [{1: .., 2: .., 3: .., 4: ..}] built from
    them. *)
Record Categories : Type := {
  graph_1 : option text;
  graph_2 : option text;
  graph_3 : option text;
  graph_4 : option text
}.

(** [categories.get(graph)]. *)
Definition categories_get (c : Categories) (graph : Z) : option text :=
  if (graph =? 1)%Z then graph_1 c
  else if (graph =? 2)%Z then graph_2 c
  else if (graph =? 3)%Z then graph_3 c
  else if (graph =? 4)%Z then graph_4 c
  else None.

Record PointCriterion (E : Type) : Type := {
  pc_article : Z;
  pc_subpoint : option text;
  pc_description : text;
  pc_graphs : Categories;
  criteria_embedding : option E
}.

Record PointDiagnosis : Type := {
  pd_article : Z;
  pd_subpoint : option text;
  pd_graphs : Categories
}.

(** The database session as the services see it: the two reference
    tables, and whether [db.execute] raises. *)
Record Db (E : Type) : Type := {
  point_criteria : list (PointCriterion E);
  points_diagnoses : list PointDiagnosis;
  execute_raises : option PyException
}.

(* ===================================================================== *)
(** * rag_service.py: search_diseases_in_text *)
(* ===================================================================== *)

(** One entry of the list returned by [search_diseases_in_text]. *)
Record Disease : Type := {
  article : Z;
  subpoint : option text;
  description : text;
  similarity : Q;
  categories : Categories
}.

Definition Qlt_bool (x y : Q) : bool := negb (Qle_bool y x).

(** Python's [round(x)] on an exact value: to nearest, ties to even. *)
Definition round_half_even (q : Q) : Z :=
  let f := Qfloor q in
  match Qcompare (q - inject_Z f)%Q (1 # 2)%Q with
  | Lt => f
  | Gt => (f + 1)%Z
  | Eq => if Z.even f then f else (f + 1)%Z
  end.

(** [round(x, 4)]. *)
Definition round4 (q : Q) : Q :=
  Qmake (round_half_even (q * inject_Z 10000)%Q) 10000.

(** The values the database driver accepts for a 32-bit [Integer]
    column or parameter. *)
Definition fits_int32 (z : Z) : bool :=
  ((- 2 ^ 31 <=? z) && (z <? 2 ^ 31))%Z.

(** [LIMIT top_k]: PostgreSQL rejects a negative limit, and the driver
    rejects one that does not fit a 64-bit integer. *)
Definition limit_rejected (top_k : Z) : bool :=
  ((top_k <? 0) || (2 ^ 63 <=? top_k))%Z.

Section Retriever.

Context (rt : Runtime).
Let E := Embedding rt.

(** [ORDER BY distance]: ascending, rows of equal distance kept in
    store order. *)
Fixpoint insert_by_distance (r : PointCriterion E * Q)
         (l : list (PointCriterion E * Q)) : list (PointCriterion E * Q) :=
  match l with
  | [] => [r]
  | h :: t => if Qle_bool (snd r) (snd h) then r :: l
              else h :: insert_by_distance r t
  end.

Fixpoint order_by_distance (l : list (PointCriterion E * Q))
  : list (PointCriterion E * Q) :=
  match l with
  | [] => []
  | r :: t => insert_by_distance r (order_by_distance t)
  end.

(** [WHERE criteria_embedding IS NOT NULL], with the distance label. *)
Fixpoint with_distance (q : E) (rows : list (PointCriterion E))
  : list (PointCriterion E * Q) :=
  match rows with
  | [] => []
  | c :: t =>
      match criteria_embedding c with
      | Some e => (c, cosine_distance rt e q) :: with_distance q t
      | None => with_distance q t
      end
  end.

(** [db.execute(select(..).where(..).order_by("distance").limit(top_k))]
    followed by [result.all()].  The session may raise, and so does a
    limit the database or the driver rejects. *)
Definition execute_nearest (db : Db E) (q : E) (top_k : Z)
  : Exc (list (PointCriterion E * Q)) :=
  match execute_raises db with
  | Some e => Raise e
  | None =>
      if limit_rejected top_k then Raise DatabaseError
      else Ok (firstn (Z.to_nat top_k)
                 (order_by_distance (with_distance q (point_criteria db))))
  end.

(** The [for criterion, distance in rows] loop. *)
Fixpoint format_diseases (rows : list (PointCriterion E * Q))
         (similarity_threshold : Q) : list Disease :=
  match rows with
  | [] => []
  | (criterion, distance) :: t =>
      let sim := (1 - distance)%Q in
      if Qlt_bool sim similarity_threshold
      then format_diseases t similarity_threshold
      else {| article := pc_article criterion;
              subpoint := pc_subpoint criterion;
              description := pc_description criterion;
              similarity := round4 sim;
              categories := pc_graphs criterion |}
           :: format_diseases t similarity_threshold
  end.

(** The body of the [try] block. *)
Definition search_diseases_try (db : Db E) (txt : text) (top_k : Z)
           (similarity_threshold : Q) : Exc (list Disease) :=
  (query_embedding <- create_embedding rt txt ;;
   rows <- execute_nearest db query_embedding top_k ;;
   Ok (format_diseases rows similarity_threshold))%exc.

Definition search_diseases_in_text (db : Db E) (txt : text) (top_k : Z)
           (similarity_threshold : Q) : list Disease :=
  if negb (truthy txt) || (List.length (strip txt) <? 10)%nat then []
  else match search_diseases_try db txt top_k similarity_threshold with
       | Ok diseases => diseases
       | Raise _ => []
       end.

End Retriever.

(* ===================================================================== *)
(** * contradiction_checker.py (Stage 0) *)
(* ===================================================================== *)

(** The category codes.  Cyrillic "А" is U+0410, Latin "A" is U+0041. *)
Definition cat_A : text := [1040%N].
Definition cat_A_latin : text := [65%N].
Definition cat_B : text := u "Б".
Definition cat_V : text := u "В".
Definition cat_V_ind : text := u "В-ИНД".
Definition cat_G : text := u "Г".
Definition cat_D : text := u "Д".
Definition cat_E : text := u "Е".
Definition cat_NG : text := u "НГ".

(** [x in ["А", "A"]]. *)
Definition in_A (x : text) : bool := text_eqb x cat_A || text_eqb x cat_A_latin.

(** The f-strings of the findings, kept as templates with their holes. *)
Inductive Description : Type :=
| NoDescription
| DescTypeE (doctor_category : text)
| DescTypeF (found_keyword : option text)
| DescTypeA (field_name : string) (n_matches : nat)
| DescTypeB (field_name : string)
| DescTypeC (diagnosis_article : Z) (diagnosis_category : option text)
            (field_name : string)
            (disease_article : Z) (disease_category : option text)
| DescTypeD (doctor_category : text) (best_article : Z)
            (best_subpoint : option text) (graph : Z)
            (expected_category : text).

Inductive Recommendation : Type :=
| RecTypeE | RecTypeF | RecTypeA | RecTypeB
| RecTypeC (disease_article : Z)
| RecTypeD (best_article : Z) (best_subpoint : option text).

Record ContradictionResult : Type := {
  has_contradiction : bool;
  contradiction_type : option ContradictionType;
  severity : Severity;
  c_description : Description;
  source_field : option string;
  target_field : option string;
  source_value : option text;
  target_value : option text;
  rag_matches : list Disease;
  recommendation : option Recommendation
}.

(** [ContradictionResult(has_contradiction=False)]: the dataclass
    defaults. *)
Definition no_contradiction : ContradictionResult :=
  {| has_contradiction := false;
     contradiction_type := None;
     severity := LOW;
     c_description := NoDescription;
     source_field := None;
     target_field := None;
     source_value := None;
     target_value := None;
     rag_matches := [];
     recommendation := None |}.

(** [any(neg in context for neg in words)]. *)
Definition any_in (words : list text) (context : text) : bool :=
  existsb (contains context) words.

Definition negation_words : list text :=
  [u "не "; u "нет "; u "без "; u "отсутств"].

Definition negation_before : list text :=
  [u "не "; u "нет "; u "без "; u "отсутств"; u "исключ"].

Definition negation_after : list text :=
  [u " не "; u " нет"; u " отсутств"; u " исключ"; u " не обнаруж";
   u " не выявл"].

(** The category hierarchy; [category_severity.get(c, 0)]. *)
Definition category_severity (c : text) : Z :=
  if text_eqb c cat_A then 1
  else if text_eqb c cat_B then 2
  else if text_eqb c cat_V then 3
  else if text_eqb c cat_V_ind then 3
  else if text_eqb c cat_G then 4
  else if text_eqb c cat_D then 5
  else if text_eqb c cat_E then 6
  else if text_eqb c cat_NG then 7
  else 0.

(** The same look-up when the key may be [None] (a NULL column). *)
Definition category_severity_opt (c : option text) : Z :=
  match c with
  | Some c => category_severity c
  | None => 0
  end.

Section Stage0.

Context (rt : Runtime) (self : ContradictionChecker).
Let E := Embedding rt.

(** One iteration of the pathology loop: [true] when the loop goes on. *)
Definition pathology_ok (text_lower keyword : text) : bool :=
  match find text_lower keyword with
  | None => true
  | Some keyword_pos =>
      let context_before :=
        slice text_lower (keyword_pos - 20) keyword_pos in
      any_in negation_words context_before
  end.

Definition _is_healthy_text (txt : text) : bool :=
  if negb (truthy txt) then false
  else
    let text_lower := str_lower rt txt in
    let has_healthy_keyword :=
      existsb (contains text_lower) (healthy_keywords self) in
    if negb has_healthy_keyword then false
    else forallb (pathology_ok text_lower) (pathology_keywords self).

(** The [for keyword in self.severe_keywords] loop. *)
Fixpoint severe_scan (text_lower : text) (keywords : list text)
  : bool * option text :=
  match keywords with
  | [] => (false, None)
  | keyword :: rest =>
      match find text_lower keyword with
      | None => severe_scan text_lower rest
      | Some keyword_pos =>
          let keyword_end := keyword_pos + List.length keyword in
          let context_before :=
            slice text_lower (keyword_pos - 25) keyword_pos in
          let context_after :=
            slice text_lower keyword_end
                  (Nat.min (List.length text_lower) (keyword_end + 30)) in
          let has_negation_before := any_in negation_before context_before in
          let has_negation_after := any_in negation_after context_after in
          if has_negation_before || has_negation_after
          then severe_scan text_lower rest
          else (true, Some keyword)
      end
  end.

Definition _contains_severe_condition (txt : text) : bool * option text :=
  if negb (truthy txt) then (false, None)
  else severe_scan (str_lower rt txt) (severe_keywords self).

Definition _check_type_e (diagnosis_text doctor_category : text)
  : ContradictionResult :=
  let is_healthy := _is_healthy_text diagnosis_text in
  let category_upper := strip (str_upper rt doctor_category) in
  if is_healthy && negb (in_A category_upper) then
    {| has_contradiction := true;
       contradiction_type := Some TYPE_E;
       severity := HIGH;
       c_description := DescTypeE doctor_category;
       source_field := Some "diagnosis_text"%string;
       target_field := Some "doctor_category"%string;
       source_value := Some (firstn 200 diagnosis_text);
       target_value := Some doctor_category;
       rag_matches := [];
       recommendation := Some RecTypeE |}
  else no_contradiction.

Definition _check_type_f (diagnosis_text doctor_category : text)
  : ContradictionResult :=
  let category_upper := strip (str_upper rt doctor_category) in
  if negb (in_A category_upper) then no_contradiction
  else
    let '(has_severe, found_keyword) :=
      _contains_severe_condition diagnosis_text in
    if has_severe then
      {| has_contradiction := true;
         contradiction_type := Some TYPE_F;
         severity := CRITICAL;
         c_description := DescTypeF found_keyword;
         source_field := Some "diagnosis_text"%string;
         target_field := Some "doctor_category"%string;
         source_value := Some (firstn 300 diagnosis_text);
         target_value := Some doctor_category;
         rag_matches := [];
         recommendation := Some RecTypeF |}
    else no_contradiction.

(** [categories.get(1) in ["Д", "Е", "НГ"]]. *)
Definition unfit_on_graph_1 (d : Disease) : bool :=
  match graph_1 (categories d) with
  | Some c => text_eqb c cat_D || text_eqb c cat_E || text_eqb c cat_NG
  | None => false
  end.

(** The loop of [_check_type_a] over the supplementary fields. *)
Fixpoint type_a_loop (db : Db E) (diagnosis_text : text)
         (fields : list (string * text)) : ContradictionResult :=
  match fields with
  | [] => no_contradiction
  | (field_name, field_value) :: rest =>
      if _is_healthy_text field_value
      then type_a_loop db diagnosis_text rest
      else
        let diseases :=
          search_diseases_in_text rt db field_value 3 (70 # 100)%Q in
        match diseases with
        | [] => type_a_loop db diagnosis_text rest
        | _ :: _ =>
            {| has_contradiction := true;
               contradiction_type := Some TYPE_A;
               severity := if existsb unfit_on_graph_1 diseases
                           then CRITICAL else HIGH;
               c_description :=
                 DescTypeA field_name (List.length diseases);
               source_field := Some "diagnosis_text"%string;
               target_field := Some field_name;
               source_value := Some (firstn 200 diagnosis_text);
               target_value := Some (firstn 200 field_value);
               rag_matches := diseases;
               recommendation := Some RecTypeA |}
        end
  end.

Definition _check_type_a (db : Db E) (diagnosis_text : text)
           (additional_fields : list (string * text))
  : ContradictionResult :=
  if negb (_is_healthy_text diagnosis_text) then no_contradiction
  else type_a_loop db diagnosis_text additional_fields.

Fixpoint type_b_loop (diagnosis_text : text)
         (fields : list (string * text)) : ContradictionResult :=
  match fields with
  | [] => no_contradiction
  | (field_name, field_value) :: rest =>
      if _is_healthy_text field_value then
        {| has_contradiction := true;
           contradiction_type := Some TYPE_B;
           severity := MEDIUM;
           c_description := DescTypeB field_name;
           source_field := Some "diagnosis_text"%string;
           target_field := Some field_name;
           source_value := Some (firstn 200 diagnosis_text);
           target_value := Some (firstn 200 field_value);
           rag_matches := [];
           recommendation := Some RecTypeB |}
      else type_b_loop diagnosis_text rest
  end.

Definition _check_type_b (diagnosis_text : text)
           (additional_fields : list (string * text))
  : ContradictionResult :=
  if _is_healthy_text diagnosis_text then no_contradiction
  else type_b_loop diagnosis_text additional_fields.

End Stage0.

Section Stage0Retrieval.

Context (rt : Runtime) (self : ContradictionChecker).
Let E := Embedding rt.

(** The inner loop of [_check_type_c], over the hits of one field;
    [None] when the loop runs to its end. *)
Fixpoint type_c_diseases (diagnosis_text : text) (diagnosis_first : Disease)
         (field_name : string) (field_value : text)
         (field_diseases : list Disease) : option ContradictionResult :=
  match field_diseases with
  | [] => None
  | disease :: rest =>
      let diagnosis_article := article diagnosis_first in
      let disease_article := article disease in
      let disease_categories := categories disease in
      if negb (disease_article =? 0)%Z
         && negb (disease_article =? diagnosis_article)%Z then
        let diagnosis_category := graph_1 (categories diagnosis_first) in
        let disease_category := graph_1 disease_categories in
        let diagnosis_sev := category_severity_opt diagnosis_category in
        let disease_sev := category_severity_opt disease_category in
        if (diagnosis_sev <? disease_sev)%Z then
          Some {| has_contradiction := true;
                  contradiction_type := Some TYPE_C;
                  severity := if (5 <=? disease_sev)%Z
                              then CRITICAL else HIGH;
                  c_description :=
                    DescTypeC diagnosis_article diagnosis_category
                              field_name disease_article disease_category;
                  source_field := Some "diagnosis_text"%string;
                  target_field := Some field_name;
                  source_value := Some (firstn 200 diagnosis_text);
                  target_value := Some (firstn 200 field_value);
                  rag_matches := [diagnosis_first; disease];
                  recommendation := Some (RecTypeC disease_article) |}
        else type_c_diseases diagnosis_text diagnosis_first
                             field_name field_value rest
      else type_c_diseases diagnosis_text diagnosis_first
                           field_name field_value rest
  end.

(** The outer loop of [_check_type_c], over the supplementary fields. *)
Fixpoint type_c_fields (db : Db E) (diagnosis_text : text)
         (diagnosis_first : Disease) (fields : list (string * text))
  : ContradictionResult :=
  match fields with
  | [] => no_contradiction
  | (field_name, field_value) :: rest =>
      if _is_healthy_text rt self field_value
      then type_c_fields db diagnosis_text diagnosis_first rest
      else
        let field_diseases :=
          search_diseases_in_text rt db field_value 3 (70 # 100)%Q in
        match type_c_diseases diagnosis_text diagnosis_first
                              field_name field_value field_diseases with
        | Some found => found
        | None => type_c_fields db diagnosis_text diagnosis_first rest
        end
  end.

Definition _check_type_c (db : Db E) (diagnosis_text : text)
           (additional_fields : list (string * text))
  : ContradictionResult :=
  if _is_healthy_text rt self diagnosis_text then no_contradiction
  else
    let diagnosis_diseases :=
      search_diseases_in_text rt db diagnosis_text 2 (65 # 100)%Q in
    match diagnosis_diseases with
    | [] => no_contradiction
    | diagnosis_first :: _ =>
        type_c_fields db diagnosis_text diagnosis_first additional_fields
    end.

Definition _check_type_d (db : Db E) (diagnosis_text doctor_category : text)
           (graph : Z) : ContradictionResult :=
  if _is_healthy_text rt self diagnosis_text then no_contradiction
  else
    let diseases :=
      search_diseases_in_text rt db diagnosis_text 1 (70 # 100)%Q in
    match diseases with
    | [] => no_contradiction
    | best_match :: _ =>
        match categories_get (categories best_match) graph with
        | None => no_contradiction
        | Some expected_category =>
            if negb (truthy expected_category) then no_contradiction
            else
              let doctor_cat_normalized :=
                strip (str_upper rt doctor_category) in
              let expected_cat_normalized :=
                strip (str_upper rt expected_category) in
              if negb (text_eqb doctor_cat_normalized
                                expected_cat_normalized) then
                let doctor_sev :=
                  category_severity doctor_cat_normalized in
                let expected_sev :=
                  category_severity expected_cat_normalized in
                {| has_contradiction := true;
                   contradiction_type := Some TYPE_D;
                   severity :=
                     if (2 <=? Z.abs (doctor_sev - expected_sev))%Z
                     then CRITICAL else HIGH;
                   c_description :=
                     DescTypeD doctor_category (article best_match)
                               (subpoint best_match) graph
                               expected_category;
                   source_field := Some "doctor_category"%string;
                   target_field := Some "handbook_category"%string;
                   source_value := Some doctor_category;
                   target_value := Some expected_category;
                   rag_matches := [best_match];
                   recommendation :=
                     Some (RecTypeD (article best_match)
                                    (subpoint best_match)) |}
              else no_contradiction
        end
    end.

(** [{k: v for k, v in additional_fields.items()
      if v and len(v.strip()) >= 10}], in insertion order. *)
Fixpoint filter_non_empty (fields : list (string * option text))
  : list (string * text) :=
  match fields with
  | [] => []
  | (k, Some v) :: rest =>
      if truthy v && (10 <=? List.length (strip v))%nat
      then (k, v) :: filter_non_empty rest
      else filter_non_empty rest
  | (_, None) :: rest => filter_non_empty rest
  end.

(** [if r.has_contradiction: contradictions.append(r)]. *)
Definition append_if_found (r : ContradictionResult)
  : list ContradictionResult :=
  if has_contradiction r then [r] else [].

Definition check_for_contradictions (db : Db E)
           (diagnosis_text doctor_category : text)
           (anamnesis complaints objective_data
            special_research_results doctor_notes : option text)
           (icd10_codes : option (list text)) (graph : Z)
  : list ContradictionResult :=
  let additional_fields :=
    [("anamnesis"%string, anamnesis);
     ("complaints"%string, complaints);
     ("objective_data"%string, objective_data);
     ("special_research_results"%string, special_research_results);
     ("doctor_notes"%string, doctor_notes)] in
  let non_empty_fields := filter_non_empty additional_fields in
  let type_e := _check_type_e rt self diagnosis_text doctor_category in
  let type_f := _check_type_f rt self diagnosis_text doctor_category in
  let type_a := _check_type_a rt self db diagnosis_text non_empty_fields in
  let type_b := _check_type_b rt self diagnosis_text non_empty_fields in
  let type_c := _check_type_c db diagnosis_text non_empty_fields in
  let type_d := _check_type_d db diagnosis_text doctor_category graph in
  append_if_found type_e ++ append_if_found type_f
  ++ append_if_found type_a ++ append_if_found type_b
  ++ append_if_found type_c ++ append_if_found type_d.

End Stage0Retrieval.

(* ===================================================================== *)
(** * criteria_validator.py *)
(* ===================================================================== *)

(** [CriteriaValidationResult]; the [categories] dictionary is either
    empty or holds the four graphs of one row. *)
Inductive ValidationMessage : Type :=
| NotInHandbook (subpoint_ : option text) (article_ : Z)
| ValidationFailed (e : PyException).

Record CriteriaValidationResult : Type := {
  is_valid : bool;
  v_article : Z;
  v_subpoint : option text;
  error_message : option ValidationMessage;
  v_categories : option Categories
}.

(** [result.scalar_one_or_none()]: more than one row raises
    [MultipleResultsFound]. *)
Definition scalar_one_or_none {A} (rows : list A) : Exc (option A) :=
  match rows with
  | [] => Ok None
  | [r] => Ok (Some r)
  | _ :: _ :: _ => Raise (OtherError "MultipleResultsFound")
  end.

(** [column == value]: SQLAlchemy renders a comparison with [None] as
    [IS NULL]; a comparison with a string never matches a NULL cell. *)
Definition sql_eq (cell value : option text) : bool :=
  match value, cell with
  | None, None => true
  | Some v, Some c => text_eqb c v
  | _, _ => false
  end.

(** [(column.is_(None)) | (column == '') | (column == 'null')]. *)
Definition sql_null_or_empty (cell : option text) : bool :=
  match cell with
  | None => true
  | Some c => text_eqb c [] || text_eqb c (u "null")
  end.

(** [subpoint is None or subpoint == "" or subpoint == "null"
     or subpoint == "None"]. *)
Definition no_subpoint (subpoint : option text) : bool :=
  match subpoint with
  | None => true
  | Some s => text_eqb s [] || text_eqb s (u "null") || text_eqb s (u "None")
  end.

Section CriteriaValidator.

Variable E : Type.

(** [db.execute(query)] for a filter on one table, rows in store
    order. *)
Definition execute_select {A} (db : Db E) (table : list A)
           (where_ : A -> bool) : Exc (list A) :=
  match execute_raises db with
  | Some e => Raise e
  | None => Ok (filter where_ table)
  end.

(** The body of the [try] block of [validate_article_subpoint]. *)
Definition validate_article_subpoint_try (db : Db E) (article_ : Z)
           (subpoint_ : option text) : Exc CriteriaValidationResult :=
  let criteria_match (c : PointCriterion E) :=
    if no_subpoint subpoint_
    then (pc_article c =? article_)%Z && sql_null_or_empty (pc_subpoint c)
    else (pc_article c =? article_)%Z && sql_eq (pc_subpoint c) subpoint_ in
  let diagnoses_match (d : PointDiagnosis) :=
    if no_subpoint subpoint_
    then (pd_article d =? article_)%Z && sql_null_or_empty (pd_subpoint d)
    else (pd_article d =? article_)%Z && sql_eq (pd_subpoint d) subpoint_ in
  (rows_c <- execute_select db (point_criteria db) criteria_match ;;
   point_criterion <- scalar_one_or_none (firstn 1 rows_c) ;;
   rows_d <- execute_select db (points_diagnoses db) diagnoses_match ;;
   point_diagnosis <- scalar_one_or_none (firstn 1 rows_d) ;;
   match point_criterion, point_diagnosis with
   | None, None =>
       Ok {| is_valid := false; v_article := article_;
             v_subpoint := subpoint_;
             error_message := Some (NotInHandbook subpoint_ article_);
             v_categories := None |}
   | _, _ =>
       Ok {| is_valid := true; v_article := article_;
             v_subpoint := subpoint_; error_message := None;
             v_categories := option_map pd_graphs point_diagnosis |}
   end)%exc.

Definition validate_article_subpoint (db : Db E) (article_ : Z)
           (subpoint_ : option text) : CriteriaValidationResult :=
  match validate_article_subpoint_try db article_ subpoint_ with
  | Ok r => r
  | Raise e =>
      {| is_valid := false; v_article := article_;
         v_subpoint := subpoint_;
         error_message := Some (ValidationFailed e);
         v_categories := None |}
  end.

(** [get_category_for_article_subpoint]: an exact comparison on the
    subpoint and no LIMIT. *)
Definition get_category_for_article_subpoint (db : Db E) (article_ : Z)
           (subpoint_ : option text) (graph : Z) : option text :=
  let try :=
    (rows <- execute_select db (points_diagnoses db)
               (fun d => (pd_article d =? article_)%Z
                         && sql_eq (pd_subpoint d) subpoint_) ;;
     point_diagnosis <- scalar_one_or_none rows ;;
     match point_diagnosis with
     | None => Ok None
     | Some d => Ok (categories_get (pd_graphs d) graph)
     end)%exc in
  match try with
  | Ok r => r
  | Raise _ => None
  end.

End CriteriaValidator.

(* ===================================================================== *)
(** * The analyzer the orchestrator calls (Stages 1 and 2) *)
(* ===================================================================== *)

(** The dictionary returned by [ai_analyzer.determine_subpoint], read by
    the orchestrator with [.get]; a missing key is [None]. *)
Record ClinicalResult : Type := {
  cr_is_healthy : option bool;
  cr_article : option Z;
  cr_subpoint : option text;
  cr_confidence : option Q;
  cr_reasoning : option text;
  cr_matched_criteria : option (list Disease);
  cr_validation_performed : option bool;
  cr_model : option text;
  cr_tokens_total : option Z
}.

(** The dictionary returned by [ai_analyzer.determine_category]. *)
Record CategoryResult : Type := {
  cat_category : option text;
  cat_source : option text;
  cat_all_categories : option Categories;
  cat_reasoning : option text
}.

(** [app.services.ai_analyzer] is outside the verified sources: the
    orchestrator is parametric in its two entry points, either of which
    may raise. *)
Record AIAnalyzer (E : Type) : Type := {
  determine_subpoint :
    Db E -> forall (doctor_conclusion specialty : text)
                   (icd10_codes : option (list text))
                   (article_hint : option Z)
                   (anamnesis complaints special_research_results :
                      option text),
      Exc ClinicalResult;
  determine_category :
    Db E -> forall (article_ : Z) (subpoint_ : option text) (graph : Z),
      Exc CategoryResult
}.

(* ===================================================================== *)
(** * schemas/validation.py: the response *)
(* ===================================================================== *)

Record RAGMatch : Type := {
  rm_article : Z;
  rm_subpoint : text;
  rm_description : text;
  rm_similarity : Q;
  rm_categories : Categories
}.

Record ContradictionDetail : Type := {
  cd_type : ContradictionType;
  cd_severity : Severity;
  cd_description : Description;
  cd_source_field : option string;
  cd_target_field : option string;
  cd_source_value : option text;
  cd_target_value : option text;
  cd_rag_matches : list RAGMatch;
  cd_recommendation : option Recommendation
}.

Record Stage1Details : Type := {
  s1_article : option Z;
  s1_subpoint : option text;
  s1_confidence : Q;
  s1_is_healthy : bool;
  s1_reasoning : option text;
  s1_matched_criteria : option (list Disease);
  s1_validation_performed : bool
}.

Record Stage2Details : Type := {
  s2_expected_category : option text;
  s2_doctor_category : text;
  s2_graph : Z;
  s2_source : option text;
  s2_all_categories : option Categories;
  s2_reasoning : option text
}.

Inductive StageDetails : Type :=
| ClinicalDetails (d : Stage1Details)
| AdministrativeDetails (d : Stage2Details).

Record ValidationStageResult : Type := {
  stage_name : text;
  stage_number : Z;
  passed : bool;
  status : StageStatus;
  details : StageDetails;
  duration_seconds : Q;
  stage_error_message : option text
}.

(** The entries of [review_reasons] and [recommendations]. *)
Inductive ReviewReason : Type :=
| ReasonContradiction (d : Description)
| ReasonLowConfidence (ai_confidence : Q)
| ReasonNoCategory (ai_article : Z) (ai_subpoint : option text)
| ReasonMismatch (doctor_category : text) (ai_category : option text)
| ReasonPartialMismatch (doctor_category : text) (ai_category : option text).

Inductive Advice : Type :=
| AdviceContradiction (r : Recommendation)
| AdviceCheckCategory (ai_article : option Z)
| AdviceBorderline (ai_article : option Z) (ai_subpoint : option text).

Record Metadata : Type := {
  md_model : text;
  total_duration_seconds : Q;
  stage_0_duration_seconds : Q;
  stage_1_duration_seconds : Q;
  stage_2_duration_seconds : Q;
  tokens_used : Z;
  md_graph : Z;
  md_specialty : text
}.

Record CheckDoctorConclusionResponse : Type := {
  overall_status : OverallStatusEnum;
  risk_level : Severity;
  stage_0_contradictions : list ContradictionDetail;
  stage_1_clinical : ValidationStageResult;
  stage_2_administrative : ValidationStageResult;
  ai_recommended_article : option Z;
  ai_recommended_subpoint : option text;
  ai_recommended_category : option text;
  ai_confidence : Q;
  ai_reasoning : text;
  doctor_article : option Z;
  doctor_subpoint : option text;
  doctor_category : text;
  category_match_status : MatchStatusEnum;
  should_review : bool;
  review_reasons : list ReviewReason;
  recommendations : list Advice;
  is_healthy : bool;
  metadata : Metadata
}.

(** Pydantic's [Field(..., ge=0, le=1)]. *)
Definition in_unit_interval (q : Q) : bool :=
  Qle_bool 0 q && Qle_bool q 1.

Definition ValidationError : PyException := OtherError "ValidationError".

(** [str(x)] of an optional string. *)
Definition py_str (x : option text) : text :=
  match x with
  | Some s => s
  | None => u "None"
  end.

(** [RAGMatch(...)], with its validation of [similarity]. *)
Definition make_RAGMatch (d : Disease) : Exc RAGMatch :=
  if in_unit_interval (similarity d) then
    Ok {| rm_article := article d;
          rm_subpoint := py_str (subpoint d);
          rm_description := firstn 500 (description d);
          rm_similarity := similarity d;
          rm_categories := categories d |}
  else Raise ValidationError.

Fixpoint convert_rag_matches (ms : list Disease) : Exc (list RAGMatch) :=
  match ms with
  | [] => Ok []
  | d :: rest =>
      (m <- make_RAGMatch d ;;
       ms' <- convert_rag_matches rest ;;
       Ok (m :: ms'))%exc
  end.

(** [_convert_contradictions]. *)
Fixpoint _convert_contradictions (contradictions : list ContradictionResult)
  : Exc (list ContradictionDetail) :=
  match contradictions with
  | [] => Ok []
  | c :: rest =>
      if negb (has_contradiction c) then _convert_contradictions rest
      else
        (rag <- convert_rag_matches (rag_matches c) ;;
         ty <- match contradiction_type c with
               | Some ty => Ok ty
               | None => Raise (OtherError "AttributeError")
               end ;;
         rest' <- _convert_contradictions rest ;;
         Ok ({| cd_type := ty;
                cd_severity := severity c;
                cd_description := c_description c;
                cd_source_field := source_field c;
                cd_target_field := target_field c;
                cd_source_value := source_value c;
                cd_target_value := target_value c;
                cd_rag_matches := rag;
                cd_recommendation := recommendation c |} :: rest'))%exc
  end.

(* ===================================================================== *)
(** * The mutable world: clock, identifiers, result table *)
(* ===================================================================== *)

Definition UUID := N.

(** [models/conscript.py]: of a conscript the services read the
    primary key [id] only; the class has no column [conscript_id]. *)
Record Conscript : Type := {
  conscript_pk : UUID
}.

(** [models/ai.py]: one saved analysis. *)
Record AIAnalysisResult : Type := {
  ar_id : UUID;
  ar_conscript_draft_id : UUID;
  ar_examination_id : option UUID;
  ar_specialty : text;
  ar_doctor_category : text;
  ar_ai_recommended_category : text;
  ar_status : OverallStatusEnum;
  ar_risk_level : Severity;
  ar_article : option Z;
  ar_subpoint : option text;
  ar_reasoning : text;
  ar_confidence : Q;
  ar_model_used : text;
  ar_tokens_used : Z;
  ar_analysis_duration_seconds : Q;
  ar_created_at : Q
}.

(** What a call can observe and change besides its arguments:
    [datetime.now()] reads the [ticks]-th value of [clock], [uuid.uuid4()]
    the [drawn]-th value of [uuids]; the save step reads [conscripts],
    rewrites [ai_analysis_results], and its commit checks the foreign
    keys against [conscripts] and against [examinations], the primary
    keys of [specialists_examinations]. *)
Record World : Type := {
  clock : nat -> Q;
  ticks : nat;
  uuids : nat -> UUID;
  drawn : nat;
  conscripts : list Conscript;
  examinations : list UUID;
  ai_analysis_results : list AIAnalysisResult
}.

(** [datetime.now()], as seconds. *)
Definition now (w : World) : Q * World :=
  (clock w (ticks w),
   {| clock := clock w; ticks := S (ticks w);
      uuids := uuids w; drawn := drawn w;
      conscripts := conscripts w;
      examinations := examinations w;
      ai_analysis_results := ai_analysis_results w |}).

(** [uuid.uuid4()]. *)
Definition uuid4 (w : World) : UUID * World :=
  (uuids w (drawn w),
   {| clock := clock w; ticks := ticks w;
      uuids := uuids w; drawn := S (drawn w);
      conscripts := conscripts w;
      examinations := examinations w;
      ai_analysis_results := ai_analysis_results w |}).

Definition set_results (w : World) (rs : list AIAnalysisResult) : World :=
  {| clock := clock w; ticks := ticks w;
     uuids := uuids w; drawn := drawn w;
     conscripts := conscripts w;
     examinations := examinations w;
     ai_analysis_results := rs |}.

Definition default_model : text := u "gpt-4o-mini".
Definition unknown_category : text := u "UNKNOWN".

(** [db.commit()] of a new row into a table: what the constraints of
    [ai_analysis_results] (models/ai.py) let through.  The primary key
    is new to the table; [conscript_draft_id] is the key of a conscript
    and [examination_id], when given, the key of an examination; the
    [String(n)] columns hold at most [n] characters and the [Integer]
    columns 32-bit values.  (The status and the risk level are written
    from their enumerations, whose names fit their columns.) *)
Definition commit_accepts (w : World) (table : list AIAnalysisResult)
           (row : AIAnalysisResult) : bool :=
  negb (existsb (fun r => (ar_id r =? ar_id row)%N) table)
  && existsb (fun c => (conscript_pk c =? ar_conscript_draft_id row)%N)
             (conscripts w)
  && match ar_examination_id row with
     | Some x => existsb (N.eqb x) (examinations w)
     | None => true
     end
  && (List.length (ar_specialty row) <=? 100)%nat
  && (List.length (ar_doctor_category row) <=? 10)%nat
  && (List.length (ar_ai_recommended_category row) <=? 10)%nat
  && (List.length (ar_model_used row) <=? 100)%nat
  && match ar_article row with
     | Some a => fits_int32 a
     | None => true
     end
  && fits_int32 (ar_tokens_used row).

Section SaveResult.

Variable E : Type.

(** [_save_analysis_result]: delete the rows of the same
    (draft, specialty), add the new one, commit.  A commit the
    constraints refuse raises, and the transaction -- the deletion
    included -- is rolled back. *)
Definition _save_analysis_result (db : Db E) (w : World)
           (conscript_draft_id : UUID) (specialty doctor_category_ : text)
           (ai_recommended_category_ : option text)
           (status_ : OverallStatusEnum) (risk_level_ : Severity)
           (article_ : option Z) (subpoint_ : option text)
           (reasoning : text) (confidence : Q) (model_used : text)
           (tokens_used_ : Z) (analysis_duration_seconds : Q)
           (examination_id : option UUID) : Exc unit * World :=
  match execute_raises db with
  | Some e => (Raise e, w)
  | None =>
      let kept :=
        filter (fun r => negb ((ar_conscript_draft_id r =? conscript_draft_id)%N
                               && text_eqb (ar_specialty r) specialty))
               (ai_analysis_results w) in
      let '(new_id, w) := uuid4 w in
      let '(created, w) := now w in
      let row :=
        {| ar_id := new_id;
           ar_conscript_draft_id := conscript_draft_id;
           ar_examination_id := examination_id;
           ar_specialty := specialty;
           ar_doctor_category := doctor_category_;
           ar_ai_recommended_category :=
             match ai_recommended_category_ with
             | Some c => if truthy c then c else unknown_category
             | None => unknown_category
             end;
           ar_status := status_;
           ar_risk_level := risk_level_;
           ar_article := article_;
           ar_subpoint := subpoint_;
           ar_reasoning := firstn 5000 reasoning;
           ar_confidence := confidence;
           ar_model_used := model_used;
           ar_tokens_used := tokens_used_;
           ar_analysis_duration_seconds := analysis_duration_seconds;
           ar_created_at := created |} in
      if commit_accepts w kept row
      then (Ok tt, set_results w (kept ++ [row]))
      else (Raise DatabaseError, w)
  end.

(** The look-up of the draft: by [Conscript.id]; when that finds
    nothing the code builds a second query on [Conscript.conscript_id],
    an attribute the class does not have, which raises
    [AttributeError]. *)
Definition find_draft (db : Db E) (w : World) (conscript_draft_id : UUID)
  : Exc (option Conscript) :=
  (rows <- execute_select db (conscripts w)
             (fun c => (conscript_pk c =? conscript_draft_id)%N) ;;
   draft <- scalar_one_or_none rows ;;
   match draft with
   | Some d => Ok (Some d)
   | None => Raise (OtherError "AttributeError")
   end)%exc.

End SaveResult.

(* ===================================================================== *)
(** * full_validation_service.py *)
(* ===================================================================== *)

(** [CheckDoctorConclusionRequest]: the keyword arguments of
    [full_validation_with_contradiction_check], which the router passes
    field by field. *)
Record CheckDoctorConclusionRequest : Type := {
  rq_diagnosis_text : text;
  rq_doctor_category : text;
  rq_specialty : text;
  rq_anamnesis : option text;
  rq_complaints : option text;
  rq_objective_data : option text;
  rq_special_research_results : option text;
  rq_conclusion_text : option text;
  rq_doctor_notes : option text;
  rq_icd10_codes : option (list text);
  rq_article_hint : option Z;
  rq_subpoint_hint : option text;
  rq_graph : Z;
  rq_conscript_draft_id : option UUID;
  rq_examination_id : option UUID;
  rq_save_to_db : bool
}.

Definition stage_1_name : text := u "Клиническая валидация (AI + Приложение 2)".
Definition stage_2_name : text :=
  u "Административная проверка (SQL + Приложение 1)".
Definition healthy_rule : text := u "HEALTHY_RULE".
Definition healthy_reasoning : text :=
  u "Призывник здоров - категория А (годен к военной службе)".
Definition skipped_reasoning : text := u "Этап пропущен: не определена статья".

Definition borderline_2_3 : list text :=
  [u "туберкулез"; u "туберкулёз"; u "остаточн"; u "посттуберкулезн";
   u "излечен"; u "вылечен"; u "после лечения"].
Definition borderline_2_4 : list text :=
  [u "мал"; u "остаточн"; u "единичн"; u "очаг"; u "петрификат"].
Definition borderline_1_2 : list text :=
  [u "после"; u "перенес"; u "гепатит"; u "тиф"].

(** [article == n and subpoint == s]. *)
Definition is_entry (article_ : option Z) (subpoint_ : option text)
           (n : Z) (s : text) : bool :=
  match article_, subpoint_ with
  | Some a, Some sp => (a =? n)%Z && text_eqb sp s
  | _, _ => false
  end.

(** [x or default]-style reads of an optional key. *)
Definition get_or {A} (x : option A) (default : A) : A :=
  match x with Some a => a | None => default end.

(** The loop that copies the findings into [review_reasons]. *)
Fixpoint contradiction_reasons (cs : list ContradictionResult)
  : list ReviewReason :=
  match cs with
  | [] => []
  | c :: rest =>
      if has_contradiction c
      then ReasonContradiction (c_description c) :: contradiction_reasons rest
      else contradiction_reasons rest
  end.

(** The same loop, for [recommendations]. *)
Fixpoint contradiction_advice (cs : list ContradictionResult)
  : list Advice :=
  match cs with
  | [] => []
  | c :: rest =>
      if has_contradiction c then
        match recommendation c with
        | Some r => AdviceContradiction r :: contradiction_advice rest
        | None => contradiction_advice rest
        end
      else contradiction_advice rest
  end.

Section Aggregator.

Context (rt : Runtime).

Definition _is_borderline_case (article_ : option Z)
           (subpoint_ : option text) (diagnosis_text : text) : bool :=
  let diagnosis_lower := str_lower rt diagnosis_text in
  if is_entry article_ subpoint_ 2 (u "3")
     && any_in borderline_2_3 diagnosis_lower then true
  else if is_entry article_ subpoint_ 2 (u "4")
          && any_in borderline_2_4 diagnosis_lower then true
  else if is_entry article_ subpoint_ 1 (u "2")
          && any_in borderline_1_2 diagnosis_lower then true
  else false.

Definition _determine_category_match_status (doctor_category_ : text)
           (ai_category : option text) (is_healthy_ : bool)
           (ai_article : option Z) (ai_subpoint : option text)
           (diagnosis_text : text) : MatchStatusEnum :=
  match ai_category with
  | None =>
      let doctor_normalized := strip (str_upper rt doctor_category_) in
      match ai_article, ai_subpoint with
      | None, None => if in_A doctor_normalized then MATCH
                      else REVIEW_REQUIRED
      | _, _ => REVIEW_REQUIRED
      end
  | Some ai_category =>
      let doctor_normalized := strip (str_upper rt doctor_category_) in
      let ai_normalized := strip (str_upper rt ai_category) in
      if is_healthy_ then
        if in_A doctor_normalized then MATCH else MISMATCH
      else if text_eqb doctor_normalized ai_normalized then MATCH
      else if _is_borderline_case ai_article ai_subpoint diagnosis_text
      then PARTIAL_MISMATCH
      else MISMATCH
  end.

Definition _calculate_overall_status
           (contradictions : list ContradictionResult)
           (category_match_status_ : MatchStatusEnum)
           (ai_confidence_ : Q) (is_healthy_ : bool)
  : OverallStatusEnum * Severity :=
  let has_any_contradiction := existsb has_contradiction contradictions in
  if MatchStatus_eqb category_match_status_ MATCH
     && negb has_any_contradiction then (VALID, LOW)
  else
    let has_critical :=
      existsb (fun c => has_contradiction c
                        && Severity_eqb (severity c) CRITICAL)
              contradictions in
    let has_high :=
      existsb (fun c => has_contradiction c
                        && Severity_eqb (severity c) HIGH)
              contradictions in
    if has_critical then (INVALID, CRITICAL)
    else if MatchStatus_eqb category_match_status_ MISMATCH then
      if has_high then (INVALID, HIGH) else (WARNING, HIGH)
    else if MatchStatus_eqb category_match_status_ PARTIAL_MISMATCH
    then (WARNING, MEDIUM)
    else if has_any_contradiction then
      if has_high then (WARNING, HIGH) else (WARNING, MEDIUM)
    else if Qlt_bool ai_confidence_ (1 # 2) && negb is_healthy_
    then (WARNING, MEDIUM)
    else if MatchStatus_eqb category_match_status_ REVIEW_REQUIRED
    then (WARNING, MEDIUM)
    else if Qle_bool (7 # 10) ai_confidence_ || is_healthy_
    then (VALID, LOW)
    else (VALID, MEDIUM).

End Aggregator.

Section Orchestrator.

Context (rt : Runtime) (self : ContradictionChecker)
        (ai_analyzer : AIAnalyzer (Embedding rt)).
Let E := Embedding rt.

(** What the three branches of Stage 2 leave behind: [ai_category],
    [category_result], [stage_2_passed], [stage_2_status] and the
    grown [review_reasons]. *)
Definition stage_2_branch (db : Db E) (is_healthy_ : bool)
           (ai_article : option Z) (ai_subpoint : option text)
           (graph : Z) (review_reasons_ : list ReviewReason)
  : Exc (option text * CategoryResult * bool * StageStatus
         * list ReviewReason) :=
  let skipped :=
    Ok (None,
        {| cat_category := None; cat_source := None;
           cat_all_categories := None;
           cat_reasoning := Some skipped_reasoning |},
        false, SKIPPED, review_reasons_) in
  if is_healthy_ then
    Ok (Some cat_A,
        {| cat_category := Some cat_A; cat_source := Some healthy_rule;
           cat_all_categories := None;
           cat_reasoning := Some healthy_reasoning |},
        true, SUCCESS, review_reasons_)
  else
    match ai_article with
    | Some a =>
        if (a =? 0)%Z then skipped
        else
          (category_result <-
             determine_category ai_analyzer db a ai_subpoint graph ;;
           let ai_category := cat_category category_result in
           let stage_2_passed :=
             match ai_category with Some _ => true | None => false end in
           Ok (ai_category, category_result, stage_2_passed,
               if stage_2_passed then SUCCESS else STAGE_ERROR,
               if stage_2_passed then review_reasons_
               else review_reasons_ ++ [ReasonNoCategory a ai_subpoint])
          )%exc
    | None => skipped
    end.

Definition full_validation_with_contradiction_check
           (db : Db E) (w : World) (rq : CheckDoctorConclusionRequest)
  : Exc CheckDoctorConclusionResponse * World :=
  let diagnosis_text := rq_diagnosis_text rq in
  let doctor_category_ := rq_doctor_category rq in
  let graph := rq_graph rq in
  let '(total_start_time, w) := now w in
  (* Stage 0 *)
  let '(stage_0_start, w) := now w in
  let contradictions :=
    check_for_contradictions rt self db diagnosis_text doctor_category_
      (rq_anamnesis rq) (rq_complaints rq) (rq_objective_data rq)
      (rq_special_research_results rq) (rq_doctor_notes rq)
      (rq_icd10_codes rq) graph in
  let '(stage_0_end, w) := now w in
  let stage_0_duration := (stage_0_end - stage_0_start)%Q in
  match _convert_contradictions contradictions with
  | Raise e => (Raise e, w)
  | Ok stage_0_contradictions_ =>
  let review_reasons_ := contradiction_reasons contradictions in
  let recommendations_ := contradiction_advice contradictions in
  (* Stage 1 *)
  let '(stage_1_start, w) := now w in
  let analysis_text :=
    match rq_conclusion_text rq with
    | Some t => if truthy t then t else diagnosis_text
    | None => diagnosis_text
    end in
  match determine_subpoint ai_analyzer db analysis_text (rq_specialty rq)
          (rq_icd10_codes rq) (rq_article_hint rq) (rq_anamnesis rq)
          (rq_complaints rq) (rq_special_research_results rq) with
  | Raise e => (Raise e, w)
  | Ok clinical_result =>
  let '(stage_1_end, w) := now w in
  let stage_1_duration := (stage_1_end - stage_1_start)%Q in
  let is_healthy_ := get_or (cr_is_healthy clinical_result) false in
  let ai_article := cr_article clinical_result in
  let ai_subpoint := cr_subpoint clinical_result in
  let ai_confidence_ := get_or (cr_confidence clinical_result) 0%Q in
  let ai_reasoning_ := get_or (cr_reasoning clinical_result) [] in
  let stage_1_passed := Qle_bool (1 # 2) ai_confidence_ || is_healthy_ in
  let stage_1_status := if stage_1_passed then SUCCESS else STAGE_WARNING in
  let review_reasons_ :=
    if negb stage_1_passed && negb is_healthy_
    then review_reasons_ ++ [ReasonLowConfidence ai_confidence_]
    else review_reasons_ in
  let stage_1_clinical_ :=
    {| stage_name := stage_1_name;
       stage_number := 1;
       passed := stage_1_passed;
       status := stage_1_status;
       details := ClinicalDetails
         {| s1_article := ai_article;
            s1_subpoint := ai_subpoint;
            s1_confidence := ai_confidence_;
            s1_is_healthy := is_healthy_;
            s1_reasoning := if truthy ai_reasoning_
                            then Some (firstn 500 ai_reasoning_) else None;
            s1_matched_criteria := cr_matched_criteria clinical_result;
            s1_validation_performed :=
              get_or (cr_validation_performed clinical_result) false |};
       duration_seconds := stage_1_duration;
       stage_error_message := None |} in
  (* Stage 2 *)
  let '(stage_2_start, w) := now w in
  match stage_2_branch db is_healthy_ ai_article ai_subpoint graph
                       review_reasons_ with
  | Raise e => (Raise e, w)
  | Ok (ai_category, category_result, stage_2_passed, stage_2_status,
        review_reasons_) =>
  let '(stage_2_end, w) := now w in
  let stage_2_duration := (stage_2_end - stage_2_start)%Q in
  let stage_2_administrative_ :=
    {| stage_name := stage_2_name;
       stage_number := 2;
       passed := stage_2_passed;
       status := stage_2_status;
       details := AdministrativeDetails
         {| s2_expected_category := ai_category;
            s2_doctor_category := doctor_category_;
            s2_graph := graph;
            s2_source := cat_source category_result;
            s2_all_categories := cat_all_categories category_result;
            s2_reasoning := cat_reasoning category_result |};
       duration_seconds := stage_2_duration;
       stage_error_message := None |} in
  (* the verdict *)
  let '(total_end, w) := now w in
  let total_duration := (total_end - total_start_time)%Q in
  let category_match_status_ :=
    _determine_category_match_status rt doctor_category_ ai_category
      is_healthy_ ai_article ai_subpoint diagnosis_text in
  let '(review_reasons_, recommendations_) :=
    match category_match_status_ with
    | MISMATCH =>
        (review_reasons_ ++ [ReasonMismatch doctor_category_ ai_category],
         recommendations_
         ++ [AdviceCheckCategory
               match ai_article with
               | Some a => if (a =? 0)%Z then None else Some a
               | None => None
               end])
    | PARTIAL_MISMATCH =>
        (review_reasons_
         ++ [ReasonPartialMismatch doctor_category_ ai_category],
         recommendations_ ++ [AdviceBorderline ai_article ai_subpoint])
    | _ => (review_reasons_, recommendations_)
    end in
  let '(overall_status_, risk_level_) :=
    _calculate_overall_status contradictions category_match_status_
                              ai_confidence_ is_healthy_ in
  let should_review_ :=
    negb (OverallStatus_eqb overall_status_ VALID)
    || (0 <? List.length review_reasons_)%nat
    || (Severity_eqb risk_level_ HIGH || Severity_eqb risk_level_ CRITICAL) in
  let metadata_ :=
    {| md_model := get_or (cr_model clinical_result) default_model;
       total_duration_seconds := total_duration;
       stage_0_duration_seconds := stage_0_duration;
       stage_1_duration_seconds := stage_1_duration;
       stage_2_duration_seconds := stage_2_duration;
       tokens_used := get_or (cr_tokens_total clinical_result) 0%Z;
       md_graph := graph;
       md_specialty := rq_specialty rq |} in
  (* saving; every exception of this block is caught and logged, the
     [AttributeError] of the log line that follows a successful save
     ([draft.conscript_id]) included *)
  let w :=
    match rq_save_to_db rq, rq_conscript_draft_id rq with
    | true, Some conscript_draft_id =>
        match find_draft db w conscript_draft_id with
        | Ok (Some draft) =>
            snd (_save_analysis_result db w (conscript_pk draft)
                   (rq_specialty rq) doctor_category_ ai_category
                   overall_status_ risk_level_ ai_article ai_subpoint
                   ai_reasoning_ ai_confidence_ (md_model metadata_)
                   (tokens_used metadata_) total_duration
                   (rq_examination_id rq))
        | _ => w
        end
    | _, _ => w
    end in
  (* CheckDoctorConclusionResponse(...), which validates ai_confidence *)
  (if in_unit_interval ai_confidence_ then
     Ok {| overall_status := overall_status_;
           risk_level := risk_level_;
           stage_0_contradictions := stage_0_contradictions_;
           stage_1_clinical := stage_1_clinical_;
           stage_2_administrative := stage_2_administrative_;
           ai_recommended_article := ai_article;
           ai_recommended_subpoint := ai_subpoint;
           ai_recommended_category := ai_category;
           ai_confidence := ai_confidence_;
           ai_reasoning := ai_reasoning_;
           doctor_article := rq_article_hint rq;
           doctor_subpoint := rq_subpoint_hint rq;
           doctor_category := doctor_category_;
           category_match_status := category_match_status_;
           should_review := should_review_;
           review_reasons := review_reasons_;
           recommendations := recommendations_;
           is_healthy := is_healthy_;
           metadata := metadata_ |}
   else Raise ValidationError, w)
  end end end.

End Orchestrator.

(* ===================================================================== *)
(** * routers/validation.py *)
(* ===================================================================== *)

(** What the client receives: the body with status 200, or the
    [HTTPException(status_code=500)] raised by the handler's [except]. *)
Inductive HTTPResponse (A : Type) : Type :=
| Http200 (body : A)
| Http500 (detail : PyException).

Arguments Http200 {A} body.
Arguments Http500 {A} detail.

Section Router.

Context (rt : Runtime) (self : ContradictionChecker)
        (ai_analyzer : AIAnalyzer (Embedding rt)).

Definition check_doctor_conclusion (db : Db (Embedding rt)) (w : World)
           (request : CheckDoctorConclusionRequest)
  : HTTPResponse CheckDoctorConclusionResponse * World :=
  match full_validation_with_contradiction_check rt self ai_analyzer
          db w request with
  | (Ok result, w') => (Http200 result, w')
  | (Raise e, w') => (Http500 e, w')
  end.

(** The [/search-diseases-in-text] endpoint; only the ["diseases"]
    entry of its answer is kept. *)
Definition search_diseases_endpoint (db : Db (Embedding rt)) (txt : text)
           (top_k : Z) (similarity_threshold : Q)
  : HTTPResponse (list Disease) :=
  Http200 (search_diseases_in_text rt db txt top_k similarity_threshold).

End Router.

(* ===================================================================== *)
(** * The category alphabet in the spec's words *)
(* ===================================================================== *)

(** "А < Б < В = В-ИНД < Г < Д < Е < НГ": the classes of the order, from
    the fittest on.  The spec treats Latin "A" as Cyrillic "А"
    throughout, so the two share the first class. *)
Definition category_alphabet : list (list text) :=
  [[cat_A; cat_A_latin]; [cat_B]; [cat_V; cat_V_ind]; [cat_G]; [cat_D];
   [cat_E]; [cat_NG]].

(** The 1-based rank of the class a code belongs to; a code outside
    the alphabet has none. *)
Fixpoint rank_from (classes : list (list text)) (i : Z) (c : text)
  : option Z :=
  match classes with
  | [] => None
  | cls :: rest => if existsb (text_eqb c) cls then Some i
                   else rank_from rest (i + 1) c
  end.

Definition ordinal (c : text) : option Z := rank_from category_alphabet 1 c.

(** The ordinal distance of two codes of the alphabet. *)
Definition ordinal_distance (a b : text) : option Z :=
  match ordinal a, ordinal b with
  | Some i, Some j => Some (Z.abs (i - j))
  | _, _ => None
  end.

(* ===================================================================== *)
(** * Occurrences of a keyword *)
(* ===================================================================== *)

(** [kw] occurs in [s] at offset [p]. *)
Definition occurs_at (s kw : text) (p : nat) : Prop :=
  p <= List.length s /\ starts_with kw (skipn p s) = true.

(** No negation marker in the 25 characters before offset [p] nor in the
    30 characters after the keyword that starts there. *)
Definition unnegated_at (s kw : text) (p : nat) : bool :=
  negb (any_in negation_before (slice s (p - 25) p))
  && negb (any_in negation_after
             (slice s (p + List.length kw)
                    (Nat.min (List.length s) (p + List.length kw + 30)))).

(** A negation marker in the 20 characters before offset [p]. *)
Definition negated_at (s : text) (p : nat) : bool :=
  any_in negation_words (slice s (p - 20) p).

(** The findings of one type in a Stage-0 report. *)
Definition findings_of (ty : ContradictionType)
           (report : list ContradictionResult) : list ContradictionResult :=
  filter (fun r => match contradiction_type r with
                   | Some t => ContradictionType_eqb t ty
                   | None => false
                   end) report.

(** What a check may return: the "no contradiction" sentinel, or a
    finding of its own type. *)
Definition returns_type (ty : ContradictionType) (r : ContradictionResult)
  : Prop :=
  r = no_contradiction
  \/ (has_contradiction r = true /\ contradiction_type r = Some ty).

(** A Type C finding compares graph-1 categories only: it names the
    diagnosis match and a supplementary-field match of another article
    whose graph-1 category ranks higher, and is CRITICAL exactly when
    that rank is 5 or more. *)
Definition graph_1_comparison (r : ContradictionResult) : Prop :=
  exists first disease,
    rag_matches r = [first; disease]
    /\ article disease <> article first
    /\ (category_severity_opt (graph_1 (categories first))
        < category_severity_opt (graph_1 (categories disease)))%Z
    /\ (severity r = CRITICAL <->
        5 <= category_severity_opt (graph_1 (categories disease)))%Z
    /\ (severity r = HIGH <->
        category_severity_opt (graph_1 (categories disease)) < 5)%Z.

(* ===================================================================== *)
(** * Verdicts up to their durations *)
(* ===================================================================== *)

Definition erase_stage_duration (s : ValidationStageResult)
  : ValidationStageResult :=
  {| stage_name := stage_name s;
     stage_number := stage_number s;
     passed := passed s;
     status := status s;
     details := details s;
     duration_seconds := 0%Q;
     stage_error_message := stage_error_message s |}.

Definition erase_metadata_durations (m : Metadata) : Metadata :=
  {| md_model := md_model m;
     total_duration_seconds := 0%Q;
     stage_0_duration_seconds := 0%Q;
     stage_1_duration_seconds := 0%Q;
     stage_2_duration_seconds := 0%Q;
     tokens_used := tokens_used m;
     md_graph := md_graph m;
     md_specialty := md_specialty m |}.

Definition erase_durations (r : CheckDoctorConclusionResponse)
  : CheckDoctorConclusionResponse :=
  {| overall_status := overall_status r;
     risk_level := risk_level r;
     stage_0_contradictions := stage_0_contradictions r;
     stage_1_clinical := erase_stage_duration (stage_1_clinical r);
     stage_2_administrative := erase_stage_duration (stage_2_administrative r);
     ai_recommended_article := ai_recommended_article r;
     ai_recommended_subpoint := ai_recommended_subpoint r;
     ai_recommended_category := ai_recommended_category r;
     ai_confidence := ai_confidence r;
     ai_reasoning := ai_reasoning r;
     doctor_article := doctor_article r;
     doctor_subpoint := doctor_subpoint r;
     doctor_category := doctor_category r;
     category_match_status := category_match_status r;
     should_review := should_review r;
     review_reasons := review_reasons r;
     recommendations := recommendations r;
     is_healthy := is_healthy r;
     metadata := erase_metadata_durations (metadata r) |}.

Definition exc_map {A B} (f : A -> B) (m : Exc A) : Exc B :=
  match m with
  | Ok a => Ok (f a)
  | Raise e => Raise e
  end.

(** The statuses a verdict reports, and whether any of them is ERROR. *)
Definition reports_error (r : CheckDoctorConclusionResponse) : bool :=
  match status (stage_1_clinical r), status (stage_2_administrative r) with
  | STAGE_ERROR, _ | _, STAGE_ERROR => true
  | _, _ => false
  end.

(* ===================================================================== *)
(** * Failing and silent collaborators *)
(* ===================================================================== *)

(** The same runtime with the embedding provider raising [e] on every
    call. *)
Definition embedder_down (rt : Runtime) (e : PyException) : Runtime :=
  {| Embedding := Embedding rt;
     str_lower := str_lower rt;
     str_upper := str_upper rt;
     create_embedding := fun _ => Raise e;
     cosine_distance := cosine_distance rt |}.

(** The same runtime with a working provider and a store in which
    nothing resembles anything: every cosine distance is 2. *)
Definition nothing_similar (rt : Runtime) : Runtime :=
  {| Embedding := Embedding rt;
     str_lower := str_lower rt;
     str_upper := str_upper rt;
     create_embedding := create_embedding rt;
     cosine_distance := fun _ _ => 2%Q |}.

(** The same session with [db.execute] raising [e]. *)
Definition session_down {E : Type} (db : Db E) (e : PyException) : Db E :=
  {| point_criteria := point_criteria db;
     points_diagnoses := points_diagnoses db;
     execute_raises := Some e |}.

(** The Stage-0 report when only the checks that use no retrieval can
    fire. *)
Definition report_without_retrieval (rt : Runtime)
           (self : ContradictionChecker) (diag cat : text)
           (an co ob sr dn : option text) : list ContradictionResult :=
  let fields :=
    filter_non_empty
      [("anamnesis"%string, an); ("complaints"%string, co);
       ("objective_data"%string, ob);
       ("special_research_results"%string, sr);
       ("doctor_notes"%string, dn)] in
  append_if_found (_check_type_e rt self diag cat)
  ++ append_if_found (_check_type_f rt self diag cat)
  ++ append_if_found (_check_type_b rt self diag fields).

(** Retrieval answers nothing at the thresholds Stage 0 uses (0.65 and
    0.70). *)
Definition retrieval_silent (rt : Runtime) (db : Db (Embedding rt)) : Prop :=
  forall txt top_k thr,
    (65 # 100 <= thr)%Q -> search_diseases_in_text rt db txt top_k thr = [].

(** A finding the response schema accepts: it has a type, and the
    similarity of each of its matches lies in [0, 1]. *)
Definition well_formed_finding (r : ContradictionResult) : Prop :=
  (has_contradiction r = true -> contradiction_type r <> None)
  /\ Forall (fun d => in_unit_interval (similarity d) = true) (rag_matches r).

(** Cosine distances to the embedding of any query are not negative. *)
Definition distances_nonnegative (rt : Runtime) (db : Db (Embedding rt))
  : Prop :=
  forall txt q c e,
    create_embedding rt txt = Ok q ->
    In c (point_criteria db) -> criteria_embedding c = Some e ->
    (0 <= cosine_distance rt e q)%Q.

(* ===================================================================== *)
(** * Orders on retrieval results *)
(* ===================================================================== *)



(* ===================================================================== *)
(** * rag_service.py: the other retrievers *)
(* ===================================================================== *)

(** [settings.RAG_TOP_K] (config.py). *)
Definition RAG_TOP_K : Z := 5.

(** One entry of the list returned by [find_similar_criteria]; the
    row's primary key, which the dictionary also carries, is not part
    of the modelled table. *)
Record SimilarCriterion : Type := {
  sc_article : Z;
  sc_subpoint : option text;
  sc_description : text;
  sc_similarity : Q
}.

Section Criteria.

Context (rt : Runtime).
Let E := Embedding rt.

(** [if article: query = query.where(PointCriterion.article == article)]:
    neither [None] nor [0] adds the filter. *)
Definition in_article (article_ : option Z) (c : PointCriterion E) : bool :=
  match article_ with
  | Some a => if (a =? 0)%Z then true else (pc_article c =? a)%Z
  | None => true
  end.

(** [PointCriterion.article == article], with [article] sent as a
    parameter of the 32-bit column's type: the driver rejects a value
    that does not fit. *)
Definition article_rejected (article_ : option Z) : bool :=
  match article_ with
  | Some a => negb (a =? 0)%Z && negb (fits_int32 a)
  | None => false
  end.

(** The query of [find_similar_criteria], executed. *)
Definition execute_nearest_in_article (db : Db E) (q : E)
           (article_ : option Z) (top_k : Z)
  : Exc (list (PointCriterion E * Q)) :=
  match execute_raises db with
  | Some e => Raise e
  | None =>
      if limit_rejected top_k || article_rejected article_
      then Raise DatabaseError
      else Ok (firstn (Z.to_nat top_k)
                 (order_by_distance rt
                    (with_distance rt q
                       (filter (in_article article_) (point_criteria db)))))
  end.

Definition format_criterion (row : PointCriterion E * Q) : SimilarCriterion :=
  let '(criterion, distance) := row in
  {| sc_article := pc_article criterion;
     sc_subpoint := pc_subpoint criterion;
     sc_description := pc_description criterion;
     sc_similarity := round4 (1 - distance)%Q |}.

(** [find_similar_criteria]: its [except] clause logs and re-raises. *)
Definition find_similar_criteria (db : Db E) (query_text : text)
           (top_k : option Z) (article_ : option Z)
  : Exc (list SimilarCriterion) :=
  let top_k := get_or top_k RAG_TOP_K in
  (query_embedding <- create_embedding rt query_text ;;
   rows <- execute_nearest_in_article db query_embedding article_ top_k ;;
   Ok (map format_criterion rows))%exc.

(** [search_diseases_in_multiple_fields]; the argument is a dictionary,
    so its keys are distinct and [results[field_name] = diseases] adds
    an entry at the end. *)
Fixpoint search_diseases_in_multiple_fields (db : Db E)
         (fields : list (string * option text)) (top_k : Z)
         (similarity_threshold : Q) : list (string * list Disease) :=
  match fields with
  | [] => []
  | (field_name, field_value) :: rest =>
      let results :=
        search_diseases_in_multiple_fields db rest top_k
                                           similarity_threshold in
      match field_value with
      | Some v =>
          if truthy v && (10 <=? List.length (strip v))%nat then
            match search_diseases_in_text rt db v top_k
                                          similarity_threshold with
            | [] => results
            | diseases => (field_name, diseases) :: results
            end
          else results
      | None => results
      end
  end.

End Criteria.

(* ===================================================================== *)
(** * openai_client.py: create_embeddings_batch *)
(* ===================================================================== *)

(** [range(0, n, step)] for a positive [step], by at most [fuel]
    steps. *)
Fixpoint range_from (fuel i n step : nat) : list nat :=
  match fuel with
  | O => []
  | S fuel' => if (i <? n)%nat then i :: range_from fuel' (i + step) n step
               else []
  end.

(** [range(0, n, step)]: a zero step raises [ValueError], a negative
    one gives the empty range. *)
Definition py_range (n : nat) (step : Z) : Exc (list nat) :=
  if (step =? 0)%Z then Raise (OtherError "ValueError")
  else if (step <? 0)%Z then Ok []
  else Ok (range_from n 0 n (Z.to_nat step)).

(** [l[lo:hi]] on a list, for non-negative bounds. *)
Definition list_slice {A : Type} (l : list A) (lo hi : nat) : list A :=
  firstn (hi - lo) (skipn lo l).

Section Embeddings.

Variable E : Type.

(** [client.embeddings.create(input=batch)] followed by
    [[item.embedding for item in response.data]]. *)
Variable embeddings_create : list text -> Exc (list E).

(** The loop body, over the start offsets; the [except] clause logs and
    re-raises. *)
Fixpoint embed_batches (texts : list text) (starts : list nat)
         (batch_size : nat) (embeddings : list E) : Exc (list E) :=
  match starts with
  | [] => Ok embeddings
  | i :: rest =>
      (batch_embeddings <-
         embeddings_create (list_slice texts i (i + batch_size)) ;;
       embed_batches texts rest batch_size
                     (embeddings ++ batch_embeddings))%exc
  end.

Definition create_embeddings_batch (texts : list text) (batch_size : Z)
  : Exc (list E) :=
  (starts <- py_range (List.length texts) batch_size ;;
   embed_batches texts starts (Z.to_nat batch_size) [])%exc.

End Embeddings.

(* ===================================================================== *)
(** * routers/validation.py: the other endpoints *)
(* ===================================================================== *)

(** The dictionary built by [ContradictionResult.to_dict]. *)
Record ContradictionDict : Type := {
  d_has_contradiction : bool;
  d_contradiction_type : option ContradictionType;
  d_severity : Severity;
  d_description : Description;
  d_source_field : option string;
  d_target_field : option string;
  d_source_value : option text;
  d_target_value : option text;
  d_rag_matches : list Disease;
  d_recommendation : option Recommendation
}.

Definition to_dict (c : ContradictionResult) : ContradictionDict :=
  {| d_has_contradiction := has_contradiction c;
     d_contradiction_type := contradiction_type c;
     d_severity := severity c;
     d_description := c_description c;
     d_source_field := source_field c;
     d_target_field := target_field c;
     d_source_value := source_value c;
     d_target_value := target_value c;
     d_rag_matches := rag_matches c;
     d_recommendation := recommendation c |}.

(** The answer of [/check-contradictions-only]. *)
Record ContradictionsOnly : Type := {
  total_contradictions : nat;
  has_critical : bool;
  found_contradictions : list ContradictionDict
}.

(** The answer of [/saved-analysis/{conscript_draft_id}];
    [SavedAnalysisResultResponse.from_orm] copies the columns of the
    row. *)
Record GetSavedAnalysisResponse : Type := {
  results : list AIAnalysisResult;
  total_count : nat
}.

(** [ORDER BY created_at DESC]: newest first, rows of equal time kept
    in store order. *)
Fixpoint insert_by_created (r : AIAnalysisResult)
         (l : list AIAnalysisResult) : list AIAnalysisResult :=
  match l with
  | [] => [r]
  | h :: t => if Qle_bool (ar_created_at h) (ar_created_at r) then r :: l
              else h :: insert_by_created r t
  end.

Fixpoint order_by_created_desc (l : list AIAnalysisResult)
  : list AIAnalysisResult :=
  match l with
  | [] => []
  | r :: t => insert_by_created r (order_by_created_desc t)
  end.

(** Newest first. *)
Definition newest_first (a b : AIAnalysisResult) : Prop :=
  (ar_created_at b <= ar_created_at a)%Q.


Section OtherEndpoints.

Context (rt : Runtime) (self : ContradictionChecker).

Definition check_contradictions_only (db : Db (Embedding rt))
           (request : CheckDoctorConclusionRequest)
  : HTTPResponse ContradictionsOnly :=
  let contradictions :=
    check_for_contradictions rt self db (rq_diagnosis_text request)
      (rq_doctor_category request) (rq_anamnesis request)
      (rq_complaints request) (rq_objective_data request)
      (rq_special_research_results request) (rq_doctor_notes request)
      (rq_icd10_codes request) (rq_graph request) in
  let result := map to_dict (filter has_contradiction contradictions) in
  Http200 {| total_contradictions := List.length result;
             has_critical :=
               existsb (fun c => Severity_eqb (d_severity c) CRITICAL)
                       result;
             found_contradictions := result |}.

(** [get_saved_analysis]: every exception of the body becomes a 500. *)
Definition get_saved_analysis (db : Db (Embedding rt)) (w : World)
           (conscript_draft_id : UUID) (specialty : option text)
  : HTTPResponse GetSavedAnalysisResponse :=
  let try :=
    (draft <- find_draft db w conscript_draft_id ;;
     let actual_draft_id :=
       match draft with
       | Some d => conscript_pk d
       | None => conscript_draft_id
       end in
     analysis_results <-
       execute_select db (ai_analysis_results w)
         (fun r => (ar_conscript_draft_id r =? actual_draft_id)%N
                   && match specialty with
                      | Some s => if truthy s
                                  then text_eqb (ar_specialty r) s
                                  else true
                      | None => true
                      end) ;;
     let saved_results := order_by_created_desc analysis_results in
     Ok {| results := saved_results;
           total_count := List.length saved_results |})%exc in
  match try with
  | Ok body => Http200 body
  | Raise e => Http500 e
  end.

End OtherEndpoints.

(* ===================================================================== *)
(** * A sample installation *)
(* ===================================================================== *)

(** Concrete collaborators on which the pipeline is run: plane vectors
    as embeddings, a keyword-driven embedder, a three-row reference store
    and sample vocabularies. *)
Module Sample.

Definition vec : Type := (Z * Z)%type.

Definition dot (a b : vec) : Z := (fst a * fst b + snd a * snd b)%Z.
Definition norm (a : vec) : Z := Z.sqrt (dot a a).

(** Cosine distance, exact on vectors of integral norm. *)
Definition cosine (a b : vec) : Q :=
  (1 - Qmake (dot a b) (Z.to_pos (norm a * norm b)))%Q.

Definition embed (t : text) : Exc vec :=
  let t' := lower t in
  if contains t' (u "туберкул") then Ok (3, 4)%Z
  else if contains t' (u "гипертон") then Ok (4, 3)%Z
  else Ok (0, 5)%Z.

Definition rt : Runtime :=
  {| Embedding := vec; str_lower := lower; str_upper := upper;
     create_embedding := embed; cosine_distance := cosine |}.

(** The same installation with the embedding provider unreachable. *)
Definition rt_down : Runtime := embedder_down rt OpenAIError.

Definition checker : ContradictionChecker :=
  {| healthy_keywords := [u "здоров"; u "годен"];
     pathology_keywords := [u "болезн"; u "заболеван"; u "гипертон"];
     severe_keywords := [u "туберкулез"; u "шизофрен"; u "эпилепс"] |}.

Definition graphs (a b c d : text) : Categories :=
  {| graph_1 := Some a; graph_2 := Some b;
     graph_3 := Some c; graph_4 := Some d |}.

Definition tuberculosis : PointCriterion vec :=
  {| pc_article := 2; pc_subpoint := Some (u "1");
     pc_description := u "Активный туберкулез с бактериовыделением";
     pc_graphs := graphs cat_E cat_E cat_E cat_NG;
     criteria_embedding := Some (3, 4)%Z |}.

Definition hypertension : PointCriterion vec :=
  {| pc_article := 43; pc_subpoint := Some (u "3");
     pc_description := u "Гипертоническая болезнь 2 степени";
     pc_graphs := graphs cat_D cat_B cat_V_ind cat_NG;
     criteria_embedding := Some (4, 3)%Z |}.

Definition enuresis : PointCriterion vec :=
  {| pc_article := 88; pc_subpoint := Some [];
     pc_description := u "Энурез";
     pc_graphs := graphs cat_V cat_V cat_V cat_NG;
     criteria_embedding := Some (-5, 0)%Z |}.

Definition diagnoses : list PointDiagnosis :=
  [ {| pd_article := 2; pd_subpoint := Some (u "1");
       pd_graphs := graphs cat_E cat_E cat_E cat_NG |};
    {| pd_article := 43; pd_subpoint := Some (u "3");
       pd_graphs := graphs cat_D cat_B cat_V_ind cat_NG |};
    {| pd_article := 88; pd_subpoint := Some [];
       pd_graphs := graphs cat_V cat_V cat_V cat_NG |} ].

Definition db : Db vec :=
  {| point_criteria := [tuberculosis; hypertension; enuresis];
     points_diagnoses := diagnoses;
     execute_raises := None |}.

Definition clinical (healthy : bool) (art : option Z) (sp : option text)
           (conf : Q) : ClinicalResult :=
  {| cr_is_healthy := Some healthy; cr_article := art;
     cr_subpoint := sp; cr_confidence := Some conf;
     cr_reasoning := Some (u "обоснование");
     cr_matched_criteria := None; cr_validation_performed := Some true;
     cr_model := None; cr_tokens_total := Some 100%Z |}.

(** An analyzer that answers every text with the same classification
    and resolves categories with the exact-match look-up of
    criteria_validator.py. *)
Definition analyzer (answer : Exc ClinicalResult) : AIAnalyzer vec :=
  {| determine_subpoint := fun _ _ _ _ _ _ _ _ => answer;
     determine_category := fun db a sp g =>
       Ok {| cat_category := get_category_for_article_subpoint db a sp g;
             cat_source := None;
             cat_all_categories := None;
             cat_reasoning := None |} |}.

Definition world (t0 : Q) : World :=
  {| clock := fun n => (t0 + inject_Z (Z.of_nat n))%Q; ticks := 0;
     uuids := fun n => N.of_nat n; drawn := 0;
     conscripts := []; examinations := []; ai_analysis_results := [] |}.

Definition request (diagnosis category_ : text) (anamnesis_ : option text)
           (graph : Z) : CheckDoctorConclusionRequest :=
  {| rq_diagnosis_text := diagnosis;
     rq_doctor_category := category_;
     rq_specialty := u "Терапевт";
     rq_anamnesis := anamnesis_;
     rq_complaints := None;
     rq_objective_data := None;
     rq_special_research_results := None;
     rq_conclusion_text := None;
     rq_doctor_notes := None;
     rq_icd10_codes := None;
     rq_article_hint := None;
     rq_subpoint_hint := None;
     rq_graph := graph;
     rq_conscript_draft_id := None;
     rq_examination_id := None;
     rq_save_to_db := false |}.

Definition hypertension_text : text :=
  u "Гипертоническая болезнь 2 степени, риск 3".

Definition healthy_text : text := u "Здоров, патологии не выявлены".

(** The keyword occurs twice: negated at offset 4, bare at offset 36. *)
Definition tuberculosis_twice : text :=
  u "Нет туберкулеза у брата; у пациента туберкулез легких".

(** The pathology keyword occurs twice: negated first, bare later. *)
Definition healthy_then_ill : text :=
  u "Здоров, нет болезней сердца; в анамнезе хроническая болезнь почек".

End Sample.

(* ===================================================================== *)
(** * Properties: tactics and basic facts *)
(* ===================================================================== *)

(** Unfolds the orchestrator and lets the clock reads compute. *)
Ltac run_pipeline :=
  unfold full_validation_with_contradiction_check;
  cbn [now clock ticks uuids drawn conscripts ai_analysis_results].

(** Splits on the places where the orchestrator may raise and on the
    pairs it takes apart. *)
Ltac split_pipeline :=
  repeat match goal with
    | |- context [match ?x with Ok _ => _ | Raise _ => _ end] =>
        let H := fresh "Hrun" in destruct x eqn:H
    | |- context [let '(_, _) := ?x in _] =>
        let H := fresh "Hpair" in destruct x eqn:H
    end.

Lemma text_eqb_eq (a b : text) : text_eqb a b = true <-> a = b.
Proof.
  unfold text_eqb. destruct (list_eq_dec N.eq_dec a b); split; congruence.
Qed.

Lemma text_eqb_neq (a b : text) : text_eqb a b = false <-> a <> b.
Proof.
  unfold text_eqb. destruct (list_eq_dec N.eq_dec a b); split; congruence.
Qed.

Lemma Severity_eqb_eq (a b : Severity) : Severity_eqb a b = true <-> a = b.
Proof. destruct a, b; simpl; split; congruence. Qed.

Lemma append_if_found_In (r x : ContradictionResult) :
  In x (append_if_found r) <-> x = r /\ has_contradiction r = true.
Proof.
  unfold append_if_found. destruct (has_contradiction r); simpl.
  - split; [intros [H | []]; auto | intros [H _]; auto].
  - split; [intros [] | intros [_ H]; discriminate].
Qed.

(* ===================================================================== *)
(** * The verdict's review flag *)
(* ===================================================================== *)

Lemma review_flag_spec (s : OverallStatusEnum) (l : list ReviewReason)
      (r : Severity) :
  negb (OverallStatus_eqb s VALID) || (0 <? List.length l)%nat
  || (Severity_eqb r HIGH || Severity_eqb r CRITICAL) = true
  <-> s <> VALID \/ l <> [] \/ r = HIGH \/ r = CRITICAL.
Proof.
  rewrite !orb_true_iff, negb_true_iff, !Severity_eqb_eq.
  assert (Hs : OverallStatus_eqb s VALID = false <-> s <> VALID)
    by (destruct s; simpl; split; intros; congruence).
  assert (Hl : (0 <? List.length l)%nat = true <-> l <> [])
    by (destruct l; cbn; split; intros H; (discriminate || easy)).
  rewrite Hs, Hl. tauto.
Qed.

Section ReviewFlag.

Context (rt : Runtime) (self : ContradictionChecker)
        (ai_analyzer : AIAnalyzer (Embedding rt)).

(** C1.  For every verdict the full pipeline returns, [should_review]
    is exactly the disjunction: the overall status is not VALID, or
    there is a review reason, or the risk level is HIGH or CRITICAL. *)
Theorem should_review_is_disjunction db w rq v :
  fst (full_validation_with_contradiction_check rt self ai_analyzer db w rq)
  = Ok v ->
  (should_review v = true <->
   overall_status v <> VALID \/ review_reasons v <> []
   \/ risk_level v = HIGH \/ risk_level v = CRITICAL).
Proof.
  run_pipeline. split_pipeline; cbn [fst]; try discriminate.
  destruct (in_unit_interval _); [|discriminate].
  intros Hv. injection Hv as <-. cbn. apply review_flag_spec.
Qed.

End ReviewFlag.

(** C1, on the sample installation: a hypertension diagnosis filed under
    category "А". *)
Lemma should_review_is_disjunction_witness :
  exists v,
    fst (full_validation_with_contradiction_check Sample.rt Sample.checker
           (Sample.analyzer (Ok (Sample.clinical false None None (9 # 10))))
           Sample.db (Sample.world 0)
           (Sample.request Sample.hypertension_text cat_A None 1)) = Ok v
    /\ (should_review v = true <->
        overall_status v <> VALID \/ review_reasons v <> []
        \/ risk_level v = HIGH \/ risk_level v = CRITICAL).
Proof.
  eexists. split.
  - vm_compute. reflexivity.
  - apply (@should_review_is_disjunction Sample.rt Sample.checker
             (Sample.analyzer (Ok (Sample.clinical false None None (9 # 10))))
             Sample.db (Sample.world 0)
             (Sample.request Sample.hypertension_text cat_A None 1)).
    vm_compute. reflexivity.
Defined.

(* ===================================================================== *)
(** * Retrieval: rounding, order, range *)
(* ===================================================================== *)

Lemma Qlt_bool_false (x y : Q) : Qlt_bool x y = false <-> (y <= x)%Q.
Proof.
  unfold Qlt_bool. rewrite negb_false_iff. apply Qle_bool_iff.
Qed.

Lemma round_half_even_bounds (q : Q) :
  (Qfloor q <= round_half_even q <= Qfloor q + 1)%Z.
Proof.
  unfold round_half_even.
  destruct (Qcompare _ _); [destruct (Z.even _)| |]; lia.
Qed.

(** Rounding to nearest-even is monotone. *)
Lemma round_half_even_mono (x y : Q) :
  (x <= y)%Q -> (round_half_even x <= round_half_even y)%Z.
Proof.
  intros Hxy.
  pose proof (Qfloor_resp_le _ _ Hxy) as Hf.
  destruct (Z.eq_dec (Qfloor x) (Qfloor y)) as [Heq | Hne].
  - unfold round_half_even. rewrite <- Heq.
    destruct (Qcompare_spec (x - inject_Z (Qfloor x)) (1 # 2)) as [Hx|Hx|Hx];
      destruct (Qcompare_spec (y - inject_Z (Qfloor x)) (1 # 2)) as [Hy|Hy|Hy];
      try destruct (Z.even (Qfloor x)); try lia; exfalso; lra.
  - pose proof (round_half_even_bounds x). pose proof (round_half_even_bounds y).
    lia.
Qed.

Lemma round4_mono (x y : Q) : (x <= y)%Q -> (round4 x <= round4 y)%Q.
Proof.
  intros Hxy. unfold round4, Qle. cbn [Qnum Qden].
  apply Z.mul_le_mono_nonneg_r; [lia|].
  apply round_half_even_mono. apply Qmult_le_compat_r; [assumption|].
  unfold Qle; simpl; lia.
Qed.

Lemma round4_0 : (round4 0 == 0)%Q.
Proof. reflexivity. Qed.

Lemma round4_1 : (round4 1 == 1)%Q.
Proof. reflexivity. Qed.

Lemma In_firstn {A} (x : A) n l : In x (firstn n l) -> In x l.
Proof.
  revert l. induction n as [|n IH]; intros [|h t]; simpl; try tauto.
  intros [-> | H]; [now left | right; now apply IH].
Qed.

Section RetrieverFacts.

Context (rt : Runtime).
Local Abbreviation row := (PointCriterion (Embedding rt) * Q)%type.

Lemma insert_by_distance_In (r x : row) l :
  In x (insert_by_distance rt r l) <-> x = r \/ In x l.
Proof.
  induction l as [|h t IH]; simpl.
  - intuition congruence.
  - destruct (Qle_bool _ _); simpl; [intuition congruence|].
    rewrite IH. intuition congruence.
Qed.

Lemma order_by_distance_In (x : row) l :
  In x (order_by_distance rt l) <-> In x l.
Proof.
  induction l as [|h t IH]; simpl; [tauto|].
  rewrite insert_by_distance_In, IH. intuition congruence.
Qed.




(** Every formatted entry comes from a row that passed the threshold. *)
Lemma format_diseases_In rows thr d :
  In d (format_diseases rt rows thr) ->
  exists c dist, In (c, dist) rows
                 /\ (thr <= 1 - dist)%Q
                 /\ article d = pc_article c
                 /\ subpoint d = pc_subpoint c
                 /\ categories d = pc_graphs c
                 /\ similarity d = round4 (1 - dist).
Proof.
  induction rows as [|[c dist] t IH]; simpl; [tauto|].
  destruct (Qlt_bool (1 - dist) thr) eqn:Hthr.
  - intros Hd. destruct (IH Hd) as (c' & dist' & Hin & Hrest).
    exists c', dist'. split; [now right | exact Hrest].
  - intros [<- | Hd].
    + exists c, dist. apply Qlt_bool_false in Hthr. simpl. intuition.
    + destruct (IH Hd) as (c' & dist' & Hin & Hrest).
      exists c', dist'. split; [now right | exact Hrest].
Qed.


Lemma format_diseases_length rows thr :
  List.length (format_diseases rt rows thr) <= List.length rows.
Proof.
  induction rows as [|[c dist] t IH]; simpl; [lia|].
  destruct (Qlt_bool _ _); simpl; lia.
Qed.

Lemma with_distance_In q rows c dist :
  In (c, dist) (with_distance rt q rows) ->
  exists e, In c rows /\ criteria_embedding c = Some e
            /\ dist = cosine_distance rt e q.
Proof.
  induction rows as [|h t IH]; simpl; [tauto|].
  destruct (criteria_embedding h) as [e|] eqn:He.
  - intros [Heq | Hin].
    + injection Heq as <- <-. exists e. auto.
    + destruct (IH Hin) as (e' & ? & ? & ?). exists e'. auto.
  - intros Hin. destruct (IH Hin) as (e' & ? & ? & ?). exists e'. auto.
Qed.

(** What a non-empty answer of [search_diseases_in_text] reveals. *)
Lemma search_diseases_In db txt top_k thr d :
  In d (search_diseases_in_text rt db txt top_k thr) ->
  exists q c e,
    create_embedding rt txt = Ok q
    /\ execute_raises db = None
    /\ In c (point_criteria db) /\ criteria_embedding c = Some e
    /\ (thr <= 1 - cosine_distance rt e q)%Q
    /\ article d = pc_article c
    /\ subpoint d = pc_subpoint c
    /\ categories d = pc_graphs c
    /\ similarity d = round4 (1 - cosine_distance rt e q).
Proof.
  unfold search_diseases_in_text, search_diseases_try, execute_nearest.
  destruct (negb (truthy txt) || _); [intros []|].
  destruct (create_embedding rt txt) as [q|]; simpl; [|intros []].
  destruct (execute_raises db); simpl; [intros []|].
  destruct (limit_rejected top_k); simpl; [intros []|].
  intros Hd. apply format_diseases_In in Hd.
  destruct Hd as (c & dist & Hin & Hthr & Ha & Hs & Hc & Hsim).
  apply In_firstn, order_by_distance_In, with_distance_In in Hin.
  destruct Hin as (e & Hin & He & ->).
  exists q, c, e. intuition.
Qed.

(** With a non-negative threshold and non-negative distances, the
    similarities returned lie in [0, 1]. *)
Lemma search_similarity_range db txt top_k thr d :
  (0 <= thr)%Q ->
  (forall q c e,
      create_embedding rt txt = Ok q ->
      In c (point_criteria db) -> criteria_embedding c = Some e ->
      (0 <= cosine_distance rt e q)%Q) ->
  In d (search_diseases_in_text rt db txt top_k thr) ->
  (0 <= similarity d)%Q /\ (similarity d <= 1)%Q.
Proof.
  intros Hthr Hdist Hd. apply search_diseases_In in Hd.
  destruct Hd as (q & c & e & Hq & _ & Hin & He & Hpass & _ & _ & _ & Hs).
  specialize (Hdist q c e Hq Hin He). rewrite Hs. split.
  - rewrite <- round4_0. apply round4_mono. lra.
  - rewrite <- round4_1 at 2. apply round4_mono. lra.
Qed.

End RetrieverFacts.

Section RetrieverContract.

Context (rt : Runtime).


End RetrieverContract.

(** The standalone endpoint answers with the service's list, unchanged. *)
Remark search_endpoint_body rt db txt top_k thr :
  search_diseases_endpoint rt db txt top_k thr
  = Http200 (search_diseases_in_text rt db txt top_k thr).
Proof. reflexivity. Qed.



(* ===================================================================== *)
(** * Strings: what [find] returns *)
(* ===================================================================== *)

Lemma find_from_spec sub s i p :
  find_from sub s i = Some p ->
  i <= p /\ p - i <= List.length s
  /\ starts_with sub (skipn (p - i) s) = true
  /\ forall q, q < p - i -> starts_with sub (skipn q s) = false.
Proof.
  revert i. induction s as [|c s IH]; intros i; simpl.
  - destruct (starts_with sub []) eqn:Hs; [|discriminate].
    intros [= <-]. rewrite Nat.sub_diag. simpl. repeat split; auto; lia.
  - destruct (starts_with sub (c :: s)) eqn:Hs.
    + intros [= <-]. rewrite Nat.sub_diag. simpl. repeat split; auto; lia.
    + intros Hf. destruct (IH _ Hf) as (Hle & Hlen & Hat & Hmin).
      replace (p - i) with (S (p - S i)) by lia. simpl.
      repeat split; try lia; [exact Hat|].
      intros [|q] Hq; simpl; [exact Hs | apply Hmin; lia].
Qed.

(** [find] returns the first offset at which the keyword occurs. *)
Lemma find_first_occurrence s sub p :
  find s sub = Some p ->
  occurs_at s sub p /\ forall q, q < p -> ~ occurs_at s sub q.
Proof.
  unfold find, occurs_at. intros Hf.
  destruct (find_from_spec _ _ _ Hf) as (_ & Hlen & Hat & Hmin).
  rewrite Nat.sub_0_r in *. repeat split; auto.
  intros q Hq [_ Hocc]. rewrite (Hmin q Hq) in Hocc. discriminate.
Qed.

(* ===================================================================== *)
(** * Stage 0: each check reports its own type *)
(* ===================================================================== *)

Lemma findings_of_app ty a b :
  findings_of ty (a ++ b) = findings_of ty a ++ findings_of ty b.
Proof. apply filter_app. Qed.

Lemma filter_append_if_found ty r :
  returns_type ty r ->
  forall ty',
    findings_of ty' (append_if_found r)
    = if ContradictionType_eqb ty ty' then append_if_found r else [].
Proof.
  intros [-> | [Hhas Hty]] ty'.
  - simpl. now destruct (ContradictionType_eqb ty ty').
  - unfold append_if_found, findings_of. rewrite Hhas. simpl. rewrite Hty.
    now destruct (ContradictionType_eqb ty ty').
Qed.

Section CheckTypes.

Context (rt : Runtime) (self : ContradictionChecker).

Lemma check_type_e_type diag cat :
  returns_type TYPE_E (_check_type_e rt self diag cat).
Proof.
  unfold _check_type_e. destruct (_ && _); [right | left]; auto.
Qed.

Lemma check_type_f_type diag cat :
  returns_type TYPE_F (_check_type_f rt self diag cat).
Proof.
  unfold _check_type_f. destruct (negb _); [now left|].
  destruct (_contains_severe_condition rt self diag) as [[|] kw];
    [right | left]; auto.
Qed.

Lemma check_type_a_type db diag fields :
  returns_type TYPE_A (_check_type_a rt self db diag fields).
Proof.
  unfold _check_type_a. destruct (negb _); [now left|].
  induction fields as [|[name value] rest IH]; simpl; [now left|].
  destruct (_is_healthy_text rt self value); [exact IH|].
  destruct (search_diseases_in_text _ _ _ _ _); [exact IH|].
  right; auto.
Qed.

Lemma check_type_b_type diag fields :
  returns_type TYPE_B (_check_type_b rt self diag fields).
Proof.
  unfold _check_type_b. destruct (_is_healthy_text rt self diag);
    [now left|].
  induction fields as [|[name value] rest IH]; simpl; [now left|].
  destruct (_is_healthy_text rt self value); [right; auto | exact IH].
Qed.

Lemma type_c_diseases_type diag first name value ds r :
  type_c_diseases diag first name value ds = Some r ->
  has_contradiction r = true /\ contradiction_type r = Some TYPE_C.
Proof.
  induction ds as [|d rest IH]; simpl; [discriminate|].
  destruct (_ && _); [|exact IH].
  destruct (_ <? _)%Z; [|exact IH].
  intros [= <-]. auto.
Qed.

Lemma check_type_c_type db diag fields :
  returns_type TYPE_C (_check_type_c rt self db diag fields).
Proof.
  unfold _check_type_c. destruct (_is_healthy_text rt self diag);
    [now left|].
  destruct (search_diseases_in_text _ _ _ _ _) as [|first others];
    [now left|].
  induction fields as [|[name value] rest IH]; simpl; [now left|].
  destruct (_is_healthy_text rt self value); [exact IH|].
  destruct (type_c_diseases _ _ _ _ _) as [r|] eqn:Hr; [|exact IH].
  right. eapply type_c_diseases_type; eassumption.
Qed.

Lemma check_type_d_type db diag cat graph :
  returns_type TYPE_D (_check_type_d rt self db diag cat graph).
Proof.
  unfold _check_type_d. destruct (_is_healthy_text rt self diag);
    [now left|].
  destruct (search_diseases_in_text _ _ _ _ _) as [|best others];
    [now left|].
  destruct (categories_get _ _) as [expected|]; [|now left].
  destruct (negb (truthy expected)); [now left|].
  destruct (negb (text_eqb _ _)); [right | left]; auto.
Qed.

(** The findings of one type in the Stage-0 report are what the check
    of that type returned. *)
Lemma report_by_type db diag cat an co ob sr dn icd graph :
  let report :=
    check_for_contradictions rt self db diag cat an co ob sr dn icd graph in
  let fields :=
    filter_non_empty
      [("anamnesis"%string, an); ("complaints"%string, co);
       ("objective_data"%string, ob);
       ("special_research_results"%string, sr);
       ("doctor_notes"%string, dn)] in
  findings_of TYPE_E report = append_if_found (_check_type_e rt self diag cat)
  /\ findings_of TYPE_F report
     = append_if_found (_check_type_f rt self diag cat)
  /\ findings_of TYPE_A report
     = append_if_found (_check_type_a rt self db diag fields)
  /\ findings_of TYPE_B report
     = append_if_found (_check_type_b rt self diag fields)
  /\ findings_of TYPE_C report
     = append_if_found (_check_type_c rt self db diag fields)
  /\ findings_of TYPE_D report
     = append_if_found (_check_type_d rt self db diag cat graph).
Proof.
  intros report fields. subst report fields.
  unfold check_for_contradictions.
  rewrite !findings_of_app.
  rewrite !(filter_append_if_found (check_type_e_type _ _)),
    !(filter_append_if_found (check_type_f_type _ _)),
    !(filter_append_if_found (check_type_a_type _ _ _)),
    !(filter_append_if_found (check_type_b_type _ _)),
    !(filter_append_if_found (check_type_c_type _ _ _)),
    !(filter_append_if_found (check_type_d_type _ _ _ _)).
  simpl. rewrite !app_nil_r. repeat split.
Qed.

End CheckTypes.

Lemma find_from_complete sub s i p :
  p <= List.length s -> starts_with sub (skipn p s) = true ->
  exists p', find_from sub s i = Some p' /\ i <= p' <= i + p.
Proof.
  revert i p. induction s as [|c s IH]; intros i p Hlen Hocc; simpl in *.
  - assert (p = 0) by lia. subst p. simpl in Hocc. rewrite Hocc.
    exists i. split; [reflexivity | lia].
  - destruct (starts_with sub (c :: s)) eqn:Hs.
    + exists i. split; [reflexivity | lia].
    + destruct p as [|p]; simpl in Hocc; [congruence|].
      destruct (IH (S i) p ltac:(lia) Hocc) as (p' & Hf & Hb).
      exists p'. split; [exact Hf | lia].
Qed.

(** Conversely, the first occurrence is what [find] returns. *)
Lemma first_occurrence_find s sub p :
  occurs_at s sub p -> (forall q, q < p -> ~ occurs_at s sub q) ->
  find s sub = Some p.
Proof.
  intros [Hlen Hocc] Hmin.
  destruct (find_from_complete sub s 0 Hlen Hocc) as (p' & Hf & Hb).
  destruct (find_first_occurrence _ _ Hf) as [Hocc' _].
  destruct (Nat.eq_dec p' p) as [-> | Hne]; [exact Hf|].
  exfalso. apply (Hmin p'); [lia | exact Hocc'].
Qed.

(* ===================================================================== *)
(** * Stage 0: Type F *)
(* ===================================================================== *)

Section TypeF.

Context (rt : Runtime) (self : ContradictionChecker).

Lemma severe_scan_finds t kws kw p :
  In kw kws -> find t kw = Some p -> unnegated_at t kw p = true ->
  fst (severe_scan t kws) = true.
Proof.
  intros Hin Hf Hun. induction kws as [|k rest IH]; [destruct Hin|].
  cbn [severe_scan]. destruct (find t k) as [pk|] eqn:Hk.
  - match goal with
    | |- context [if ?c then _ else _] => destruct c eqn:Hneg
    end; [|reflexivity].
    destruct Hin as [-> | Hin]; [|now apply IH].
    exfalso. rewrite Hf in Hk. injection Hk as <-.
    unfold unnegated_at in Hun. apply andb_true_iff in Hun.
    destruct Hun as [Hb Ha]. apply negb_true_iff in Hb, Ha.
    rewrite Hb, Ha in Hneg. discriminate.
  - destruct Hin as [-> | Hin]; [congruence | now apply IH].
Qed.

(** C3, as the code has it.  When the doctor's category, upper-cased
    and trimmed, is Cyrillic "А" or Latin "A" and some severe-condition
    keyword has, at its first occurrence in the lower-cased (non-empty)
    diagnosis, no negation marker in the 25 characters before it and
    none in the 30 characters after it, Stage 0 reports exactly one
    Type F finding, of severity CRITICAL.  For any other category
    Stage 0 reports no Type F finding. *)
Theorem type_f_first_occurrence db diag cat an co ob sr dn icd graph :
  let report :=
    check_for_contradictions rt self db diag cat an co ob sr dn icd graph in
  let t := str_lower rt diag in
  (in_A (strip (str_upper rt cat)) = true ->
   diag <> [] ->
   (exists kw p,
       In kw (severe_keywords self)
       /\ occurs_at t kw p /\ (forall q, q < p -> ~ occurs_at t kw q)
       /\ unnegated_at t kw p = true) ->
   exists r, findings_of TYPE_F report = [r]
             /\ has_contradiction r = true /\ severity r = CRITICAL)
  /\ (in_A (strip (str_upper rt cat)) = false ->
      findings_of TYPE_F report = []).
Proof.
  intros report t.
  destruct (report_by_type rt self db diag cat an co ob sr dn icd graph)
    as (_ & HF & _).
  fold report in HF. rewrite HF. clear HF. split.
  - intros HA Hne (kw & p & Hin & Hocc & Hmin & Hun).
    pose proof (first_occurrence_find Hocc Hmin) as Hf.
    assert (Hscan : fst (severe_scan t (severe_keywords self)) = true)
      by (eapply severe_scan_finds; eassumption).
    unfold _check_type_f, _contains_severe_condition. rewrite HA. simpl.
    destruct diag as [|c diag']; [congruence|]. simpl.
    fold t. destruct (severe_scan t (severe_keywords self)) as [b found].
    simpl in Hscan. subst b.
    eexists. split; [reflexivity|]. split; reflexivity.
  - intros HA. unfold _check_type_f. rewrite HA. reflexivity.
Qed.

End TypeF.

(** C3 on the sample vocabulary: an active tuberculosis filed under
    category "А". *)
Lemma type_f_first_occurrence_witness :
  let diag := u "Туберкулез легких, активная форма" in
  let report :=
    check_for_contradictions Sample.rt Sample.checker Sample.db diag cat_A
      None None None None None None 1 in
  exists r, findings_of TYPE_F report = [r]
            /\ has_contradiction r = true /\ severity r = CRITICAL.
Proof.
  intros diag report.
  apply (proj1 (@type_f_first_occurrence Sample.rt Sample.checker Sample.db
                  diag cat_A None None None None None None 1)).
  - reflexivity.
  - discriminate.
  - exists (u "туберкулез"), 0. repeat split.
    + left. reflexivity.
    + vm_compute. repeat constructor.
    + intros q Hq. inversion Hq.
Defined.

(** C3 fails as stated: the keyword occurs bare at offset 36 (nothing
    negates it within 25 characters before or 30 after), the category is
    "А", and yet no Type F finding is reported, because only the
    occurrence at offset 4 ("нет туберкулеза") is inspected. *)
Lemma type_f_misses_later_occurrence :
  let diag := Sample.tuberculosis_twice in
  let t := str_lower Sample.rt diag in
  let kw := u "туберкулез" in
  in_A (strip (str_upper Sample.rt cat_A)) = true
  /\ In kw (severe_keywords Sample.checker)
  /\ occurs_at t kw 36
  /\ unnegated_at t kw 36 = true
  /\ findings_of TYPE_F
       (check_for_contradictions Sample.rt Sample.checker Sample.db diag cat_A
          None None None None None None 1) = [].
Proof.
  repeat split.
  - left. reflexivity.
  - vm_compute. repeat constructor.
Qed.

(* ===================================================================== *)
(** * Stage 0: Type E and the healthy-text classifier *)
(* ===================================================================== *)

Section TypeE.

Context (rt : Runtime) (self : ContradictionChecker).

(** The classifier, spelled out: a non-empty text is healthy exactly
    when its lower-cased form contains a healthy keyword and every
    pathology keyword it contains has, at the offset [find] returns, a
    negation marker in the 20 characters before it. *)
Lemma is_healthy_text_spec txt :
  txt <> [] ->
  let t := str_lower rt txt in
  (_is_healthy_text rt self txt = true <->
   (exists kw, In kw (healthy_keywords self) /\ contains t kw = true)
   /\ (forall kw p, In kw (pathology_keywords self) ->
                    find t kw = Some p -> negated_at t p = true)).
Proof.
  intros Hne t. unfold _is_healthy_text.
  destruct txt as [|c txt']; [congruence|]. cbn [truthy negb]. fold t.
  destruct (existsb (contains t) (healthy_keywords self)) eqn:Hh;
    cbn [negb].
  - rewrite forallb_forall. split.
    + intros Hp. split.
      * apply existsb_exists in Hh. destruct Hh as (kw & ? & ?). eauto.
      * intros kw p Hin Hf. specialize (Hp kw Hin).
        unfold pathology_ok in Hp. rewrite Hf in Hp. exact Hp.
    + intros [_ Hp] kw Hin. unfold pathology_ok.
      destruct (find t kw) as [p|] eqn:Hf; [|reflexivity].
      exact (Hp kw p Hin Hf).
  - split; [discriminate|]. intros [(kw & Hin & Hc) _].
    assert (existsb (contains t) (healthy_keywords self) = true)
      by (apply existsb_exists; eauto).
    congruence.
Qed.

Lemma is_healthy_text_first_occurrence txt :
  txt <> [] ->
  let t := str_lower rt txt in
  (_is_healthy_text rt self txt = true <->
   (exists kw, In kw (healthy_keywords self) /\ contains t kw = true)
   /\ (forall kw p,
          In kw (pathology_keywords self) ->
          occurs_at t kw p -> (forall q, q < p -> ~ occurs_at t kw q) ->
          negated_at t p = true)).
Proof.
  intros Hne t. pose proof (is_healthy_text_spec Hne) as Hs.
  cbv zeta in Hs. fold t in Hs. rewrite Hs.
  split; intros [Hk Hp]; (split; [exact Hk|]).
  - intros kw p Hin Hocc Hmin. apply (Hp kw p Hin).
    now apply first_occurrence_find.
  - intros kw p Hin Hf.
    destruct (find_first_occurrence _ _ Hf) as [Hocc Hmin].
    now apply (Hp kw p Hin).
Qed.

(** C4, as the code has it.  Stage 0 reports a Type E finding exactly
    when the diagnosis is healthy text and the doctor's category,
    upper-cased and trimmed, is neither Cyrillic "А" nor Latin "A"; the
    finding has severity HIGH.  A non-empty text is healthy exactly
    when its lower-cased form contains a healthy keyword and every
    pathology keyword it contains has, at its first occurrence, one of
    the negation markers within the 20 characters before it. *)
Theorem type_e_first_occurrence db diag cat an co ob sr dn icd graph :
  diag <> [] ->
  let report :=
    check_for_contradictions rt self db diag cat an co ob sr dn icd graph in
  let t := str_lower rt diag in
  (findings_of TYPE_E report <> [] <->
   _is_healthy_text rt self diag = true
   /\ in_A (strip (str_upper rt cat)) = false)
  /\ (forall r, In r (findings_of TYPE_E report) -> severity r = HIGH)
  /\ (_is_healthy_text rt self diag = true <->
      (exists kw, In kw (healthy_keywords self) /\ contains t kw = true)
      /\ (forall kw p,
             In kw (pathology_keywords self) ->
             occurs_at t kw p -> (forall q, q < p -> ~ occurs_at t kw q) ->
             negated_at t p = true)).
Proof.
  intros Hne report t.
  destruct (report_by_type rt self db diag cat an co ob sr dn icd graph)
    as (HE & _).
  fold report in HE. rewrite HE. clear HE.
  split; [|split; [|now apply is_healthy_text_first_occurrence]].
  - unfold _check_type_e.
    destruct (_is_healthy_text rt self diag);
      destruct (in_A (strip (str_upper rt cat)));
      cbn [andb negb append_if_found has_contradiction no_contradiction];
      (split; [intros H; try (exfalso; now apply H); auto
              | intros [H1 H2]; try discriminate]).
  - intros r Hin. unfold _check_type_e in Hin.
    destruct (_ && _);
      cbn [append_if_found has_contradiction no_contradiction] in Hin;
      [destruct Hin as [<- | []]; reflexivity | destruct Hin].
Qed.

End TypeE.

(** C4 on the sample vocabulary: the spec's example, "Здоров, патологии
    не выявлены" filed under category "Б". *)
Lemma type_e_first_occurrence_witness :
  let diag := Sample.healthy_text in
  let report :=
    check_for_contradictions Sample.rt Sample.checker Sample.db diag cat_B
      None None None None None None 1 in
  let t := str_lower Sample.rt diag in
  (findings_of TYPE_E report <> [] <->
   _is_healthy_text Sample.rt Sample.checker diag = true
   /\ in_A (strip (str_upper Sample.rt cat_B)) = false)
  /\ (forall r, In r (findings_of TYPE_E report) -> severity r = HIGH)
  /\ (_is_healthy_text Sample.rt Sample.checker diag = true <->
      (exists kw, In kw (healthy_keywords Sample.checker)
                  /\ contains t kw = true)
      /\ (forall kw p,
             In kw (pathology_keywords Sample.checker) ->
             occurs_at t kw p -> (forall q, q < p -> ~ occurs_at t kw q) ->
             negated_at t p = true)).
Proof.
  apply (@type_e_first_occurrence Sample.rt Sample.checker Sample.db
           Sample.healthy_text cat_B None None None None None None 1).
  intros H. vm_compute in H. discriminate.
Defined.

(** The same example, run: one finding, Type E, severity HIGH. *)
Example healthy_text_category_B :
  map (fun r => (contradiction_type r, severity r))
      (check_for_contradictions Sample.rt Sample.checker Sample.db
         Sample.healthy_text cat_B None None None None None None 1)
  = [(Some TYPE_E, HIGH)].
Proof. vm_compute. reflexivity. Qed.

(** C4 fails as stated: the pathology keyword occurs at offset 52 with
    no negation marker in the 20 characters before it, and the text is
    still classified healthy (only the occurrence at offset 12, "нет
    болезней", is inspected), so that Type E is reported under "Б". *)
Lemma healthy_text_with_bare_pathology :
  let diag := Sample.healthy_then_ill in
  let t := str_lower Sample.rt diag in
  let kw := u "болезн" in
  In kw (pathology_keywords Sample.checker)
  /\ occurs_at t kw 52
  /\ negated_at t 52 = false
  /\ _is_healthy_text Sample.rt Sample.checker diag = true
  /\ findings_of TYPE_E
       (check_for_contradictions Sample.rt Sample.checker Sample.db diag cat_B
          None None None None None None 1) <> [].
Proof.
  repeat split.
  - left. reflexivity.
  - vm_compute. repeat constructor.
  - vm_compute. discriminate.
Qed.

(* ===================================================================== *)
(** * Stage 0: Type D *)
(* ===================================================================== *)

(** On every code but Latin "A" the hierarchy dictionary of the source
    gives the rank in the spec's alphabet, and 0 where there is none. *)
Lemma category_severity_ordinal (c : text) :
  c <> cat_A_latin ->
  category_severity c = match ordinal c with Some i => i | None => 0%Z end.
Proof.
  intros Hlatin. apply text_eqb_neq in Hlatin.
  unfold category_severity, ordinal, category_alphabet.
  cbn [rank_from existsb Z.add Pos.add Pos.succ]. rewrite Hlatin.
  repeat (match goal with
          | |- context [text_eqb c ?k] => destruct (text_eqb c k)
          end; cbn [orb]; try reflexivity).
Qed.

Section TypeD.

Context (rt : Runtime) (self : ContradictionChecker).

(** C5, as the code has it.  With a diagnosis that is not healthy
    text, let the top-1 retrieval at threshold 0.70 return a criterion
    with a category for the record's graph.  If that category is empty,
    or agrees with the doctor's after upper-casing and trimming, Stage 0
    reports no Type D finding.  If it is not empty and differs from the
    doctor's (neither being the Latin "A"), Stage 0 reports one Type D
    finding, and whenever the two normalized codes have an ordinal
    distance in А < Б < В = В-ИНД < Г < Д < Е < НГ, the finding is
    CRITICAL when that distance is at least 2 and HIGH otherwise.
    Stage 0 reports no Type D finding either when nothing is retrieved
    or when the category is null. *)
Theorem type_d_by_ordinal_distance db diag cat an co ob sr dn icd graph :
  _is_healthy_text rt self diag = false ->
  let report :=
    check_for_contradictions rt self db diag cat an co ob sr dn icd graph in
  let hits := search_diseases_in_text rt db diag 1 (70 # 100)%Q in
  let doctor := strip (str_upper rt cat) in
  (forall best rest expected,
      hits = best :: rest ->
      categories_get (categories best) graph = Some expected ->
      let handbook := strip (str_upper rt expected) in
      (expected = [] -> findings_of TYPE_D report = [])
      /\ (doctor = handbook -> findings_of TYPE_D report = [])
      /\ (expected <> [] -> doctor <> handbook ->
          doctor <> cat_A_latin -> handbook <> cat_A_latin ->
          exists r,
            findings_of TYPE_D report = [r]
            /\ rag_matches r = [best]
            /\ forall distance,
                ordinal_distance doctor handbook = Some distance ->
                ((2 <= distance)%Z -> severity r = CRITICAL)
                /\ ((distance < 2)%Z -> severity r = HIGH)))
  /\ (hits = [] -> findings_of TYPE_D report = [])
  /\ (forall best rest,
         hits = best :: rest ->
         categories_get (categories best) graph = None ->
         findings_of TYPE_D report = []).
Proof.
  intros Hill report hits doctor.
  destruct (report_by_type rt self db diag cat an co ob sr dn icd graph)
    as (_ & _ & _ & _ & _ & HD).
  fold report in HD. rewrite HD. clear HD.
  unfold _check_type_d. rewrite Hill. fold hits. fold doctor.
  split; [|split].
  - intros best rest expected Hhits Hcat.
    rewrite Hhits, Hcat.
    set (handbook := strip (str_upper rt expected)).
    cbv zeta. split; [intros ->; reflexivity|].
    destruct expected as [|c expected']; [repeat split; congruence|].
    cbn [truthy negb].
    destruct (text_eqb doctor handbook) eqn:Heq; cbn [negb].
    + apply text_eqb_eq in Heq. split; [reflexivity | congruence].
    + apply text_eqb_neq in Heq. split; [congruence|].
      intros _ _ Hdoctor Hhandbook. eexists. split; [reflexivity|].
      cbn [rag_matches severity]. split; [reflexivity|].
      intros distance. unfold ordinal_distance.
      rewrite (category_severity_ordinal Hdoctor),
        (category_severity_ordinal Hhandbook).
      destruct (ordinal doctor) as [i|]; [|discriminate].
      destruct (ordinal handbook) as [j|]; [|discriminate].
      intros [= <-].
      destruct (Z.leb_spec 2 (Z.abs (i - j)));
        split; intros; (reflexivity || lia).
  - intros ->. reflexivity.
  - intros best rest -> ->. reflexivity.
Qed.

End TypeD.

(** C5 on the sample store: hypertension (graph 1: "Д") filed under "А",
    an ordinal distance of 4. *)
Lemma type_d_by_ordinal_distance_witness :
  let report :=
    check_for_contradictions Sample.rt Sample.checker Sample.db
      Sample.hypertension_text cat_A None None None None None None 1 in
  ordinal_distance (strip (str_upper Sample.rt cat_A))
                   (strip (str_upper Sample.rt cat_D)) = Some 4%Z
  /\ exists r, findings_of TYPE_D report = [r] /\ severity r = CRITICAL.
Proof.
  intros report. split; [reflexivity|].
  destruct (@type_d_by_ordinal_distance Sample.rt Sample.checker Sample.db
              Sample.hypertension_text cat_A None None None None None None 1
              ltac:(vm_compute; reflexivity)) as (Hfire & _).
  edestruct Hfire with (expected := cat_D) as (_ & _ & Hdiff).
  - vm_compute. reflexivity.
  - vm_compute. reflexivity.
  - destruct Hdiff as (r & Hr & _ & Hseverity).
    + intros H. vm_compute in H. discriminate.
    + intros H. vm_compute in H. discriminate.
    + intros H. vm_compute in H. discriminate.
    + intros H. vm_compute in H. discriminate.
    + exists r. split; [exact Hr|].
      apply (Hseverity 4%Z); [vm_compute; reflexivity | discriminate].
Defined.

(** The same record, run: one finding, Type D, CRITICAL. *)
Example hypertension_category_A :
  map (fun r => (contradiction_type r, severity r, target_value r))
      (check_for_contradictions Sample.rt Sample.checker Sample.db
         Sample.hypertension_text cat_A None None None None None None 1)
  = [(Some TYPE_D, CRITICAL, Some cat_D)].
Proof. vm_compute. reflexivity. Qed.

(** C5 fails as stated ("a category ... that is non-null and differs"):
    a criterion whose category for the graph is the empty string -- not
    null, and different from the doctor's "Б" -- raises no Type D
    finding, the code taking an empty category for a missing one. *)
Lemma empty_category_raises_no_finding :
  let unlisted : PointCriterion Sample.vec :=
    {| pc_article := 43; pc_subpoint := Some (u "3");
       pc_description := u "Гипертоническая болезнь 2 степени";
       pc_graphs := {| graph_1 := Some []; graph_2 := Some cat_B;
                       graph_3 := None; graph_4 := None |};
       criteria_embedding := Some (4, 3)%Z |} in
  let db : Db Sample.vec :=
    {| point_criteria := [unlisted]; points_diagnoses := [];
       execute_raises := None |} in
  let report :=
    check_for_contradictions Sample.rt Sample.checker db
      Sample.hypertension_text cat_B None None None None None None 1 in
  _is_healthy_text Sample.rt Sample.checker Sample.hypertension_text = false
  /\ (exists best,
        search_diseases_in_text Sample.rt db Sample.hypertension_text 1
                                (70 # 100)%Q = [best]
        /\ categories_get (categories best) 1 = Some []
        /\ strip (str_upper Sample.rt cat_B)
           <> strip (str_upper Sample.rt []))
  /\ findings_of TYPE_D report = [].
Proof.
  split; [vm_compute; reflexivity|]. split.
  - eexists. split; [vm_compute; reflexivity|].
    split; [reflexivity | vm_compute; discriminate].
  - vm_compute. reflexivity.
Qed.

(** Latin "A" is left out of the statement above.  It is not a key of
    the hierarchy dictionary of [_check_type_d], which ranks it 0: a
    doctor's Latin "A" against a handbook "Б" gives a CRITICAL finding,
    and against a handbook Cyrillic "А" a finding at all, where
    [_check_type_e], [_check_type_f] and the match status take the two
    letters for one. *)
Example latin_A_ranks_zero :
  category_severity cat_A_latin = 0%Z
  /\ ordinal_distance cat_A_latin cat_B = Some 1%Z
  /\ ordinal_distance cat_A_latin cat_A = Some 0%Z
  /\ in_A cat_A_latin = true.
Proof. repeat split. Qed.

(* ===================================================================== *)
(** * Stage 0: Type C and the conscription graph *)
(* ===================================================================== *)

Section TypeC.

Context (rt : Runtime) (self : ContradictionChecker).

Lemma type_c_diseases_graph_1 diag first name value ds r :
  type_c_diseases diag first name value ds = Some r ->
  graph_1_comparison r.
Proof.
  induction ds as [|d rest IH]; cbn [type_c_diseases]; [discriminate|].
  destruct (negb (article d =? 0)%Z && negb (article d =? article first)%Z)
    eqn:Hart; [|exact IH].
  destruct (_ <? _)%Z eqn:Hsev; [|exact IH].
  intros [= <-]. exists first, d. cbn [rag_matches severity].
  apply andb_true_iff in Hart. destruct Hart as [_ Hart].
  apply negb_true_iff, Z.eqb_neq in Hart. apply Z.ltb_lt in Hsev.
  repeat split; try assumption;
    destruct (Z.leb_spec 5 (category_severity_opt
                              (graph_1 (categories d))));
    intros; (reflexivity || lia || discriminate).
Qed.

Lemma check_type_c_graph_1 db diag fields :
  has_contradiction (_check_type_c rt self db diag fields) = true ->
  graph_1_comparison (_check_type_c rt self db diag fields).
Proof.
  unfold _check_type_c. destruct (_is_healthy_text rt self diag);
    [discriminate|].
  destruct (search_diseases_in_text _ _ _ _ _) as [|first others];
    [discriminate|].
  induction fields as [|[name value] rest IH]; cbn [type_c_fields];
    [discriminate|].
  destruct (_is_healthy_text rt self value); [exact IH|].
  destruct (type_c_diseases _ _ _ _ _) as [r|] eqn:Hr; [|exact IH].
  intros _. eapply type_c_diseases_graph_1; eassumption.
Qed.

(** C9.  Two runs on records that differ only in the conscription
    graph report the same Type C findings; a Type C finding names two
    retrieved criteria of different articles, fires because the
    graph-1 category of the supplementary-field match ranks above the
    graph-1 category of the diagnosis match, and is CRITICAL exactly
    when the former ranks 5 (Д) or more. *)
Theorem type_c_ignores_graph db diag cat an co ob sr dn icd g1 g2 :
  findings_of TYPE_C
    (check_for_contradictions rt self db diag cat an co ob sr dn icd g1)
  = findings_of TYPE_C
      (check_for_contradictions rt self db diag cat an co ob sr dn icd g2)
  /\ forall r,
      In r (findings_of TYPE_C
              (check_for_contradictions rt self db diag cat
                 an co ob sr dn icd g1)) ->
      graph_1_comparison r.
Proof.
  destruct (report_by_type rt self db diag cat an co ob sr dn icd g1)
    as (_ & _ & _ & _ & HC1 & _).
  destruct (report_by_type rt self db diag cat an co ob sr dn icd g2)
    as (_ & _ & _ & _ & HC2 & _).
  cbv zeta in HC1, HC2. rewrite HC1, HC2. split; [reflexivity|].
  intros r Hr. apply append_if_found_In in Hr. destruct Hr as [-> Hhas].
  now apply check_type_c_graph_1.
Qed.

End TypeC.

(** Type C on the sample store, for each of the four graphs: hypertension
    in the diagnosis, tuberculosis in the anamnesis. *)
Example type_c_on_every_graph :
  map (fun g =>
         map (fun r => (contradiction_type r, severity r))
             (findings_of TYPE_C
                (check_for_contradictions Sample.rt Sample.checker Sample.db
                   Sample.hypertension_text cat_D
                   (Some (u "Туберкулез легких в анамнезе"))
                   None None None None None g)))
      [1; 2; 3; 4]%Z
  = [[(Some TYPE_C, CRITICAL)]; [(Some TYPE_C, CRITICAL)];
     [(Some TYPE_C, CRITICAL)]; [(Some TYPE_C, CRITICAL)]].
Proof. vm_compute. reflexivity. Qed.

(* ===================================================================== *)
(** * Stage 0: a failing capability is silent *)
(* ===================================================================== *)

Section SilentFailure.

Context (rt : Runtime) (self : ContradictionChecker).

Lemma search_embedding_raises db txt top_k thr e :
  create_embedding rt txt = Raise e ->
  search_diseases_in_text rt db txt top_k thr = [].
Proof.
  intros He. unfold search_diseases_in_text, search_diseases_try.
  rewrite He. cbn [exc_bind]. now destruct (_ || _).
Qed.

Lemma search_session_raises db txt top_k thr e :
  execute_raises db = Some e ->
  search_diseases_in_text rt db txt top_k thr = [].
Proof.
  intros He.
  unfold search_diseases_in_text, search_diseases_try, execute_nearest.
  rewrite He. destruct (_ || _); [reflexivity|].
  now destruct (create_embedding rt txt).
Qed.

(** With retrieval silent, the three retrieval-based checks report
    nothing and the report is that of E, F and B alone. *)
Lemma silent_checks db diag cat an co ob sr dn icd graph :
  retrieval_silent rt db ->
  (forall fields, _check_type_a rt self db diag fields = no_contradiction)
  /\ (forall fields, _check_type_c rt self db diag fields = no_contradiction)
  /\ _check_type_d rt self db diag cat graph = no_contradiction
  /\ check_for_contradictions rt self db diag cat an co ob sr dn icd graph
     = report_without_retrieval rt self diag cat an co ob sr dn.
Proof.
  intros Hsilent.
  assert (H70 : forall txt k,
             search_diseases_in_text rt db txt k (70 # 100)%Q = [])
    by (intros; apply Hsilent; discriminate).
  assert (H65 : forall txt k,
             search_diseases_in_text rt db txt k (65 # 100)%Q = [])
    by (intros; apply Hsilent; discriminate).
  assert (HA : forall fields,
             _check_type_a rt self db diag fields = no_contradiction).
  { intros fields. unfold _check_type_a. destruct (negb _); [reflexivity|].
    induction fields as [|[name value] rest IH]; cbn [type_a_loop];
      [reflexivity|].
    destruct (_is_healthy_text rt self value); [exact IH|].
    rewrite H70. exact IH. }
  assert (HC : forall fields,
             _check_type_c rt self db diag fields = no_contradiction).
  { intros fields. unfold _check_type_c. rewrite H65.
    now destruct (_is_healthy_text rt self diag). }
  assert (HD : _check_type_d rt self db diag cat graph = no_contradiction).
  { unfold _check_type_d. rewrite H70.
    now destruct (_is_healthy_text rt self diag). }
  repeat split; auto.
  unfold check_for_contradictions, report_without_retrieval.
  rewrite HA, HC, HD. cbn [append_if_found has_contradiction no_contradiction].
  rewrite !app_nil_r. reflexivity.
Qed.

Lemma embedder_down_silent (db : Db (Embedding rt)) e :
  retrieval_silent (embedder_down rt e) db.
Proof.
  intros txt k thr _.
  unfold search_diseases_in_text, search_diseases_try.
  cbn [create_embedding embedder_down exc_bind]. now destruct (_ || _).
Qed.

Lemma session_down_silent (db : Db (Embedding rt)) e :
  retrieval_silent rt (session_down db e).
Proof.
  intros txt k thr _. now apply search_session_raises with (e := e).
Qed.

Lemma format_nothing_similar q rows thr n :
  (65 # 100 <= thr)%Q ->
  format_diseases (nothing_similar rt)
    (firstn n (order_by_distance (nothing_similar rt)
                 (with_distance (nothing_similar rt) q rows))) thr = [].
Proof.
  intros Hthr.
  assert (Hall : forall r,
             In r (firstn n (order_by_distance (nothing_similar rt)
                               (with_distance (nothing_similar rt) q rows)))
             -> snd r = 2%Q).
  { intros [c d] Hr.
    apply In_firstn, order_by_distance_In, with_distance_In in Hr.
    destruct Hr as (e & _ & _ & ->). reflexivity. }
  induction (firstn n _) as [|[c d] rest IH]; cbn [format_diseases];
    [reflexivity|].
  assert (Hlt : Qlt_bool (1 - 2) thr = true).
  { unfold Qlt_bool. apply negb_true_iff.
    destruct (Qle_bool thr (1 - 2)) eqn:Hle; [|reflexivity].
    apply Qle_bool_iff in Hle. exfalso. lra. }
  assert (Hd : d = 2%Q) by (apply (Hall (c, d)); now left).
  subst d. rewrite Hlt.
  apply IH. intros r Hr. apply Hall. now right.
Qed.

Lemma nothing_similar_silent (db : Db (Embedding rt)) :
  retrieval_silent (nothing_similar rt) db.
Proof.
  intros txt k thr Hthr.
  unfold search_diseases_in_text, search_diseases_try, execute_nearest.
  destruct (_ || _); [reflexivity|].
  destruct (create_embedding (nothing_similar rt) txt) as [q|];
    cbn [exc_bind]; [|reflexivity].
  destruct (execute_raises _); cbn [exc_bind]; [reflexivity|].
  destruct (limit_rejected k); cbn [exc_bind]; [reflexivity|].
  now apply format_nothing_similar.
Qed.

End SilentFailure.

Section SilentFailureAtTheInterface.

Context (rt : Runtime) (self : ContradictionChecker)
        (ai_analyzer : AIAnalyzer (Embedding rt)).

(** C10.  A retrieval whose embedding call raises, or whose store query
    raises, answers the empty list.  With the provider (or the session)
    down, checks A, C and D return the "no contradiction" sentinel and
    the Stage-0 report is that of E, F and B alone.  The report, and
    the whole verdict of the full pipeline, are equal to those of a run
    in which the provider works and no stored criterion resembles any
    text: the failure leaves no ERROR status and no review reason
    behind. *)
Theorem stage_0_failure_is_silent
        (db : Db (Embedding rt)) e diag cat an co ob sr dn icd graph w rq :
  (forall txt k thr e',
      create_embedding rt txt = Raise e' ->
      search_diseases_in_text rt db txt k thr = [])
  /\ (forall txt k thr,
         search_diseases_in_text rt (session_down db e) txt k thr = [])
  /\ (forall fields,
         _check_type_a (embedder_down rt e) self db diag fields
         = no_contradiction
         /\ _check_type_c (embedder_down rt e) self db diag fields
            = no_contradiction
         /\ _check_type_a rt self (session_down db e) diag fields
            = no_contradiction
         /\ _check_type_c rt self (session_down db e) diag fields
            = no_contradiction)
  /\ _check_type_d (embedder_down rt e) self db diag cat graph
     = no_contradiction
  /\ _check_type_d rt self (session_down db e) diag cat graph
     = no_contradiction
  /\ check_for_contradictions (embedder_down rt e) self db diag cat
       an co ob sr dn icd graph
     = report_without_retrieval rt self diag cat an co ob sr dn
  /\ check_for_contradictions rt self (session_down db e) diag cat
       an co ob sr dn icd graph
     = report_without_retrieval rt self diag cat an co ob sr dn
  /\ check_for_contradictions (embedder_down rt e) self db diag cat
       an co ob sr dn icd graph
     = check_for_contradictions (nothing_similar rt) self db diag cat
         an co ob sr dn icd graph
  /\ full_validation_with_contradiction_check
       (embedder_down rt e) self ai_analyzer db w rq
     = full_validation_with_contradiction_check
         (nothing_similar rt) self ai_analyzer db w rq.
Proof.
  pose proof (fun d c a1 a2 a3 a4 a5 i g =>
                @silent_checks (embedder_down rt e) self db
                  d c a1 a2 a3 a4 a5 i g (embedder_down_silent rt db e))
    as Hdown.
  pose proof (fun d c a1 a2 a3 a4 a5 i g =>
                @silent_checks rt self (session_down db e)
                  d c a1 a2 a3 a4 a5 i g (session_down_silent rt db e))
    as Hsess.
  pose proof (fun d c a1 a2 a3 a4 a5 i g =>
                @silent_checks (nothing_similar rt) self db
                  d c a1 a2 a3 a4 a5 i g (nothing_similar_silent rt db))
    as Hquiet.
  destruct (Hdown diag cat an co ob sr dn icd graph)
    as (HA & HC & HD & HR).
  destruct (Hsess diag cat an co ob sr dn icd graph)
    as (HA' & HC' & HD' & HR').
  destruct (Hquiet diag cat an co ob sr dn icd graph)
    as (_ & _ & _ & HRq).
  split; [intros; eapply search_embedding_raises; eassumption|].
  split; [intros; now apply (search_session_raises rt) with (e := e)|].
  split; [intros fields; repeat split; auto|].
  split; [exact HD|]. split; [exact HD'|].
  split; [exact HR|]. split; [exact HR'|].
  split; [rewrite HR, HRq; reflexivity|].
  unfold full_validation_with_contradiction_check.
  destruct (Hdown (rq_diagnosis_text rq) (rq_doctor_category rq)
              (rq_anamnesis rq) (rq_complaints rq) (rq_objective_data rq)
              (rq_special_research_results rq) (rq_doctor_notes rq)
              (rq_icd10_codes rq) (rq_graph rq)) as (_ & _ & _ & ->).
  destruct (Hquiet (rq_diagnosis_text rq) (rq_doctor_category rq)
              (rq_anamnesis rq) (rq_complaints rq) (rq_objective_data rq)
              (rq_special_research_results rq) (rq_doctor_notes rq)
              (rq_icd10_codes rq) (rq_graph rq)) as (_ & _ & _ & ->).
  reflexivity.
Qed.

End SilentFailureAtTheInterface.

(* ===================================================================== *)
(** * The response schema accepts every Stage-0 report *)
(* ===================================================================== *)

Lemma well_formed_no_contradiction : well_formed_finding no_contradiction.
Proof. split; [discriminate | constructor]. Qed.

Lemma convert_rag_matches_ok ms :
  Forall (fun d => in_unit_interval (similarity d) = true) ms ->
  exists rs, convert_rag_matches ms = Ok rs.
Proof.
  induction 1 as [|d rest Hd _ [rs IH]]; cbn [convert_rag_matches].
  - eauto.
  - unfold make_RAGMatch. rewrite Hd, IH. cbn [exc_bind]. eauto.
Qed.

Lemma convert_contradictions_ok cs :
  Forall well_formed_finding cs ->
  exists ds, _convert_contradictions cs = Ok ds.
Proof.
  induction 1 as [|c rest [Hty Hm] _ [ds IH]]; cbn [_convert_contradictions].
  - eauto.
  - destruct (has_contradiction c) eqn:Hhas; cbn [negb]; [|eauto].
    destruct (convert_rag_matches_ok Hm) as [rs ->]. cbn [exc_bind].
    destruct (contradiction_type c) as [ty|]; [|now elim Hty].
    rewrite IH. cbn [exc_bind]. eauto.
Qed.

Section ReportWellFormed.

Context (rt : Runtime) (self : ContradictionChecker).
Variable db : Db (Embedding rt).
Hypothesis Hdist : distances_nonnegative rt db.

Lemma search_in_unit_interval txt k thr d :
  (0 <= thr)%Q ->
  In d (search_diseases_in_text rt db txt k thr) ->
  in_unit_interval (similarity d) = true.
Proof.
  intros Hthr Hd.
  destruct (@search_similarity_range rt db txt k thr d Hthr
              (fun q c e => @Hdist txt q c e) Hd) as [H0 H1].
  unfold in_unit_interval. apply andb_true_iff.
  split; now apply Qle_bool_iff.
Qed.

Lemma search_all_in_unit_interval txt k thr :
  (0 <= thr)%Q ->
  Forall (fun d => in_unit_interval (similarity d) = true)
         (search_diseases_in_text rt db txt k thr).
Proof.
  intros Hthr. apply Forall_forall. intros d.
  now apply search_in_unit_interval.
Qed.

Lemma check_type_e_well_formed diag cat :
  well_formed_finding (_check_type_e rt self diag cat).
Proof.
  unfold _check_type_e. destruct (_ && _);
    [|apply well_formed_no_contradiction].
  split; [discriminate | constructor].
Qed.

Lemma check_type_f_well_formed diag cat :
  well_formed_finding (_check_type_f rt self diag cat).
Proof.
  unfold _check_type_f. destruct (negb _);
    [apply well_formed_no_contradiction|].
  destruct (_contains_severe_condition rt self diag) as [[|] kw];
    [|apply well_formed_no_contradiction].
  split; [discriminate | constructor].
Qed.

Lemma check_type_a_well_formed diag fields :
  well_formed_finding (_check_type_a rt self db diag fields).
Proof.
  unfold _check_type_a. destruct (negb _);
    [apply well_formed_no_contradiction|].
  induction fields as [|[name value] rest IH]; cbn [type_a_loop];
    [apply well_formed_no_contradiction|].
  destruct (_is_healthy_text rt self value); [exact IH|].
  pose proof (@search_all_in_unit_interval value 3 (70 # 100)%Q
                ltac:(discriminate)) as Hall.
  destruct (search_diseases_in_text _ _ _ _ _); [exact IH|].
  split; [discriminate | exact Hall].
Qed.

Lemma check_type_b_well_formed diag fields :
  well_formed_finding (_check_type_b rt self diag fields).
Proof.
  unfold _check_type_b. destruct (_is_healthy_text rt self diag);
    [apply well_formed_no_contradiction|].
  induction fields as [|[name value] rest IH]; cbn [type_b_loop];
    [apply well_formed_no_contradiction|].
  destruct (_is_healthy_text rt self value); [|exact IH].
  split; [discriminate | constructor].
Qed.

Lemma type_c_diseases_well_formed diag first name value ds r :
  in_unit_interval (similarity first) = true ->
  Forall (fun d => in_unit_interval (similarity d) = true) ds ->
  type_c_diseases diag first name value ds = Some r ->
  well_formed_finding r.
Proof.
  intros Hfirst Hds. induction Hds as [|d rest Hd _ IH];
    cbn [type_c_diseases]; [discriminate|].
  destruct (_ && _); [|exact IH].
  destruct (_ <? _)%Z; [|exact IH].
  intros [= <-]. split; [discriminate|]. cbn [rag_matches].
  repeat constructor; assumption.
Qed.

Lemma check_type_c_well_formed diag fields :
  well_formed_finding (_check_type_c rt self db diag fields).
Proof.
  unfold _check_type_c. destruct (_is_healthy_text rt self diag);
    [apply well_formed_no_contradiction|].
  pose proof (@search_all_in_unit_interval diag 2 (65 # 100)%Q
                ltac:(discriminate)) as Hdiag.
  destruct (search_diseases_in_text _ _ _ _ _) as [|first others];
    [apply well_formed_no_contradiction|].
  apply Forall_inv in Hdiag.
  induction fields as [|[name value] rest IH]; cbn [type_c_fields];
    [apply well_formed_no_contradiction|].
  destruct (_is_healthy_text rt self value); [exact IH|].
  destruct (type_c_diseases _ _ _ _ _) as [r|] eqn:Hr; [|exact IH].
  eapply type_c_diseases_well_formed; [exact Hdiag | | exact Hr].
  apply search_all_in_unit_interval. discriminate.
Qed.

Lemma check_type_d_well_formed diag cat graph :
  well_formed_finding (_check_type_d rt self db diag cat graph).
Proof.
  unfold _check_type_d. destruct (_is_healthy_text rt self diag);
    [apply well_formed_no_contradiction|].
  pose proof (@search_all_in_unit_interval diag 1 (70 # 100)%Q
                ltac:(discriminate)) as Hdiag.
  destruct (search_diseases_in_text _ _ _ _ _) as [|best others];
    [apply well_formed_no_contradiction|].
  apply Forall_inv in Hdiag.
  destruct (categories_get _ _) as [expected|];
    [|apply well_formed_no_contradiction].
  destruct (negb (truthy expected)); [apply well_formed_no_contradiction|].
  destruct (negb (text_eqb _ _)); [|apply well_formed_no_contradiction].
  split; [discriminate|]. cbn [rag_matches]. repeat constructor; assumption.
Qed.

Lemma append_if_found_well_formed r :
  well_formed_finding r -> Forall well_formed_finding (append_if_found r).
Proof.
  intros Hr. unfold append_if_found.
  destruct (has_contradiction r);
    [constructor; [assumption | constructor] | constructor].
Qed.

Lemma report_well_formed diag cat an co ob sr dn icd graph :
  Forall well_formed_finding
    (check_for_contradictions rt self db diag cat an co ob sr dn icd graph).
Proof.
  unfold check_for_contradictions.
  repeat (apply Forall_app; split); apply append_if_found_well_formed.
  - apply check_type_e_well_formed.
  - apply check_type_f_well_formed.
  - apply check_type_a_well_formed.
  - apply check_type_b_well_formed.
  - apply check_type_c_well_formed.
  - apply check_type_d_well_formed.
Qed.

(** Stage 0 and its conversion never raise. *)
Lemma stage_0_converts diag cat an co ob sr dn icd graph :
  exists ds,
    _convert_contradictions
      (check_for_contradictions rt self db diag cat an co ob sr dn icd graph)
    = Ok ds.
Proof. apply convert_contradictions_ok, report_well_formed. Qed.

End ReportWellFormed.

(* ===================================================================== *)
(** * Failure paths of the full pipeline *)
(* ===================================================================== *)

Section FailurePaths.

Context (rt : Runtime) (self : ContradictionChecker)
        (ai_analyzer : AIAnalyzer (Embedding rt)).

(** The router turns the service's outcome into a body or a 500. *)
Lemma router_outcome db w request :
  fst (check_doctor_conclusion rt self ai_analyzer db w request)
  = match fst (full_validation_with_contradiction_check
                 rt self ai_analyzer db w request) with
    | Ok v => Http200 v
    | Raise e => Http500 e
    end.
Proof.
  unfold check_doctor_conclusion.
  now destruct (full_validation_with_contradiction_check _ _ _ _ _ _)
    as [[v | e] w'].
Qed.

(** C2, as the code has it.  Whatever the embedding provider and the
    store session do during Stage 0, the service returns a verdict as
    soon as the Stage-1 analyzer call returns (with a confidence in
    [0, 1]) and the Stage-2 look-up, if made, returns: a Stage-0
    failure is swallowed, Stage 1 never reports ERROR, and Stage 2
    reports ERROR only when no category was found for a record that is
    not healthy.  An exception raised by the Stage-1 call or by the
    Stage-2 look-up is not caught by the service: it escapes, and the
    router answers 500 instead of a verdict. *)
Theorem failures_swallowed_or_escaping db w rq :
  distances_nonnegative rt db ->
  let analysis_text :=
    match rq_conclusion_text rq with
    | Some t => if truthy t then t else rq_diagnosis_text rq
    | None => rq_diagnosis_text rq
    end in
  let clinical :=
    determine_subpoint ai_analyzer db analysis_text (rq_specialty rq)
      (rq_icd10_codes rq) (rq_article_hint rq) (rq_anamnesis rq)
      (rq_complaints rq) (rq_special_research_results rq) in
  let outcome :=
    fst (full_validation_with_contradiction_check
           rt self ai_analyzer db w rq) in
  let answer := fst (check_doctor_conclusion rt self ai_analyzer db w rq) in
  (forall e, clinical = Raise e -> outcome = Raise e /\ answer = Http500 e)
  /\ (forall cr a e,
         clinical = Ok cr ->
         get_or (cr_is_healthy cr) false = false ->
         cr_article cr = Some a -> a <> 0%Z ->
         determine_category ai_analyzer db a (cr_subpoint cr) (rq_graph rq)
         = Raise e ->
         outcome = Raise e /\ answer = Http500 e)
  /\ (forall cr,
         clinical = Ok cr ->
         in_unit_interval (get_or (cr_confidence cr) 0%Q) = true ->
         (get_or (cr_is_healthy cr) false = true
          \/ cr_article cr = None \/ cr_article cr = Some 0%Z
          \/ exists a c,
              cr_article cr = Some a
              /\ determine_category ai_analyzer db a (cr_subpoint cr)
                   (rq_graph rq) = Ok c) ->
         exists v,
           outcome = Ok v /\ answer = Http200 v
           /\ status (stage_1_clinical v) <> STAGE_ERROR
           /\ (status (stage_2_administrative v) = STAGE_ERROR ->
               ai_recommended_category v = None /\ is_healthy v = false)).
Proof.
  intros Hdist analysis_text clinical outcome answer.
  subst answer. rewrite router_outcome. fold outcome.
  destruct (@stage_0_converts rt self db Hdist (rq_diagnosis_text rq)
              (rq_doctor_category rq) (rq_anamnesis rq) (rq_complaints rq)
              (rq_objective_data rq) (rq_special_research_results rq)
              (rq_doctor_notes rq) (rq_icd10_codes rq) (rq_graph rq))
    as [ds Hds].
  assert (Hout : outcome
                 = fst (full_validation_with_contradiction_check
                          rt self ai_analyzer db w rq)) by reflexivity.
  clearbody outcome. revert Hout. run_pipeline. rewrite Hds.
  fold analysis_text. fold clinical. intros Hout.
  split; [|split].
  - intros e He. rewrite He in Hout. cbn [fst] in Hout. subst outcome.
    auto.
  - intros cr a e Hcr Hhealthy Hart Ha Hcat. rewrite Hcr in Hout.
    unfold stage_2_branch in Hout.
    rewrite Hhealthy, Hart in Hout.
    apply Z.eqb_neq in Ha. rewrite Ha, Hcat in Hout.
    cbn [exc_bind fst] in Hout. subst outcome. auto.
  - intros cr Hcr Hconf Hstage2. rewrite Hcr in Hout.
    rewrite Hconf in Hout.
    destruct (stage_2_branch rt ai_analyzer db _ _ _ _ _)
      as [[[[[ai_cat cat_res] p2] st2] reasons]|e] eqn:Hbranch.
    + destruct (match _determine_category_match_status _ _ _ _ _ _ _ with
                | MATCH => _ | MISMATCH => _ | PARTIAL_MISMATCH => _
                | REVIEW_REQUIRED => _ end) as [rs recs] in Hout.
      destruct (_calculate_overall_status _ _ _ _) as [st risk] in Hout.
      cbn [fst] in Hout. subst outcome. eexists. split; [reflexivity|].
      split; [reflexivity|]. cbn. split.
      * now destruct (_ || _).
      * intros Hst. subst st2. unfold stage_2_branch in Hbranch.
        destruct (get_or (cr_is_healthy cr) false); [discriminate|].
        destruct (cr_article cr) as [a|]; [|discriminate].
        destruct (a =? 0)%Z; [discriminate|].
        destruct (determine_category _ _ _ _ _) as [c|];
          cbn [exc_bind] in Hbranch; [|discriminate].
        destruct (cat_category c); [discriminate|].
        injection Hbranch as <- _ _ _. auto.
    + exfalso. unfold stage_2_branch in Hbranch.
      destruct Hstage2 as [H | [H | [H | (a & c & H & Hc)]]];
        rewrite H in Hbranch; try discriminate.
      * destruct (get_or _ _); discriminate.
      * destruct (get_or _ _); discriminate.
      * destruct (get_or _ _); [discriminate|].
        destruct (a =? 0)%Z; [discriminate|].
        rewrite Hc in Hbranch. discriminate.
Qed.

End FailurePaths.

(** C2 on the sample installation with the embedding provider down. *)
Lemma failures_swallowed_or_escaping_witness :
  let ai := Sample.analyzer (Ok (Sample.clinical false None None (9 # 10))) in
  let rq := Sample.request Sample.hypertension_text cat_A None 1 in
  exists v,
    fst (full_validation_with_contradiction_check
           Sample.rt_down Sample.checker ai Sample.db (Sample.world 0) rq)
    = Ok v
    /\ fst (check_doctor_conclusion
              Sample.rt_down Sample.checker ai Sample.db (Sample.world 0) rq)
       = Http200 v
    /\ status (stage_1_clinical v) <> STAGE_ERROR.
Proof.
  intros ai rq.
  destruct (@failures_swallowed_or_escaping Sample.rt_down Sample.checker ai
              Sample.db (Sample.world 0) rq
              ltac:(intros txt q c e Hq; discriminate Hq))
    as (_ & _ & Hreturns).
  destruct (Hreturns (Sample.clinical false None None (9 # 10))
              eq_refl eq_refl (or_intror (or_introl eq_refl)))
    as (v & Hv & Hanswer & Hstage1 & _).
  exists v. auto.
Defined.

(** C2 fails as stated.  With the embedding provider down, the
    retrievals of Stage 0 fail on a hypertension diagnosis filed under
    "А"; the verdict is VALID / LOW with no ERROR status, no review
    reason and no review flag, where the same record with the provider up
    is INVALID / CRITICAL.  And when the Stage-1 analyzer call raises, no
    verdict is returned: the router answers 500. *)
Lemma embedding_failure_is_not_reported :
  let ai := Sample.analyzer (Ok (Sample.clinical false None None (9 # 10))) in
  let rq := Sample.request Sample.hypertension_text cat_A None 1 in
  (forall t, create_embedding Sample.rt_down t = Raise OpenAIError)
  /\ (exists v,
         fst (full_validation_with_contradiction_check
                Sample.rt_down Sample.checker ai Sample.db (Sample.world 0) rq)
         = Ok v
         /\ reports_error v = false /\ review_reasons v = []
         /\ overall_status v = VALID /\ risk_level v = LOW
         /\ should_review v = false)
  /\ (exists v,
         fst (full_validation_with_contradiction_check
                Sample.rt Sample.checker ai Sample.db (Sample.world 0) rq)
         = Ok v
         /\ overall_status v = INVALID /\ risk_level v = CRITICAL)
  /\ fst (check_doctor_conclusion Sample.rt Sample.checker
            (Sample.analyzer (Raise OpenAIError)) Sample.db (Sample.world 0) rq)
     = Http500 OpenAIError.
Proof.
  split; [reflexivity|]. split; [|split].
  - eexists. split; [vm_compute; reflexivity|]. repeat split.
  - eexists. split; [vm_compute; reflexivity|]. repeat split.
  - vm_compute. reflexivity.
Qed.

(* ===================================================================== *)
(** * Stage 2: the reference look-up *)
(* ===================================================================== *)

Lemma find_is_first_filtered {A} (f : A -> bool) l :
  scalar_one_or_none (firstn 1 (filter f l)) = Ok (List.find f l).
Proof.
  induction l as [|x l IH]; cbn [filter List.find]; [reflexivity|].
  destruct (f x); [|exact IH]. cbn [firstn]. reflexivity.
Qed.




Section ToleratedSubpoint.

Variable E : Type.



End ToleratedSubpoint.


(** The same key, run: asked with a null subpoint the look-up finds
    nothing, asked with the empty string it finds "В". *)
Example exact_lookup_misses_empty_subpoint :
  get_category_for_article_subpoint Sample.db 88 None 1 = None
  /\ get_category_for_article_subpoint Sample.db 88 (Some []) 1 = Some cat_V.
Proof. split; vm_compute; reflexivity. Qed.

(** With an analyzer that resolves categories through that look-up, a
    Stage-1 answer of article 88 with a null subpoint ends Stage 2 in
    ERROR, with no category. *)
Example article_88_without_subpoint :
  exists v,
    fst (full_validation_with_contradiction_check
           Sample.rt Sample.checker
           (Sample.analyzer
              (Ok (Sample.clinical false (Some 88%Z) None (9 # 10))))
           Sample.db (Sample.world 0)
           (Sample.request (u "Энурез ночной, стойкий") cat_V None 1))
    = Ok v
    /\ status (stage_2_administrative v) = STAGE_ERROR
    /\ ai_recommended_category v = None
    /\ In (ReasonNoCategory 88 None) (review_reasons v).
Proof.
  eexists. split; [vm_compute; reflexivity|].
  split; [reflexivity|]. split; [reflexivity|]. right. now left.
Qed.

(* ===================================================================== *)
(** * Two calls, one verdict *)
(* ===================================================================== *)

Section Idempotence.

Context (rt : Runtime) (self : ContradictionChecker)
        (ai_analyzer : AIAnalyzer (Embedding rt)).

Lemma verdict_independent_of_world db w1 w2 rq :
  exc_map erase_durations
    (fst (full_validation_with_contradiction_check
            rt self ai_analyzer db w1 rq))
  = exc_map erase_durations
      (fst (full_validation_with_contradiction_check
              rt self ai_analyzer db w2 rq)).
Proof.
  run_pipeline.
  destruct (_convert_contradictions _) as [ds|e]; [|reflexivity].
  destruct (determine_subpoint _ _ _ _ _ _ _ _ _) as [cr|e]; [|reflexivity].
  destruct (stage_2_branch _ _ _ _ _ _ _ _)
    as [[[[[ai_cat cat_res] p2] st2] reasons]|e]; [|reflexivity].
  destruct (match _determine_category_match_status _ _ _ _ _ _ _ with
            | MATCH => _ | MISMATCH => _ | PARTIAL_MISMATCH => _
            | REVIEW_REQUIRED => _ end) as [rs recs].
  destruct (_calculate_overall_status _ _ _ _) as [st risk].
  destruct (in_unit_interval _); cbn [fst exc_map]; [|reflexivity].
  unfold erase_durations, erase_stage_duration, erase_metadata_durations.
  cbn [overall_status risk_level stage_0_contradictions stage_1_clinical
       stage_2_administrative ai_recommended_article
       ai_recommended_subpoint ai_recommended_category ai_confidence
       ai_reasoning doctor_article doctor_subpoint doctor_category
       category_match_status should_review review_reasons recommendations
       is_healthy metadata stage_name stage_number passed status details
       duration_seconds stage_error_message md_model
       total_duration_seconds stage_0_duration_seconds
       stage_1_duration_seconds stage_2_duration_seconds tokens_used
       md_graph md_specialty].
  reflexivity.
Qed.

(** C8.  With the same record, the same reference store and the same
    (deterministic) collaborators, two calls return verdicts equal in
    every field but the durations -- or raise the same exception --
    whatever the clocks read, whatever identifiers are drawn and
    whatever has been saved in between; in particular when the second
    call starts in the world the first one left. *)
Theorem validate_is_idempotent db w1 w2 rq :
  exc_map erase_durations
    (fst (full_validation_with_contradiction_check
            rt self ai_analyzer db w1 rq))
  = exc_map erase_durations
      (fst (full_validation_with_contradiction_check
              rt self ai_analyzer db w2 rq))
  /\ (let first :=
        full_validation_with_contradiction_check
          rt self ai_analyzer db w1 rq in
      let second :=
        full_validation_with_contradiction_check
          rt self ai_analyzer db (snd first) rq in
      exc_map erase_durations (fst first)
      = exc_map erase_durations (fst second)).
Proof.
  split; [|cbv zeta]; apply verdict_independent_of_world.
Qed.

End Idempotence.

(** Two consecutive calls with saving switched on: the durations and the
    saved table differ, the verdicts agree once durations are erased. *)
Example two_calls_with_saving :
  let w0 :=
    {| clock := fun n => inject_Z (Z.of_nat (n * n)); ticks := 0;
       uuids := fun n => N.of_nat n; drawn := 0;
       conscripts := [{| conscript_pk := 7%N |}]; examinations := [];
       ai_analysis_results := [] |} in
  let rq :=
    {| rq_diagnosis_text := Sample.hypertension_text;
       rq_doctor_category := cat_B;
       rq_specialty := u "Терапевт";
       rq_anamnesis := None; rq_complaints := None;
       rq_objective_data := None; rq_special_research_results := None;
       rq_conclusion_text := None; rq_doctor_notes := None;
       rq_icd10_codes := None; rq_article_hint := None;
       rq_subpoint_hint := None; rq_graph := 1;
       rq_conscript_draft_id := Some 7%N; rq_examination_id := None;
       rq_save_to_db := true |} in
  let ai :=
    Sample.analyzer
      (Ok (Sample.clinical false (Some 43%Z) (Some (u "3")) (9 # 10))) in
  let first :=
    full_validation_with_contradiction_check
      Sample.rt Sample.checker ai Sample.db w0 rq in
  let second :=
    full_validation_with_contradiction_check
      Sample.rt Sample.checker ai Sample.db (snd first) rq in
  exc_map (fun v => total_duration_seconds (metadata v)) (fst first)
  <> exc_map (fun v => total_duration_seconds (metadata v)) (fst second)
  /\ List.length (ai_analysis_results (snd first)) = 1
  /\ List.length (ai_analysis_results (snd second)) = 1
  /\ map ar_created_at (ai_analysis_results (snd first))
     <> map ar_created_at (ai_analysis_results (snd second))
  /\ exc_map erase_durations (fst first)
     = exc_map erase_durations (fst second).
Proof.
  vm_compute. repeat split; discriminate.
Qed.

(* ===================================================================== *)
(** * The verdict: overall status and risk level *)
(* ===================================================================== *)

Local Abbreviation is_finding_of sev :=
  (fun c : ContradictionResult =>
     has_contradiction c && Severity_eqb (severity c) sev).

Lemma existsb_finding_of sev cs :
  existsb (is_finding_of sev) cs = true <->
  exists c, In c cs /\ has_contradiction c = true /\ severity c = sev.
Proof.
  rewrite existsb_exists. split; intros (c & Hin & H); exists c.
  - apply andb_true_iff in H. rewrite Severity_eqb_eq in H. tauto.
  - split; [exact Hin|]. apply andb_true_iff. rewrite Severity_eqb_eq. exact H.
Qed.

Lemma finding_of_is_finding sev cs :
  existsb (is_finding_of sev) cs = true ->
  existsb has_contradiction cs = true.
Proof.
  rewrite !existsb_exists. intros (c & Hin & H). exists c.
  apply andb_true_iff in H. tauto.
Qed.

Lemma no_finding_spec cs :
  existsb has_contradiction cs = false <->
  forall c, In c cs -> has_contradiction c = false.
Proof.
  split.
  - intros H c Hin. destruct (has_contradiction c) eqn:Hc; [|reflexivity].
    rewrite <- H. symmetry. apply existsb_exists. eauto.
  - intros H. destruct (existsb _ _) eqn:He; [|reflexivity].
    apply existsb_exists in He. destruct He as (c & Hin & Hc).
    rewrite (H c Hin) in Hc. discriminate.
Qed.

(** The decision table of [_calculate_overall_status], with the rules
    that can never fire left out. *)
Lemma calculate_overall_status_table cs m conf healthy :
  _calculate_overall_status cs m conf healthy
  = if existsb (is_finding_of CRITICAL) cs then (INVALID, CRITICAL)
    else match m with
         | MISMATCH =>
             if existsb (is_finding_of HIGH) cs then (INVALID, HIGH)
             else (WARNING, HIGH)
         | PARTIAL_MISMATCH => (WARNING, MEDIUM)
         | MATCH =>
             if existsb has_contradiction cs then
               if existsb (is_finding_of HIGH) cs then (WARNING, HIGH)
               else (WARNING, MEDIUM)
             else (VALID, LOW)
         | REVIEW_REQUIRED =>
             if existsb has_contradiction cs then
               if existsb (is_finding_of HIGH) cs then (WARNING, HIGH)
               else (WARNING, MEDIUM)
             else (WARNING, MEDIUM)
         end.
Proof.
  unfold _calculate_overall_status.
  pose proof (@finding_of_is_finding CRITICAL cs) as Hc.
  destruct (existsb (is_finding_of CRITICAL) cs);
    [rewrite (Hc eq_refl); now destruct m|].
  destruct m; cbn [MatchStatus_eqb andb negb];
    destruct (existsb has_contradiction cs); cbn [negb]; try reflexivity;
    destruct (existsb (is_finding_of HIGH) cs); try reflexivity;
    now destruct (Qlt_bool conf (1 # 2) && negb healthy).
Qed.

(** X1.  [_calculate_overall_status] never looks at the confidence nor
    at the healthy flag: its rules "low confidence" and "all is well"
    are reached only through cases the earlier rules have taken, so the
    status and the risk level depend on the findings and on the match
    status alone. *)
Theorem overall_status_ignores_confidence cs m conf1 healthy1 conf2 healthy2 :
  _calculate_overall_status cs m conf1 healthy1
  = _calculate_overall_status cs m conf2 healthy2.
Proof.
  unfold _calculate_overall_status.
  pose proof (@finding_of_is_finding CRITICAL cs) as Hcritical.
  destruct (existsb has_contradiction cs).
  - (* with a finding, the rule "there are contradictions" ends the
       function at the latest *)
    rewrite andb_false_r.
    destruct (existsb (is_finding_of CRITICAL) cs); [reflexivity|].
    destruct (MatchStatus_eqb m MISMATCH); [reflexivity|].
    now destruct (MatchStatus_eqb m PARTIAL_MISMATCH).
  - (* without one, MATCH was taken by the first rule and every other
       status by its own *)
    destruct (existsb (is_finding_of CRITICAL) cs);
      [now specialize (Hcritical eq_refl)|].
    destruct m; cbn [MatchStatus_eqb andb negb]; try reflexivity.
    now destruct (Qlt_bool conf1 (1 # 2) && negb healthy1),
      (Qlt_bool conf2 (1 # 2) && negb healthy2).
Qed.

(* ===================================================================== *)
(** * The conversion of the Stage-0 report *)
(* ===================================================================== *)

(** What [RAGMatch(...)] keeps of a retrieval hit. *)
Local Abbreviation match_of :=
  (fun (m : Disease) (r : RAGMatch) =>
     rm_article r = article m
     /\ rm_subpoint r = py_str (subpoint m)
     /\ rm_description r = firstn 500 (description m)
     /\ rm_similarity r = similarity m
     /\ rm_categories r = categories m).

(** What [ContradictionDetail(...)] keeps of a finding. *)
Local Abbreviation detail_of :=
  (fun (c : ContradictionResult) (d : ContradictionDetail) =>
     contradiction_type c = Some (cd_type d)
     /\ cd_severity d = severity c
     /\ cd_description d = c_description c
     /\ cd_source_field d = source_field c
     /\ cd_target_field d = target_field c
     /\ cd_source_value d = source_value c
     /\ cd_target_value d = target_value c
     /\ Forall2 match_of (rag_matches c) (cd_rag_matches d)
     /\ cd_recommendation d = recommendation c).

Lemma convert_rag_matches_Forall2 ms rs :
  convert_rag_matches ms = Ok rs -> Forall2 match_of ms rs.
Proof.
  revert rs. induction ms as [|m ms IH]; cbn [convert_rag_matches];
    intros rs H.
  - injection H as <-. constructor.
  - unfold make_RAGMatch in H.
    destruct (in_unit_interval (similarity m)); [|discriminate].
    cbn [exc_bind] in H.
    destruct (convert_rag_matches ms) as [rs'|]; [|discriminate].
    injection H as <-. constructor; [cbn; tauto | now apply IH].
Qed.

Lemma convert_contradictions_Forall2 cs ds :
  _convert_contradictions cs = Ok ds ->
  Forall2 detail_of (filter has_contradiction cs) ds.
Proof.
  revert ds. induction cs as [|c cs IH];
    cbn [_convert_contradictions filter]; intros ds H.
  - injection H as <-. constructor.
  - destruct (has_contradiction c); cbn [negb] in H; [|now apply IH].
    destruct (convert_rag_matches (rag_matches c)) as [rs|] eqn:Hrs;
      [|discriminate].
    cbn [exc_bind] in H.
    destruct (contradiction_type c) as [ty|] eqn:Hty; [|discriminate].
    cbn [exc_bind] in H.
    destruct (_convert_contradictions cs) as [ds'|]; [|discriminate].
    injection H as <-. constructor; [|now apply IH].
    cbn. repeat split; try reflexivity; try exact Hty.
    now apply convert_rag_matches_Forall2.
Qed.

Lemma convert_rag_matches_raises ms e :
  convert_rag_matches ms = Raise e ->
  exists m, In m ms /\ in_unit_interval (similarity m) = false.
Proof.
  induction ms as [|m ms IH]; cbn [convert_rag_matches]; [discriminate|].
  unfold make_RAGMatch.
  destruct (in_unit_interval (similarity m)) eqn:Hm.
  - cbn [exc_bind].
    destruct (convert_rag_matches ms) as [rs|e']; [discriminate|].
    cbn [exc_bind]. intros H. destruct (IH H) as (m' & Hin & Hm').
    exists m'. split; [now right | exact Hm'].
  - intros _. exists m. split; [now left | exact Hm].
Qed.

Lemma convert_rag_matches_accepts ms rs :
  convert_rag_matches ms = Ok rs ->
  forall m, In m ms -> in_unit_interval (similarity m) = true.
Proof.
  revert rs. induction ms as [|m0 ms IH]; cbn [convert_rag_matches];
    intros rs H m Hin; [now elim Hin|].
  unfold make_RAGMatch in H.
  destruct (in_unit_interval (similarity m0)) eqn:Hm0; [|discriminate].
  cbn [exc_bind] in H.
  destruct (convert_rag_matches ms) as [rs'|]; [|discriminate].
  destruct Hin as [<- | Hin]; [exact Hm0 | now apply (IH rs' eq_refl)].
Qed.

Lemma convert_contradictions_accepts cs ds :
  _convert_contradictions cs = Ok ds ->
  forall c, In c cs -> has_contradiction c = true ->
            contradiction_type c <> None
            /\ forall m, In m (rag_matches c) ->
                         in_unit_interval (similarity m) = true.
Proof.
  revert ds. induction cs as [|c0 cs IH]; cbn [_convert_contradictions];
    intros ds H c Hin Hc; [now elim Hin|].
  destruct (has_contradiction c0) eqn:Hc0; cbn [negb] in H.
  - destruct (convert_rag_matches (rag_matches c0)) as [rs|] eqn:Hrs;
      [|discriminate].
    cbn [exc_bind] in H.
    destruct (contradiction_type c0) as [ty|] eqn:Hty; [|discriminate].
    cbn [exc_bind] in H.
    destruct (_convert_contradictions cs) as [ds'|]; [|discriminate].
    destruct Hin as [<- | Hin]; [|now apply (IH ds' eq_refl)].
    split; [congruence|]. eapply convert_rag_matches_accepts; eassumption.
  - destruct Hin as [<- | Hin]; [congruence | now apply (IH ds H)].
Qed.

(** X15.  [_convert_contradictions] raises exactly when some finding
    has no type or has a retrieval hit whose similarity lies outside
    [0, 1].  Otherwise it drops the entries that are not findings and
    keeps the others in order, type, severity, description, fields and
    recommendation unchanged; of each retrieval hit it keeps the
    article, the similarity and the categories, renders a missing
    subpoint as the string "None" and cuts the description at 500
    characters. *)
Theorem convert_keeps_findings cs :
  let refused (c : ContradictionResult) :=
    has_contradiction c = true
    /\ (contradiction_type c = None
        \/ exists m, In m (rag_matches c)
                     /\ in_unit_interval (similarity m) = false) in
  ((exists e, _convert_contradictions cs = Raise e)
   <-> exists c, In c cs /\ refused c)
  /\ match _convert_contradictions cs with
     | Ok ds => Forall2 detail_of (filter has_contradiction cs) ds
     | Raise _ => True
     end.
Proof.
  intros refused.
  assert (Hraises : forall e, _convert_contradictions cs = Raise e ->
                              exists c, In c cs /\ refused c).
  { intros e H.
    induction cs as [|c cs IH]; cbn [_convert_contradictions] in H;
      [discriminate|].
    destruct (has_contradiction c) eqn:Hc; cbn [negb] in H.
    - destruct (convert_rag_matches (rag_matches c)) as [rs|e'] eqn:Hrs.
      + cbn [exc_bind] in H.
        destruct (contradiction_type c) as [ty|] eqn:Hty.
        * cbn [exc_bind] in H.
          destruct (_convert_contradictions cs) as [ds'|e''];
            [discriminate|].
          cbn [exc_bind] in H. destruct (IH H) as (c' & Hin & Hrest).
          exists c'. split; [now right | exact Hrest].
        * exists c. split; [now left|]. split; auto.
      + exists c. split; [now left|]. split; [exact Hc|]. right.
        eapply convert_rag_matches_raises; eassumption.
    - destruct (IH H) as (c' & Hin & Hrest).
      exists c'. split; [now right | exact Hrest]. }
  destruct (_convert_contradictions cs) as [ds|e] eqn:H.
  - split; [|now apply convert_contradictions_Forall2].
    split; [intros [e He]; discriminate|].
    intros (c & Hin & Hc & Hbad). exfalso.
    destruct (convert_contradictions_accepts _ H c Hin Hc) as [Hty Hms].
    destruct Hbad as [Hnone | (m & Hm & Hout)]; [now elim Hty|].
    rewrite (Hms m Hm) in Hout. discriminate.
  - split; [|exact I]. split; [intros _; now apply (Hraises e) | eauto].
Qed.

Lemma convert_contradictions_empty cs ds :
  _convert_contradictions cs = Ok ds ->
  (ds = [] <-> existsb has_contradiction cs = false).
Proof.
  intros H. apply convert_contradictions_Forall2 in H.
  split.
  - intros ->. inversion H as [Hnil|]. 
    destruct (existsb has_contradiction cs) eqn:He; [|reflexivity].
    apply existsb_exists in He. destruct He as (c & Hin & Hc).
    assert (Hf : In c (filter has_contradiction cs))
      by (apply filter_In; auto).
    rewrite <- Hnil in Hf. destruct Hf.
  - intros He. destruct (filter has_contradiction cs) as [|c rest] eqn:Hf.
    + now inversion H.
    + assert (Hin : In c (filter has_contradiction cs))
        by (rewrite Hf; now left).
      apply filter_In in Hin. destruct Hin as [Hin Hc].
      assert (existsb has_contradiction cs = true)
        by (apply existsb_exists; eauto).
      congruence.
Qed.

Lemma Forall2_In_l {A B} (R : A -> B -> Prop) l l' a :
  Forall2 R l l' -> In a l -> exists b, In b l' /\ R a b.
Proof.
  induction 1 as [|x y l l' Hxy _ IH]; intros Hin; [destruct Hin|].
  destruct Hin as [<- | Hin].
  - exists y. split; [now left | exact Hxy].
  - destruct (IH Hin) as (b & Hb & Hab). exists b. split; [now right|auto].
Qed.

Lemma Forall2_In_r {A B} (R : A -> B -> Prop) l l' b :
  Forall2 R l l' -> In b l' -> exists a, In a l /\ R a b.
Proof.
  induction 1 as [|x y l l' Hxy _ IH]; intros Hin; [destruct Hin|].
  destruct Hin as [<- | Hin].
  - exists x. split; [now left | exact Hxy].
  - destruct (IH Hin) as (a & Ha & Hab). exists a. split; [now right|auto].
Qed.

Lemma convert_contradictions_severity cs ds sev :
  _convert_contradictions cs = Ok ds ->
  (existsb (fun c => has_contradiction c && Severity_eqb (severity c) sev) cs
   = true
   <-> exists d, In d ds /\ cd_severity d = sev).
Proof.
  intros H. apply convert_contradictions_Forall2 in H.
  rewrite existsb_exists. split.
  - intros (c & Hin & Hc). apply andb_true_iff in Hc.
    destruct Hc as [Hc Hsev]. apply Severity_eqb_eq in Hsev.
    destruct (@Forall2_In_l _ _ _ _ _ c H) as (d & Hd & Hcd).
    + apply filter_In. auto.
    + exists d. split; [exact Hd|]. destruct Hcd as (_ & -> & _). exact Hsev.
  - intros (d & Hd & Hsev).
    destruct (Forall2_In_r _ H Hd) as (c & Hc & Hcd).
    apply filter_In in Hc. destruct Hc as [Hin Hc].
    exists c. split; [exact Hin|]. apply andb_true_iff. split; [exact Hc|].
    apply Severity_eqb_eq. destruct Hcd as (_ & <- & _). exact Hsev.
Qed.

Lemma convert_contradictions_reasons cs ds :
  _convert_contradictions cs = Ok ds ->
  contradiction_reasons cs
  = map (fun d => ReasonContradiction (cd_description d)) ds.
Proof.
  revert ds. induction cs as [|c cs IH];
    cbn [_convert_contradictions contradiction_reasons]; intros ds H.
  - now injection H as <-.
  - destruct (has_contradiction c); cbn [negb] in H; [|now apply IH].
    destruct (convert_rag_matches (rag_matches c)) as [rs|]; [|discriminate].
    cbn [exc_bind] in H.
    destruct (contradiction_type c) as [ty|]; [|discriminate].
    cbn [exc_bind] in H.
    destruct (_convert_contradictions cs) as [ds'|]; [|discriminate].
    injection H as <-. cbn [map cd_description]. f_equal. now apply IH.
Qed.

Section Verdicts.

Context (rt : Runtime) (self : ContradictionChecker)
        (ai_analyzer : AIAnalyzer (Embedding rt)).

Local Abbreviation report_of db rq :=
  (check_for_contradictions rt self db (rq_diagnosis_text rq)
     (rq_doctor_category rq) (rq_anamnesis rq) (rq_complaints rq)
     (rq_objective_data rq) (rq_special_research_results rq)
     (rq_doctor_notes rq) (rq_icd10_codes rq) (rq_graph rq)).

Local Abbreviation analysis_text_of rq :=
  (match rq_conclusion_text rq with
   | Some t => if truthy t then t else rq_diagnosis_text rq
   | None => rq_diagnosis_text rq
   end).

(** How each field of a returned verdict comes about. *)
Lemma verdict_inversion db w rq v :
  fst (full_validation_with_contradiction_check rt self ai_analyzer db w rq)
  = Ok v ->
  exists cr cat_res reasons,
    determine_subpoint ai_analyzer db (analysis_text_of rq) (rq_specialty rq)
      (rq_icd10_codes rq) (rq_article_hint rq) (rq_anamnesis rq)
      (rq_complaints rq) (rq_special_research_results rq) = Ok cr
    /\ _convert_contradictions (report_of db rq)
       = Ok (stage_0_contradictions v)
    /\ is_healthy v = get_or (cr_is_healthy cr) false
    /\ ai_confidence v = get_or (cr_confidence cr) 0%Q
    /\ in_unit_interval (ai_confidence v) = true
    /\ ai_recommended_article v = cr_article cr
    /\ ai_recommended_subpoint v = cr_subpoint cr
    /\ doctor_category v = rq_doctor_category rq
    /\ passed (stage_1_clinical v)
       = Qle_bool (1 # 2) (ai_confidence v) || is_healthy v
    /\ status (stage_1_clinical v)
       = (if passed (stage_1_clinical v) then SUCCESS else STAGE_WARNING)
    /\ stage_2_branch rt ai_analyzer db (is_healthy v)
         (ai_recommended_article v) (ai_recommended_subpoint v) (rq_graph rq)
         (if negb (passed (stage_1_clinical v)) && negb (is_healthy v)
          then contradiction_reasons (report_of db rq)
               ++ [ReasonLowConfidence (ai_confidence v)]
          else contradiction_reasons (report_of db rq))
       = Ok (ai_recommended_category v, cat_res,
             passed (stage_2_administrative v),
             status (stage_2_administrative v), reasons)
    /\ category_match_status v
       = _determine_category_match_status rt (rq_doctor_category rq)
           (ai_recommended_category v) (is_healthy v)
           (ai_recommended_article v) (ai_recommended_subpoint v)
           (rq_diagnosis_text rq)
    /\ (overall_status v, risk_level v)
       = _calculate_overall_status (report_of db rq)
           (category_match_status v) (ai_confidence v) (is_healthy v)
    /\ review_reasons v
       = reasons
         ++ match category_match_status v with
            | MISMATCH =>
                [ReasonMismatch (rq_doctor_category rq)
                                (ai_recommended_category v)]
            | PARTIAL_MISMATCH =>
                [ReasonPartialMismatch (rq_doctor_category rq)
                                       (ai_recommended_category v)]
            | _ => []
            end
    /\ should_review v
       = negb (OverallStatus_eqb (overall_status v) VALID)
         || (0 <? List.length (review_reasons v))%nat
         || (Severity_eqb (risk_level v) HIGH
             || Severity_eqb (risk_level v) CRITICAL).
Proof.
  run_pipeline.
  destruct (_convert_contradictions _) as [ds|]; [|discriminate].
  destruct (determine_subpoint _ _ _ _ _ _ _ _ _) as [cr|]; [|discriminate].
  destruct (stage_2_branch _ _ _ _ _ _ _ _)
    as [[[[[ai_cat cat_res] p2] st2] reasons]|] eqn:Hbranch; [|discriminate].
  destruct (_determine_category_match_status _ _ _ _ _ _ _) eqn:Hm;
    destruct (_calculate_overall_status _ _ _ _) as [st risk] eqn:Hcalc;
    (destruct (in_unit_interval _) eqn:Hconf; [|discriminate]);
    cbn [fst]; intros [= <-];
    cbn [overall_status risk_level stage_0_contradictions stage_1_clinical
         stage_2_administrative ai_recommended_article
         ai_recommended_subpoint ai_recommended_category ai_confidence
         ai_reasoning doctor_article doctor_subpoint doctor_category
         category_match_status should_review review_reasons recommendations
         is_healthy metadata stage_name stage_number passed status details];
    exists cr, cat_res, reasons; rewrite ?Hm, ?Hcalc, ?Hbranch, ?app_nil_r;
    repeat (split; [first [reflexivity | exact Hconf]|]); reflexivity.
Qed.


(** The three ways Stage 2 ends. *)
Lemma stage_2_branch_cases db healthy art sp graph rs cat res p st rs' :
  stage_2_branch rt ai_analyzer db healthy art sp graph rs
  = Ok (cat, res, p, st, rs') ->
  (healthy = true /\ cat = Some cat_A /\ p = true /\ st = SUCCESS
   /\ rs' = rs)
  \/ (healthy = false /\ (art = None \/ art = Some 0%Z) /\ cat = None
      /\ p = false /\ st = SKIPPED /\ rs' = rs)
  \/ (healthy = false
      /\ exists a c,
          art = Some a /\ a <> 0%Z
          /\ determine_category ai_analyzer db a sp graph = Ok c
          /\ cat = cat_category c
          /\ ((cat <> None /\ p = true /\ st = SUCCESS /\ rs' = rs)
              \/ (cat = None /\ p = false /\ st = STAGE_ERROR
                  /\ rs' = rs ++ [ReasonNoCategory a sp]))).
Proof.
  unfold stage_2_branch. destruct healthy.
  - intros [= <- <- <- <- <-]. left. tauto.
  - destruct art as [a|].
    + destruct (a =? 0)%Z eqn:Ha.
      * apply Z.eqb_eq in Ha. subst a.
        intros [= <- <- <- <- <-]. right. left. tauto.
      * apply Z.eqb_neq in Ha.
        destruct (determine_category ai_analyzer db a sp graph) as [c|] eqn:Hc;
          cbn [exc_bind]; [|discriminate].
        intros [= <- <- <- <- <-]. right. right. split; [reflexivity|].
        exists a, c. repeat (split; [assumption || reflexivity|]).
        destruct (cat_category c); [left | right];
          repeat split; try reflexivity; discriminate.
    + intros [= <- <- <- <- <-]. right. left. tauto.
Qed.

(** X2.  In every verdict the pipeline returns, the overall status and
    the risk level are read off the severities of the listed findings
    and the category match status, by this table: a CRITICAL finding
    gives INVALID/CRITICAL; otherwise a MISMATCH gives INVALID/HIGH with
    a HIGH finding and WARNING/HIGH without; a PARTIAL_MISMATCH gives
    WARNING/MEDIUM; otherwise any finding gives WARNING, HIGH or MEDIUM
    as its severity; with no finding, MATCH gives VALID/LOW and
    REVIEW_REQUIRED gives WARNING/MEDIUM. *)
Theorem verdict_status_table db w rq v :
  fst (full_validation_with_contradiction_check rt self ai_analyzer db w rq)
  = Ok v ->
  let findings := stage_0_contradictions v in
  let some sev :=
    existsb (fun d => Severity_eqb (cd_severity d) sev) findings in
  (overall_status v, risk_level v)
  = if some CRITICAL then (INVALID, CRITICAL)
    else match category_match_status v, findings with
         | MISMATCH, _ =>
             if some HIGH then (INVALID, HIGH) else (WARNING, HIGH)
         | PARTIAL_MISMATCH, _ => (WARNING, MEDIUM)
         | MATCH, [] => (VALID, LOW)
         | REVIEW_REQUIRED, [] => (WARNING, MEDIUM)
         | _, _ :: _ =>
             if some HIGH then (WARNING, HIGH) else (WARNING, MEDIUM)
         end.
Proof.
  intros Hv findings some. subst findings some.
  destruct (@verdict_inversion db w rq v Hv)
    as (cr & cat_res & reasons & _ & Hds & _ & _ & _ & _ & _ & _ & _ & _
        & _ & _ & Hcalc & _).
  rewrite Hcalc, calculate_overall_status_table.
  assert (Hsev : forall sev,
             existsb (fun c => has_contradiction c
                               && Severity_eqb (severity c) sev)
                     (report_of db rq)
             = existsb (fun d => Severity_eqb (cd_severity d) sev)
                       (stage_0_contradictions v)).
  { intros sev. apply eq_true_iff_eq.
    rewrite (@convert_contradictions_severity _ _ sev Hds), existsb_exists.
    split; intros (d & Hd & H); exists d; split; auto;
      now apply Severity_eqb_eq. }
  rewrite !Hsev.
  pose proof (@convert_contradictions_empty _ _ Hds) as Hempty.
  destruct (stage_0_contradictions v) as [|d ds].
  - destruct Hempty as [Hempty _]. rewrite (Hempty eq_refl).
    cbn [existsb]. now destruct (category_match_status v).
  - assert (Hany : existsb has_contradiction (report_of db rq) = true).
    { destruct (existsb has_contradiction (report_of db rq)); [reflexivity|].
      destruct Hempty as [_ Hempty]. now specialize (Hempty eq_refl). }
    rewrite Hany. now destruct (category_match_status v).
Qed.

(** X3.  A verdict is VALID exactly when the categories match and
    Stage 0 found nothing; its risk level is then LOW.  Conversely a
    verdict whose risk level is HIGH or CRITICAL is never VALID. *)
Theorem verdict_valid_iff_match_without_findings db w rq v :
  fst (full_validation_with_contradiction_check rt self ai_analyzer db w rq)
  = Ok v ->
  (overall_status v = VALID <->
   category_match_status v = MATCH /\ stage_0_contradictions v = [])
  /\ (overall_status v = VALID <-> risk_level v = LOW).
Proof.
  intros Hv.
  destruct (@verdict_inversion db w rq v Hv)
    as (cr & cat_res & reasons & _ & Hds & _ & _ & _ & _ & _ & _ & _ & _
        & _ & _ & Hcalc & _).
  rewrite calculate_overall_status_table in Hcalc.
  rewrite (@convert_contradictions_empty _ _ Hds).
  pose proof (@finding_of_is_finding CRITICAL (report_of db rq)) as Hc.
  set (crit := existsb (is_finding_of CRITICAL) (report_of db rq)) in *.
  set (high := existsb (is_finding_of HIGH) (report_of db rq)) in *.
  set (any := existsb has_contradiction (report_of db rq)) in *.
  destruct crit, (category_match_status v), any, high;
    injection Hcalc as -> ->;
    try (specialize (Hc eq_refl); discriminate);
    intuition discriminate.
Qed.

(** X4.  In every verdict the third disjunct of the review flag is
    redundant: [should_review] holds exactly when the verdict is not
    VALID or carries a review reason. *)
Theorem review_flag_without_risk db w rq v :
  fst (full_validation_with_contradiction_check rt self ai_analyzer db w rq)
  = Ok v ->
  (should_review v = true <->
   overall_status v <> VALID \/ review_reasons v <> []).
Proof.
  intros Hv.
  destruct (@verdict_inversion db w rq v Hv)
    as (cr & cat_res & reasons & _ & Hds & _ & _ & _ & _ & _ & _ & _ & _
        & _ & _ & Hcalc & _ & ->).
  rewrite review_flag_spec.
  rewrite calculate_overall_status_table in Hcalc.
  set (crit := existsb (is_finding_of CRITICAL) (report_of db rq)) in *.
  set (high := existsb (is_finding_of HIGH) (report_of db rq)) in *.
  set (any := existsb has_contradiction (report_of db rq)) in *.
  destruct crit, (category_match_status v), any, high;
    injection Hcalc as -> ->; intuition discriminate.
Qed.


(** X5.  The review reasons of a verdict are, in this order: one
    reason per Stage-0 finding, carrying its description; the
    low-confidence reason when Stage 1 did not pass; the "no category"
    reason when Stage 2 ended in ERROR; the mismatch or partial-mismatch
    reason when the categories differ.  Nothing else is ever listed. *)
Theorem review_reasons_composition db w rq v :
  fst (full_validation_with_contradiction_check rt self ai_analyzer db w rq)
  = Ok v ->
  review_reasons v
  = map (fun d => ReasonContradiction (cd_description d))
        (stage_0_contradictions v)
    ++ (if passed (stage_1_clinical v) then []
        else [ReasonLowConfidence (ai_confidence v)])
    ++ match status (stage_2_administrative v), ai_recommended_article v with
       | STAGE_ERROR, Some a =>
           [ReasonNoCategory a (ai_recommended_subpoint v)]
       | _, _ => []
       end
    ++ match category_match_status v with
       | MISMATCH =>
           [ReasonMismatch (doctor_category v) (ai_recommended_category v)]
       | PARTIAL_MISMATCH =>
           [ReasonPartialMismatch (doctor_category v)
                                  (ai_recommended_category v)]
       | _ => []
       end.
Proof.
  intros Hv.
  destruct (@verdict_inversion db w rq v Hv)
    as (cr & cat_res & reasons & _ & Hds & _ & _ & _ & _ & _ & -> & Hp1
        & _ & Hbranch & _ & _ & -> & _).
  rewrite (@convert_contradictions_reasons _ _ Hds) in Hbranch.
  set (listed := map _ (stage_0_contradictions v)) in *.
  rewrite !app_assoc. f_equal.
  apply stage_2_branch_cases in Hbranch.
  rewrite Hp1 in *.
  destruct Hbranch as
    [(Hh & _ & _ & -> & ->)
    |[(Hh & _ & _ & _ & -> & ->)
     |(Hh & a & c & -> & _ & _ & _
       & [(_ & _ & -> & ->)|(_ & _ & -> & ->)])]];
    rewrite Hh; rewrite ?orb_true_r, ?orb_false_r;
    destruct (Qle_bool (1 # 2) (ai_confidence v));
    cbn [negb andb]; rewrite ?app_nil_r; reflexivity.
Qed.

(** X6.  How Stage 2 ends, in every verdict: SUCCESS exactly when a
    category was established; SKIPPED exactly when the record is not
    healthy and Stage 1 named no article (none at all, or article 0);
    ERROR exactly when the record is not healthy, Stage 1 named an
    article and the look-up found no category.  The stage never reports
    WARNING, and it passes exactly when its status is SUCCESS. *)
Theorem stage_2_status_table db w rq v :
  fst (full_validation_with_contradiction_check rt self ai_analyzer db w rq)
  = Ok v ->
  let stage := stage_2_administrative v in
  (status stage = SUCCESS <-> ai_recommended_category v <> None)
  /\ (status stage = SKIPPED <->
      is_healthy v = false
      /\ (ai_recommended_article v = None
          \/ ai_recommended_article v = Some 0%Z))
  /\ (status stage = STAGE_ERROR <->
      is_healthy v = false /\ ai_recommended_category v = None
      /\ exists a, ai_recommended_article v = Some a /\ a <> 0%Z)
  /\ status stage <> STAGE_WARNING
  /\ (passed stage = true <-> status stage = SUCCESS).
Proof.
  intros Hv stage. subst stage.
  destruct (@verdict_inversion db w rq v Hv)
    as (cr & cat_res & reasons & _ & _ & _ & _ & _ & _ & _ & _ & _
        & _ & Hbranch & _).
  apply stage_2_branch_cases in Hbranch.
  destruct Hbranch as
    [(Hh & -> & -> & -> & _)
    |[(Hh & Hart & -> & -> & -> & _)
     |(Hh & a & c & Hart & Ha & _ & Hcat
       & [(Hsome & -> & -> & _)|(Hnone & -> & -> & _)])]];
    rewrite Hh; rewrite ?Hnone;
    repeat split; try discriminate; try reflexivity; intros;
    repeat match goal with
      | H : _ /\ _ |- _ => destruct H
      | H : _ \/ _ |- _ => destruct H
      | H : exists _, _ |- _ => destruct H
      end;
    try congruence; eauto.
Qed.

(** X7.  When Stage 1 declares the record healthy, the recommended
    category is Cyrillic "А" and both stages pass with status SUCCESS,
    whatever article, subpoint and confidence Stage 1 returned and
    without any reference look-up; the categories then match exactly
    when the doctor's category, upper-cased and trimmed, is Cyrillic
    "А" or Latin "A", and mismatch otherwise. *)
Theorem healthy_verdict_is_category_A db w rq v :
  fst (full_validation_with_contradiction_check rt self ai_analyzer db w rq)
  = Ok v ->
  is_healthy v = true ->
  let doctor := strip (str_upper rt (doctor_category v)) in
  ai_recommended_category v = Some cat_A
  /\ passed (stage_1_clinical v) = true
  /\ status (stage_1_clinical v) = SUCCESS
  /\ passed (stage_2_administrative v) = true
  /\ status (stage_2_administrative v) = SUCCESS
  /\ (category_match_status v = MATCH <-> in_A doctor = true)
  /\ (category_match_status v = MISMATCH <-> in_A doctor = false).
Proof.
  intros Hv Hh doctor. subst doctor.
  destruct (@verdict_inversion db w rq v Hv)
    as (cr & cat_res & reasons & _ & _ & _ & _ & _ & _ & _ & -> & -> & ->
        & Hbranch & -> & _).
  rewrite Hh in *. rewrite orb_true_r.
  unfold stage_2_branch in Hbranch.
  injection Hbranch as <- _ <- <- _.
  unfold _determine_category_match_status.
  destruct (in_A _); repeat split; intros; try reflexivity; discriminate.
Qed.

(** X8.  The match status of a verdict is REVIEW_REQUIRED exactly when
    no category was established, unless the doctor filed the record
    under "А" and Stage 1 named neither article nor subpoint; such a
    verdict never reports Stage 2 as SUCCESS and is never VALID. *)
Theorem review_required_iff_no_category db w rq v :
  fst (full_validation_with_contradiction_check rt self ai_analyzer db w rq)
  = Ok v ->
  let doctor := strip (str_upper rt (doctor_category v)) in
  (category_match_status v = REVIEW_REQUIRED <->
   ai_recommended_category v = None
   /\ ~ (in_A doctor = true /\ ai_recommended_article v = None
         /\ ai_recommended_subpoint v = None))
  /\ (category_match_status v = REVIEW_REQUIRED ->
      status (stage_2_administrative v) <> SUCCESS
      /\ overall_status v <> VALID).
Proof.
  intros Hv doctor. subst doctor.
  destruct (@verdict_inversion db w rq v Hv)
    as (cr & cat_res & reasons & _ & _ & _ & _ & _ & _ & _ & -> & _ & _
        & Hbranch & Hm & Hcalc & _).
  assert (Hiff : category_match_status v = REVIEW_REQUIRED <->
                 ai_recommended_category v = None
                 /\ ~ (in_A (strip (str_upper rt (rq_doctor_category rq)))
                       = true
                       /\ ai_recommended_article v = None
                       /\ ai_recommended_subpoint v = None)).
  { rewrite Hm. unfold _determine_category_match_status.
    destruct (ai_recommended_category v) as [c|].
    - destruct (is_healthy v); [destruct (in_A _)|];
        [| |destruct (text_eqb _ _); [|destruct (_is_borderline_case _ _ _ _)]];
        split; try discriminate; intros [H _]; discriminate.
    - destruct (ai_recommended_article v), (ai_recommended_subpoint v),
        (in_A _); split; try discriminate; try reflexivity;
        intros H; try (split; [reflexivity|]);
        try (intros (_ & H1 & H2); discriminate);
        try (intros (H0 & _); discriminate).
      destruct H as [_ H]. elim H. auto. }
  split; [exact Hiff|]. intros Hrr. split.
  - apply Hiff in Hrr. destruct Hrr as [Hnone _].
    apply stage_2_branch_cases in Hbranch.
    destruct Hbranch as
      [(_ & Hc & _)|[(_ & _ & _ & _ & -> & _)
                    |(_ & a & c & _ & _ & _ & _
                      & [(Hc & _)|(_ & _ & -> & _)])]];
      try discriminate; congruence.
  - rewrite Hrr, calculate_overall_status_table in Hcalc.
    destruct (existsb _ (report_of db rq)) in Hcalc;
      [injection Hcalc as -> _; discriminate|].
    destruct (existsb has_contradiction (report_of db rq)) in Hcalc;
      [destruct (existsb _ (report_of db rq)) in Hcalc|];
      injection Hcalc as -> _; discriminate.
Qed.

Lemma critical_in_dictionaries sev cs :
  existsb (fun c => Severity_eqb (d_severity c) sev)
          (map to_dict (filter has_contradiction cs))
  = existsb (fun c => has_contradiction c && Severity_eqb (severity c) sev)
            cs.
Proof.
  induction cs as [|c cs IH]; cbn [filter map existsb]; [reflexivity|].
  destruct (has_contradiction c); cbn [map existsb andb orb d_severity to_dict];
    now rewrite IH.
Qed.

(** X9.  The quick check and the full check agree on Stage 0.  On the
    same request and store, [/check-contradictions-only] always answers
    200, and for every verdict of the full check: it counts as many
    contradictions as the verdict lists, with the same types,
    severities and descriptions in the same order; and its
    [has_critical] flag is set exactly when the verdict's risk level is
    CRITICAL, in which case the verdict is INVALID. *)
Theorem quick_check_agrees_with_full_check db w rq v :
  fst (full_validation_with_contradiction_check rt self ai_analyzer db w rq)
  = Ok v ->
  exists body,
    check_contradictions_only rt self db rq = Http200 body
    /\ total_contradictions body = List.length (stage_0_contradictions v)
    /\ map d_contradiction_type (found_contradictions body)
       = map (fun d => Some (cd_type d)) (stage_0_contradictions v)
    /\ map d_severity (found_contradictions body)
       = map cd_severity (stage_0_contradictions v)
    /\ map d_description (found_contradictions body)
       = map cd_description (stage_0_contradictions v)
    /\ (has_critical body = true <-> risk_level v = CRITICAL)
    /\ (has_critical body = true -> overall_status v = INVALID).
Proof.
  intros Hv.
  destruct (@verdict_inversion db w rq v Hv)
    as (cr & cat_res & reasons & _ & Hds & _ & _ & _ & _ & _ & _ & _ & _
        & _ & _ & Hcalc & _).
  eexists. split; [reflexivity|].
  cbn [total_contradictions found_contradictions has_critical].
  apply convert_contradictions_Forall2 in Hds.
  rewrite critical_in_dictionaries, length_map, !map_map.
  cbn [to_dict d_contradiction_type d_severity d_description].
  rewrite calculate_overall_status_table in Hcalc.
  set (crit := existsb (is_finding_of CRITICAL) (report_of db rq)) in *.
  set (high := existsb (is_finding_of HIGH) (report_of db rq)) in *.
  set (any := existsb has_contradiction (report_of db rq)) in *.
  repeat split.
  - eapply Forall2_length; eassumption.
  - induction Hds as [|c d cs ds Hcd _ IH]; cbn [map]; [reflexivity|].
    f_equal; [tauto | exact IH].
  - induction Hds as [|c d cs ds Hcd _ IH]; cbn [map]; [reflexivity|].
    f_equal; [symmetry; tauto | exact IH].
  - induction Hds as [|c d cs ds Hcd _ IH]; cbn [map]; [reflexivity|].
    f_equal; [symmetry; tauto | exact IH].
  - intros Hc. rewrite Hc in Hcalc. congruence.
  - intros Hrisk. destruct crit; [reflexivity|].
    destruct (category_match_status v), any, high; congruence.
  - intros Hc. rewrite Hc in Hcalc. congruence.
Qed.

End Verdicts.

(** X2 on the sample installation: hypertension filed under "А". *)
Lemma verdict_status_table_witness :
  exists v,
    fst (full_validation_with_contradiction_check Sample.rt Sample.checker
           (Sample.analyzer
              (Ok (Sample.clinical false (Some 43%Z) (Some (u "3"))
                     (9 # 10))))
           Sample.db (Sample.world 0)
           (Sample.request Sample.hypertension_text cat_A None 1)) = Ok v
    /\ let findings := stage_0_contradictions v in
       let some sev :=
         existsb (fun d => Severity_eqb (cd_severity d) sev) findings in
       (overall_status v, risk_level v)
       = if some CRITICAL then (INVALID, CRITICAL)
         else match category_match_status v, findings with
              | MISMATCH, _ =>
                  if some HIGH then (INVALID, HIGH) else (WARNING, HIGH)
              | PARTIAL_MISMATCH, _ => (WARNING, MEDIUM)
              | MATCH, [] => (VALID, LOW)
              | REVIEW_REQUIRED, [] => (WARNING, MEDIUM)
              | _, _ :: _ =>
                  if some HIGH then (WARNING, HIGH) else (WARNING, MEDIUM)
              end.
Proof.
  eexists. split; [vm_compute; reflexivity|].
  apply (@verdict_status_table Sample.rt Sample.checker
           (Sample.analyzer
              (Ok (Sample.clinical false (Some 43%Z) (Some (u "3"))
                     (9 # 10))))
           Sample.db (Sample.world 0)
           (Sample.request Sample.hypertension_text cat_A None 1)).
  vm_compute. reflexivity.
Defined.

(** X3 on the sample installation: a healthy record filed under "А". *)
Lemma verdict_valid_iff_match_without_findings_witness :
  exists v,
    fst (full_validation_with_contradiction_check Sample.rt Sample.checker
           (Sample.analyzer (Ok (Sample.clinical true None None (9 # 10))))
           Sample.db (Sample.world 0)
           (Sample.request Sample.healthy_text cat_A None 1)) = Ok v
    /\ (overall_status v = VALID <->
        category_match_status v = MATCH /\ stage_0_contradictions v = [])
    /\ (overall_status v = VALID <-> risk_level v = LOW).
Proof.
  eexists. split; [vm_compute; reflexivity|].
  apply (@verdict_valid_iff_match_without_findings Sample.rt Sample.checker
           (Sample.analyzer (Ok (Sample.clinical true None None (9 # 10))))
           Sample.db (Sample.world 0)
           (Sample.request Sample.healthy_text cat_A None 1)).
  vm_compute. reflexivity.
Defined.

(** X4 on the sample installation: a VALID verdict that still asks for
    review, its only reason being the low confidence of Stage 1. *)
Lemma review_flag_without_risk_witness :
  exists v,
    fst (full_validation_with_contradiction_check Sample.rt Sample.checker
           (Sample.analyzer
              (Ok (Sample.clinical false (Some 43%Z) (Some (u "3"))
                     (3 # 10))))
           Sample.db (Sample.world 0)
           (Sample.request Sample.hypertension_text cat_D None 1)) = Ok v
    /\ (should_review v = true <->
        overall_status v <> VALID \/ review_reasons v <> []).
Proof.
  eexists. split; [vm_compute; reflexivity|].
  apply (@review_flag_without_risk Sample.rt Sample.checker
           (Sample.analyzer
              (Ok (Sample.clinical false (Some 43%Z) (Some (u "3"))
                     (3 # 10))))
           Sample.db (Sample.world 0)
           (Sample.request Sample.hypertension_text cat_D None 1)).
  vm_compute. reflexivity.
Defined.

(** The verdict of the run above. *)
Example valid_verdict_under_review :
  exc_map (fun v => (overall_status v, should_review v, review_reasons v))
    (fst (full_validation_with_contradiction_check Sample.rt Sample.checker
            (Sample.analyzer
               (Ok (Sample.clinical false (Some 43%Z) (Some (u "3"))
                      (3 # 10))))
            Sample.db (Sample.world 0)
            (Sample.request Sample.hypertension_text cat_D None 1)))
  = Ok (VALID, true, [ReasonLowConfidence (3 # 10)]).
Proof. vm_compute. reflexivity. Qed.

(** X5 on the sample installation: hypertension filed under "А" with a
    low-confidence Stage 1 and a subpoint the reference does not hold. *)
Lemma review_reasons_composition_witness :
  exists v,
    fst (full_validation_with_contradiction_check Sample.rt Sample.checker
           (Sample.analyzer
              (Ok (Sample.clinical false (Some 43%Z) (Some (u "9"))
                     (3 # 10))))
           Sample.db (Sample.world 0)
           (Sample.request Sample.hypertension_text cat_A None 1)) = Ok v
    /\ review_reasons v
       = map (fun d => ReasonContradiction (cd_description d))
             (stage_0_contradictions v)
         ++ (if passed (stage_1_clinical v) then []
             else [ReasonLowConfidence (ai_confidence v)])
         ++ match status (stage_2_administrative v),
                  ai_recommended_article v with
            | STAGE_ERROR, Some a =>
                [ReasonNoCategory a (ai_recommended_subpoint v)]
            | _, _ => []
            end
         ++ match category_match_status v with
            | MISMATCH =>
                [ReasonMismatch (doctor_category v)
                                (ai_recommended_category v)]
            | PARTIAL_MISMATCH =>
                [ReasonPartialMismatch (doctor_category v)
                                       (ai_recommended_category v)]
            | _ => []
            end.
Proof.
  eexists. split; [vm_compute; reflexivity|].
  apply (@review_reasons_composition Sample.rt Sample.checker
           (Sample.analyzer
              (Ok (Sample.clinical false (Some 43%Z) (Some (u "9"))
                     (3 # 10))))
           Sample.db (Sample.world 0)
           (Sample.request Sample.hypertension_text cat_A None 1)).
  vm_compute. reflexivity.
Defined.

(** The reasons of that verdict: the finding of Type D, the low
    confidence, the missing category. *)
Example three_kinds_of_reasons :
  exc_map (fun v => (List.length (stage_0_contradictions v),
                     List.length (review_reasons v),
                     status (stage_2_administrative v),
                     category_match_status v))
    (fst (full_validation_with_contradiction_check Sample.rt Sample.checker
            (Sample.analyzer
               (Ok (Sample.clinical false (Some 43%Z) (Some (u "9"))
                      (3 # 10))))
            Sample.db (Sample.world 0)
            (Sample.request Sample.hypertension_text cat_A None 1)))
  = Ok (1, 3, STAGE_ERROR, REVIEW_REQUIRED).
Proof. vm_compute. reflexivity. Qed.

(** X6 on the sample installation: Stage 1 names article 0. *)
Lemma stage_2_status_table_witness :
  exists v,
    fst (full_validation_with_contradiction_check Sample.rt Sample.checker
           (Sample.analyzer
              (Ok (Sample.clinical false (Some 0%Z) None (9 # 10))))
           Sample.db (Sample.world 0)
           (Sample.request Sample.hypertension_text cat_D None 1)) = Ok v
    /\ let stage := stage_2_administrative v in
       (status stage = SUCCESS <-> ai_recommended_category v <> None)
       /\ (status stage = SKIPPED <->
           is_healthy v = false
           /\ (ai_recommended_article v = None
               \/ ai_recommended_article v = Some 0%Z))
       /\ (status stage = STAGE_ERROR <->
           is_healthy v = false /\ ai_recommended_category v = None
           /\ exists a, ai_recommended_article v = Some a /\ a <> 0%Z)
       /\ status stage <> STAGE_WARNING
       /\ (passed stage = true <-> status stage = SUCCESS).
Proof.
  eexists. split; [vm_compute; reflexivity|].
  apply (@stage_2_status_table Sample.rt Sample.checker
           (Sample.analyzer
              (Ok (Sample.clinical false (Some 0%Z) None (9 # 10))))
           Sample.db (Sample.world 0)
           (Sample.request Sample.hypertension_text cat_D None 1)).
  vm_compute. reflexivity.
Defined.

(** X7 on the sample installation: Stage 1 declares the record healthy
    with confidence 0.3 and the doctor filed it under "Б". *)
Lemma healthy_verdict_is_category_A_witness :
  exists v,
    fst (full_validation_with_contradiction_check Sample.rt Sample.checker
           (Sample.analyzer
              (Ok (Sample.clinical true (Some 43%Z) None (3 # 10))))
           Sample.db (Sample.world 0)
           (Sample.request Sample.healthy_text cat_B None 1)) = Ok v
    /\ is_healthy v = true
    /\ let doctor := strip (str_upper Sample.rt (doctor_category v)) in
       ai_recommended_category v = Some cat_A
       /\ passed (stage_1_clinical v) = true
       /\ status (stage_1_clinical v) = SUCCESS
       /\ passed (stage_2_administrative v) = true
       /\ status (stage_2_administrative v) = SUCCESS
       /\ (category_match_status v = MATCH <-> in_A doctor = true)
       /\ (category_match_status v = MISMATCH <-> in_A doctor = false).
Proof.
  eexists. split; [vm_compute; reflexivity|]. split; [reflexivity|].
  apply (@healthy_verdict_is_category_A Sample.rt Sample.checker
           (Sample.analyzer
              (Ok (Sample.clinical true (Some 43%Z) None (3 # 10))))
           Sample.db (Sample.world 0)
           (Sample.request Sample.healthy_text cat_B None 1));
    vm_compute; reflexivity.
Defined.

(** X8 on the sample installation: Stage 1 names article 43 with a
    subpoint the reference does not hold. *)
Lemma review_required_iff_no_category_witness :
  exists v,
    fst (full_validation_with_contradiction_check Sample.rt Sample.checker
           (Sample.analyzer
              (Ok (Sample.clinical false (Some 43%Z) (Some (u "9"))
                     (9 # 10))))
           Sample.db (Sample.world 0)
           (Sample.request Sample.hypertension_text cat_D None 1)) = Ok v
    /\ let doctor := strip (str_upper Sample.rt (doctor_category v)) in
       (category_match_status v = REVIEW_REQUIRED <->
        ai_recommended_category v = None
        /\ ~ (in_A doctor = true /\ ai_recommended_article v = None
              /\ ai_recommended_subpoint v = None))
       /\ (category_match_status v = REVIEW_REQUIRED ->
           status (stage_2_administrative v) <> SUCCESS
           /\ overall_status v <> VALID).
Proof.
  eexists. split; [vm_compute; reflexivity|].
  apply (@review_required_iff_no_category Sample.rt Sample.checker
           (Sample.analyzer
              (Ok (Sample.clinical false (Some 43%Z) (Some (u "9"))
                     (9 # 10))))
           Sample.db (Sample.world 0)
           (Sample.request Sample.hypertension_text cat_D None 1)).
  vm_compute. reflexivity.
Defined.

(** X9 on the sample installation: hypertension filed under "А". *)
Lemma quick_check_agrees_with_full_check_witness :
  exists v,
    fst (full_validation_with_contradiction_check Sample.rt Sample.checker
           (Sample.analyzer
              (Ok (Sample.clinical false (Some 43%Z) (Some (u "3"))
                     (9 # 10))))
           Sample.db (Sample.world 0)
           (Sample.request Sample.hypertension_text cat_A None 1)) = Ok v
    /\ exists body,
         check_contradictions_only Sample.rt Sample.checker Sample.db
           (Sample.request Sample.hypertension_text cat_A None 1)
         = Http200 body
         /\ total_contradictions body
            = List.length (stage_0_contradictions v)
         /\ map d_contradiction_type (found_contradictions body)
            = map (fun d => Some (cd_type d)) (stage_0_contradictions v)
         /\ map d_severity (found_contradictions body)
            = map cd_severity (stage_0_contradictions v)
         /\ map d_description (found_contradictions body)
            = map cd_description (stage_0_contradictions v)
         /\ (has_critical body = true <-> risk_level v = CRITICAL)
         /\ (has_critical body = true -> overall_status v = INVALID).
Proof.
  eexists. split; [vm_compute; reflexivity|].
  apply (@quick_check_agrees_with_full_check Sample.rt Sample.checker
           (Sample.analyzer
              (Ok (Sample.clinical false (Some 43%Z) (Some (u "3"))
                     (9 # 10))))
           Sample.db (Sample.world 0)
           (Sample.request Sample.hypertension_text cat_A None 1)).
  vm_compute. reflexivity.
Defined.


(* ===================================================================== *)
(** * The category match status *)
(* ===================================================================== *)

Lemma is_entry_spec art sp n s :
  is_entry art sp n s = true <-> art = Some n /\ sp = Some s.
Proof.
  unfold is_entry. destruct art as [a|], sp as [t|];
    try (split; [discriminate | intros [H1 H2]; discriminate]).
  rewrite andb_true_iff, Z.eqb_eq, text_eqb_eq.
  split; [intros [-> ->]; auto | intros [[= ->] [= ->]]; auto].
Qed.

Section MatchStatus.

Context (rt : Runtime).

(** X10.  [_determine_category_match_status] answers PARTIAL_MISMATCH
    exactly when the record is not healthy, a category was established
    that differs from the doctor's once both are upper-cased and
    trimmed, and Stage 1 named one of the three borderline entries --
    article 2 subpoint "3", article 2 subpoint "4", article 1 subpoint
    "2" -- with one of that entry's keywords in the lower-cased
    diagnosis. *)
Theorem partial_mismatch_only_for_borderline_entries
        doctor ai_category healthy art sp diagnosis :
  _determine_category_match_status rt doctor ai_category healthy art sp
                                   diagnosis = PARTIAL_MISMATCH
  <-> healthy = false
      /\ (exists c, ai_category = Some c
                    /\ strip (str_upper rt doctor) <> strip (str_upper rt c))
      /\ ((art = Some 2%Z /\ sp = Some (u "3")
           /\ any_in borderline_2_3 (str_lower rt diagnosis) = true)
          \/ (art = Some 2%Z /\ sp = Some (u "4")
              /\ any_in borderline_2_4 (str_lower rt diagnosis) = true)
          \/ (art = Some 1%Z /\ sp = Some (u "2")
              /\ any_in borderline_1_2 (str_lower rt diagnosis) = true)).
Proof.
  assert (Hb : _is_borderline_case rt art sp diagnosis = true <->
               (art = Some 2%Z /\ sp = Some (u "3")
                /\ any_in borderline_2_3 (str_lower rt diagnosis) = true)
               \/ (art = Some 2%Z /\ sp = Some (u "4")
                   /\ any_in borderline_2_4 (str_lower rt diagnosis) = true)
               \/ (art = Some 1%Z /\ sp = Some (u "2")
                   /\ any_in borderline_1_2 (str_lower rt diagnosis)
                      = true)).
  { assert (He : forall n s kws,
               is_entry art sp n s && any_in kws (str_lower rt diagnosis)
               = true
               <-> art = Some n /\ sp = Some s
                   /\ any_in kws (str_lower rt diagnosis) = true)
      by (intros; rewrite andb_true_iff, is_entry_spec; tauto).
    rewrite <- !He. unfold _is_borderline_case.
    destruct (is_entry art sp 2 (u "3") && _);
      [tauto|].
    destruct (is_entry art sp 2 (u "4") && _);
      [tauto|].
    destruct (is_entry art sp 1 (u "2") && _);
      [tauto|].
    intuition discriminate. }
  rewrite <- Hb. unfold _determine_category_match_status.
  destruct ai_category as [c|].
  - destruct healthy.
    + destruct (in_A _); split; try discriminate; intros [H _]; discriminate.
    + destruct (text_eqb _ _) eqn:Heq.
      * apply text_eqb_eq in Heq. split; [discriminate|].
        intros (_ & (c' & [= <-] & Hne) & _). now elim Hne.
      * apply text_eqb_neq in Heq.
        destruct (_is_borderline_case rt art sp diagnosis).
        -- split; [|reflexivity]. intros _. repeat split. eauto.
        -- split; [discriminate|]. intros (_ & _ & H). discriminate.
  - destruct art, sp; try destruct (in_A _); split; try discriminate;
      intros (_ & (c & H & _) & _); discriminate.
Qed.

End MatchStatus.


(* ===================================================================== *)
(** * Saving a verdict and reading it back *)
(* ===================================================================== *)




Lemma fits_int32_spec z :
  fits_int32 z = true <-> (- 2 ^ 31 <= z < 2 ^ 31)%Z.
Proof.
  unfold fits_int32. rewrite andb_true_iff, Z.leb_le, Z.ltb_lt. tauto.
Qed.



Section Saving.

Variable E : Type.


End Saving.


Lemma insert_by_created_perm r l :
  Permutation (insert_by_created r l) (r :: l).
Proof.
  induction l as [|h t IH]; cbn [insert_by_created]; [reflexivity|].
  destruct (Qle_bool _ _); [reflexivity|].
  rewrite IH. apply perm_swap.
Qed.

Lemma order_by_created_perm l : Permutation (order_by_created_desc l) l.
Proof.
  induction l as [|r t IH]; cbn [order_by_created_desc]; [reflexivity|].
  rewrite insert_by_created_perm. now constructor.
Qed.

Lemma insert_by_created_sorted r l :
  StronglySorted newest_first l ->
  StronglySorted newest_first (insert_by_created r l).
Proof.
  induction 1 as [|h t Ht IH Hh]; cbn [insert_by_created].
  - repeat constructor.
  - destruct (Qle_bool (ar_created_at h) (ar_created_at r)) eqn:Hle.
    + apply Qle_bool_iff in Hle. constructor; [now constructor|].
      constructor; [exact Hle|].
      eapply Forall_impl; [|exact Hh]. unfold newest_first.
      intros x Hx. eapply Qle_trans; eassumption.
    + constructor; [exact IH|].
      assert (Hlt : (ar_created_at r <= ar_created_at h)%Q).
      { destruct (Qlt_le_dec (ar_created_at h) (ar_created_at r)) as [H|H];
          [|exact H].
        apply Qlt_le_weak, Qle_bool_iff in H. congruence. }
      eapply Permutation_Forall;
        [symmetry; apply insert_by_created_perm|].
      constructor; [exact Hlt | exact Hh].
Qed.

Lemma order_by_created_sorted l :
  StronglySorted newest_first (order_by_created_desc l).
Proof.
  induction l as [|r t IH]; cbn [order_by_created_desc]; [constructor|].
  now apply insert_by_created_sorted.
Qed.



(** The look-up of the draft, by the number of conscripts that have
    the key as their primary key. *)
Lemma find_draft_spec {E} (db : Db E) w id :
  find_draft db w id
  = match execute_raises db with
    | Some e => Raise e
    | None =>
        match filter (fun c => (conscript_pk c =? id)%N) (conscripts w) with
        | [] => Raise (OtherError "AttributeError")
        | [d] => Ok (Some d)
        | _ :: _ :: _ => Raise (OtherError "MultipleResultsFound")
        end
    end.
Proof.
  unfold find_draft, execute_select.
  destruct (execute_raises db); [reflexivity|]. cbn [exc_bind].
  destruct (filter _ (conscripts w)) as [|d [|d' rest]]; reflexivity.
Qed.

Lemma holder_key (l : list Conscript) id d :
  filter (fun c => (conscript_pk c =? id)%N) l = [d] ->
  In d l /\ conscript_pk d = id.
Proof.
  intros Hrows.
  assert (Hin : In d (filter (fun c => (conscript_pk c =? id)%N) l))
    by (rewrite Hrows; now left).
  apply filter_In in Hin. destruct Hin as [Hin Hkey].
  split; [exact Hin | now apply N.eqb_eq].
Qed.

Section Archive.

Context (rt : Runtime).

(** X12.  [/saved-analysis] answers 200 exactly when the session works
    and the key is the primary key of exactly one conscript; the answer
    then lists exactly the saved rows of that key, restricted to the
    specialty when one is given and not empty, newest first, with
    [total_count] their number.  Otherwise it answers 500: with the
    session's exception, with [AttributeError] when the key is no
    primary key (the second query names a column the class does not
    have), with [MultipleResultsFound] when several conscripts hold
    the key. *)
Theorem saved_analysis_listing (db : Db (Embedding rt)) w id specialty :
  let holders :=
    filter (fun c => (conscript_pk c =? id)%N) (conscripts w) in
  match get_saved_analysis rt db w id specialty with
  | Http200 body =>
      execute_raises db = None
      /\ (exists d, holders = [d])
      /\ Permutation (results body)
           (filter
              (fun r =>
                 (ar_conscript_draft_id r =? id)%N
                 && match specialty with
                    | Some s => if truthy s
                                then text_eqb (ar_specialty r) s
                                else true
                    | None => true
                    end)
              (ai_analysis_results w))
      /\ StronglySorted newest_first (results body)
      /\ total_count body = List.length (results body)
  | Http500 e =>
      execute_raises db = Some e
      \/ (execute_raises db = None /\ holders = []
          /\ e = OtherError "AttributeError")
      \/ (execute_raises db = None /\ (2 <= List.length holders)%nat
          /\ e = OtherError "MultipleResultsFound")
  end.
Proof.
  cbv zeta. unfold get_saved_analysis. rewrite find_draft_spec.
  unfold execute_select.
  destruct (execute_raises db) as [e|]; cbn [exc_bind]; [now left|].
  destruct (filter _ (conscripts w)) as [|d [|d' rest]] eqn:Hrows;
    cbn [exc_bind].
  - right. left. auto.
  - destruct (holder_key _ _ Hrows) as [_ ->].
    split; [reflexivity|]. split; [now exists d|].
    cbn [results total_count]. split; [apply order_by_created_perm|].
    split; [apply order_by_created_sorted | reflexivity].
  - right. right. split; [reflexivity|].
    split; [cbn [List.length]; lia | reflexivity].
Qed.

End Archive.


Section SavedVerdicts.

Context (rt : Runtime) (self : ContradictionChecker)
        (ai_analyzer : AIAnalyzer (Embedding rt)).




End SavedVerdicts.





(* ===================================================================== *)
(** * Stage 0: the shape of the report *)
(* ===================================================================== *)

Section ReportShape.

Context (rt : Runtime) (self : ContradictionChecker).

Local Abbreviation supplementary an co ob sr dn :=
  (filter_non_empty
     [("anamnesis"%string, an); ("complaints"%string, co);
      ("objective_data"%string, ob);
      ("special_research_results"%string, sr);
      ("doctor_notes"%string, dn)]).

(** When each check can fire at all. *)
Lemma check_preconditions db diag cat graph fields :
  let healthy := _is_healthy_text rt self diag in
  let filed_A := in_A (strip (str_upper rt cat)) in
  (has_contradiction (_check_type_e rt self diag cat) = true ->
   healthy = true /\ filed_A = false)
  /\ (has_contradiction (_check_type_f rt self diag cat) = true ->
      filed_A = true)
  /\ (has_contradiction (_check_type_a rt self db diag fields) = true ->
      healthy = true)
  /\ (has_contradiction (_check_type_b rt self diag fields) = true ->
      healthy = false)
  /\ (has_contradiction (_check_type_c rt self db diag fields) = true ->
      healthy = false)
  /\ (has_contradiction (_check_type_d rt self db diag cat graph) = true ->
      healthy = false).
Proof.
  cbv zeta.
  unfold _check_type_e, _check_type_f, _check_type_a, _check_type_b,
    _check_type_c, _check_type_d.
  destruct (_is_healthy_text rt self diag),
    (in_A (strip (str_upper rt cat))); cbn [andb negb has_contradiction
                                            no_contradiction];
    repeat split; intros; try reflexivity; try discriminate.
Qed.

Lemma found_type ty r :
  returns_type ty r -> has_contradiction r = true ->
  contradiction_type r = Some ty.
Proof. intros [-> | [_ H]]; [discriminate | auto]. Qed.

(** X16.  The Stage-0 report holds findings only, at most one of each
    type and in the fixed order E, F, A, B, C, D.  Type E and Type F
    never appear together.  A diagnosis that reads as healthy can only
    raise E, F and A, so at most two findings; any other diagnosis can
    only raise F, B, C and D.  Hence a report never holds more than four
    findings. *)
Theorem stage_0_report_shape db diag cat an co ob sr dn icd graph :
  let report :=
    check_for_contradictions rt self db diag cat an co ob sr dn icd graph in
  let healthy := _is_healthy_text rt self diag in
  Forall (fun c => has_contradiction c = true) report
  /\ (exists keep,
        map contradiction_type report
        = map Some (filter keep [TYPE_E; TYPE_F; TYPE_A;
                                 TYPE_B; TYPE_C; TYPE_D]))
  /\ List.length report <= 4
  /\ (healthy = true ->
      List.length report <= 2
      /\ findings_of TYPE_B report = [] /\ findings_of TYPE_C report = []
      /\ findings_of TYPE_D report = [])
  /\ (healthy = false ->
      findings_of TYPE_E report = [] /\ findings_of TYPE_A report = [])
  /\ (findings_of TYPE_E report = [] \/ findings_of TYPE_F report = []).
Proof.
  intros report healthy.
  destruct (report_by_type rt self db diag cat an co ob sr dn icd graph)
    as (HE & HF & HA & HB & HC & HD).
  fold report in HE, HF, HA, HB, HC, HD.
  rewrite HE, HF, HA, HB, HC, HD. subst report.
  unfold check_for_contradictions.
  destruct (check_preconditions db diag cat graph
              (supplementary an co ob sr dn))
    as (Pe & Pf & Pa & Pb & Pc & Pd).
  fold healthy in Pe, Pa, Pb, Pc, Pd.
  pose proof (found_type (check_type_e_type rt self diag cat)) as Te.
  pose proof (found_type (check_type_f_type rt self diag cat)) as Tf.
  pose proof (found_type (check_type_a_type rt self db diag
                            (supplementary an co ob sr dn))) as Ta.
  pose proof (found_type (check_type_b_type rt self diag
                            (supplementary an co ob sr dn))) as Tb.
  pose proof (found_type (check_type_c_type rt self db diag
                            (supplementary an co ob sr dn))) as Tc.
  pose proof (found_type (check_type_d_type rt self db diag cat graph))
    as Td.
  set (e := _check_type_e rt self diag cat) in *.
  set (f := _check_type_f rt self diag cat) in *.
  set (a := _check_type_a rt self db diag _) in *.
  set (b := _check_type_b rt self diag _) in *.
  set (c := _check_type_c rt self db diag _) in *.
  set (d := _check_type_d rt self db diag cat graph) in *.
  unfold append_if_found.
  split; [|split; [|split; [|split; [|split]]]].
  - repeat (apply Forall_app; split);
      match goal with
      | |- Forall _ (if has_contradiction ?x then _ else _) =>
          destruct (has_contradiction x) eqn:H; repeat constructor; exact H
      end.
  - exists (fun ty => match ty with
                      | TYPE_E => has_contradiction e
                      | TYPE_F => has_contradiction f
                      | TYPE_A => has_contradiction a
                      | TYPE_B => has_contradiction b
                      | TYPE_C => has_contradiction c
                      | TYPE_D => has_contradiction d
                      end).
    cbn [filter].
    destruct (has_contradiction e), (has_contradiction f),
      (has_contradiction a), (has_contradiction b), (has_contradiction c),
      (has_contradiction d); cbn [app map];
      rewrite ?(Te eq_refl), ?(Tf eq_refl), ?(Ta eq_refl), ?(Tb eq_refl),
        ?(Tc eq_refl), ?(Td eq_refl); reflexivity.
  - destruct healthy;
      destruct (has_contradiction e), (has_contradiction f),
        (has_contradiction a), (has_contradiction b), (has_contradiction c),
        (has_contradiction d); cbn [app List.length]; try lia;
      try (now specialize (Pe eq_refl)); try (now specialize (Pa eq_refl));
      try (now specialize (Pb eq_refl)); try (now specialize (Pc eq_refl));
      try (now specialize (Pd eq_refl));
      destruct (Pe eq_refl) as [_ He]; specialize (Pf eq_refl); congruence.
  - intros ->.
    destruct (has_contradiction b); [now specialize (Pb eq_refl)|].
    destruct (has_contradiction c); [now specialize (Pc eq_refl)|].
    destruct (has_contradiction d); [now specialize (Pd eq_refl)|].
    repeat split.
    destruct (has_contradiction e), (has_contradiction f),
      (has_contradiction a); cbn [app List.length]; try lia;
      destruct (Pe eq_refl) as [_ H]; specialize (Pf eq_refl); congruence.
  - intros ->.
    destruct (has_contradiction e); [now destruct (Pe eq_refl)|].
    destruct (has_contradiction a); [now specialize (Pa eq_refl)|].
    split; reflexivity.
  - destruct (has_contradiction e); [|now left].
    destruct (has_contradiction f); [|now right].
    destruct (Pe eq_refl) as [_ H]. specialize (Pf eq_refl). congruence.
Qed.

End ReportShape.


Section FieldChecks.

Context (rt : Runtime) (self : ContradictionChecker).

(** X17.  Type B fires exactly when the diagnosis does not read as
    healthy and some supplementary field does; the finding is MEDIUM,
    carries no retrieval hit, and names the first such field in the
    order the fields are given, every field before it not reading as
    healthy. *)
Theorem type_b_names_first_healthy_field diag fields :
  let r := _check_type_b rt self diag fields in
  (has_contradiction r = true <->
   _is_healthy_text rt self diag = false
   /\ exists k v, In (k, v) fields /\ _is_healthy_text rt self v = true)
  /\ (has_contradiction r = true ->
      severity r = MEDIUM /\ rag_matches r = []
      /\ exists before k v after,
          fields = before ++ (k, v) :: after
          /\ Forall (fun f => _is_healthy_text rt self (snd f) = false) before
          /\ _is_healthy_text rt self v = true
          /\ target_field r = Some k
          /\ target_value r = Some (firstn 200 v)).
Proof.
  cbv zeta. unfold _check_type_b.
  destruct (_is_healthy_text rt self diag).
  - split; [split; [discriminate | intros [H _]; discriminate]
           | discriminate].
  - induction fields as [|[k v] rest [IHiff IHfirst]]; cbn [type_b_loop].
    + split; [split; [discriminate | intros (_ & k & v & [] & _)]
             | discriminate].
    + destruct (_is_healthy_text rt self v) eqn:Hv;
        cbn [has_contradiction severity rag_matches target_field
             target_value].
      * split.
        -- split; [intros _; split; [reflexivity|] | reflexivity].
           exists k, v. split; [now left | exact Hv].
        -- intros _. repeat split.
           exists [], k, v, rest. repeat split; auto.
      * split.
        -- rewrite IHiff. split; intros (_ & k' & v' & Hin & Hv').
           ++ split; [reflexivity|]. exists k', v'. split; [now right|auto].
           ++ split; [reflexivity|]. exists k', v'. split; [|exact Hv'].
              destruct Hin as [[= <- <-]|Hin]; [congruence | exact Hin].
        -- intros Hr. destruct (IHfirst Hr)
             as (Hsev & Hrag & before & k' & v' & after & -> & Hb & Hv'
                 & Htf & Htv).
           repeat split; auto.
           exists ((k, v) :: before), k', v', after. repeat split; auto.
Qed.

Lemma search_diseases_length db txt top_k thr :
  List.length (search_diseases_in_text rt db txt top_k thr)
  <= Z.to_nat top_k.
Proof.
  unfold search_diseases_in_text, search_diseases_try, execute_nearest.
  destruct (negb (truthy txt) || _); [cbn; lia|].
  destruct (create_embedding rt txt) as [q|]; cbn [exc_bind]; [|cbn; lia].
  destruct (execute_raises db); cbn [exc_bind]; [cbn; lia|].
  destruct (limit_rejected top_k); cbn [exc_bind]; [cbn; lia|].
  etransitivity; [apply format_diseases_length|].
  rewrite length_firstn. lia.
Qed.

(** X18.  Type A fires exactly when the diagnosis reads as healthy and
    retrieval (top 3, threshold 0.70) finds something in a
    supplementary field that does not read as healthy.  The finding
    names the first such field, lists that field's hits -- between one
    and three -- and is CRITICAL exactly when one of them is unfit on
    graph 1 (category "Д", "Е" or "НГ"), HIGH otherwise. *)
Theorem type_a_names_first_field_with_hits db diag fields :
  let r := _check_type_a rt self db diag fields in
  let hits v := search_diseases_in_text rt db v 3 (70 # 100)%Q in
  (has_contradiction r = true <->
   _is_healthy_text rt self diag = true
   /\ exists k v, In (k, v) fields
                  /\ _is_healthy_text rt self v = false /\ hits v <> [])
  /\ (has_contradiction r = true ->
      (exists before k v after,
          fields = before ++ (k, v) :: after
          /\ Forall (fun f => _is_healthy_text rt self (snd f) = true
                              \/ hits (snd f) = []) before
          /\ _is_healthy_text rt self v = false
          /\ target_field r = Some k
          /\ rag_matches r = hits v)
      /\ 1 <= List.length (rag_matches r) <= 3
      /\ (severity r = CRITICAL <->
          exists m, In m (rag_matches r) /\ unfit_on_graph_1 m = true)
      /\ (severity r = HIGH <->
          forall m, In m (rag_matches r) -> unfit_on_graph_1 m = false)).
Proof.
  cbv zeta. unfold _check_type_a.
  destruct (_is_healthy_text rt self diag); cbn [negb].
  2:{ split; [split; [discriminate | intros [H _]; discriminate]
             | discriminate]. }
  induction fields as [|[k v] rest [IHiff IHfirst]]; cbn [type_a_loop].
  - split; [split; [discriminate | intros (_ & k & v & [] & _)]
           | discriminate].
  - destruct (_is_healthy_text rt self v) eqn:Hv.
    + split.
      * rewrite IHiff. split; intros (_ & k' & v' & Hin & Hv' & Hhits).
        -- split; [reflexivity|]. exists k', v'. split; [now right|auto].
        -- split; [reflexivity|]. exists k', v'. split; [|auto].
           destruct Hin as [[= <- <-]|Hin]; [congruence | exact Hin].
      * intros Hr. destruct (IHfirst Hr)
          as ((before & k' & v' & after & -> & Hb & Hv' & Htf & Hrag)
              & Hrest).
        split; [|exact Hrest].
        exists ((k, v) :: before), k', v', after. repeat split; auto.
    + pose proof (search_diseases_length db v 3 (70 # 100)%Q) as Hlen.
      destruct (search_diseases_in_text rt db v 3 (70 # 100)%Q)
        as [|m ms] eqn:Hhits.
      * split.
        -- rewrite IHiff. split; intros (_ & k' & v' & Hin & Hv' & Hh).
           ++ split; [reflexivity|]. exists k', v'. split; [now right|auto].
           ++ split; [reflexivity|]. exists k', v'. split; [|auto].
              destruct Hin as [[= <- <-]|Hin]; [congruence | exact Hin].
        -- intros Hr. destruct (IHfirst Hr)
             as ((before & k' & v' & after & -> & Hb & Hv' & Htf & Hrag)
                 & Hrest).
           split; [|exact Hrest].
           exists ((k, v) :: before), k', v', after. repeat split; auto.
      * cbn [has_contradiction severity rag_matches target_field].
        split.
        -- split; [intros _; split; [reflexivity|] | reflexivity].
           exists k, v. split; [now left|]. split; [exact Hv|].
           rewrite Hhits. discriminate.
        -- intros _. split; [|split; [|split]].
           ++ exists [], k, v, rest. repeat split; auto.
           ++ change (Z.to_nat 3) with 3 in Hlen. cbn [List.length] in *. lia.
           ++ rewrite <- existsb_exists.
              destruct (existsb unfit_on_graph_1 (m :: ms));
                split; (reflexivity || discriminate).
           ++ destruct (existsb unfit_on_graph_1 (m :: ms)) eqn:Hex.
              ** split; [discriminate|]. intros Hall.
                 apply existsb_exists in Hex. destruct Hex as (x & Hx & Hu).
                 rewrite (Hall x Hx) in Hu. discriminate.
              ** split; [|reflexivity]. intros _ x Hx.
                 destruct (unfit_on_graph_1 x) eqn:Hu; [|reflexivity].
                 rewrite <- Hex. symmetry. apply existsb_exists. eauto.
Qed.

End FieldChecks.


Section ShortFields.

Context (rt : Runtime) (self : ContradictionChecker).

(** A supplementary field as Stage 0 sees it: absent unless it holds
    ten characters or more once trimmed. *)
Local Abbreviation seen :=
  (fun f : option text =>
     match f with
     | Some v => if (10 <=? List.length (strip v))%nat then Some v else None
     | None => None
     end).

Lemma filter_non_empty_seen fields :
  filter_non_empty (map (fun kf => (fst kf, seen (snd kf))) fields)
  = filter_non_empty fields.
Proof.
  induction fields as [|[k [v|]] rest IH]; cbn [map filter_non_empty fst snd];
    [reflexivity | | exact IH].
  destruct (10 <=? List.length (strip v))%nat eqn:Hlen.
  - rewrite Hlen, IH. reflexivity.
  - rewrite IH. now rewrite andb_false_r.
Qed.

(** X19.  Stage 0 treats a supplementary field of fewer than ten
    characters, once trimmed, as absent: blanking such fields does not
    change the report.  In particular, when every supplementary field
    is absent or that short, the report holds no finding of Type A, B
    or C, whatever the diagnosis and the store. *)
Theorem short_fields_are_ignored db diag cat an co ob sr dn icd graph :
  check_for_contradictions rt self db diag cat an co ob sr dn icd graph
  = check_for_contradictions rt self db diag cat
      (seen an) (seen co) (seen ob) (seen sr) (seen dn) icd graph
  /\ (seen an = None -> seen co = None -> seen ob = None ->
      seen sr = None -> seen dn = None ->
      let report :=
        check_for_contradictions rt self db diag cat an co ob sr dn
                                 icd graph in
      findings_of TYPE_A report = [] /\ findings_of TYPE_B report = []
      /\ findings_of TYPE_C report = []).
Proof.
  assert (Hseen :
            filter_non_empty
              [("anamnesis"%string, seen an); ("complaints"%string, seen co);
               ("objective_data"%string, seen ob);
               ("special_research_results"%string, seen sr);
               ("doctor_notes"%string, seen dn)]
            = filter_non_empty
                [("anamnesis"%string, an); ("complaints"%string, co);
                 ("objective_data"%string, ob);
                 ("special_research_results"%string, sr);
                 ("doctor_notes"%string, dn)]).
  { apply (filter_non_empty_seen
             [("anamnesis"%string, an); ("complaints"%string, co);
              ("objective_data"%string, ob);
              ("special_research_results"%string, sr);
              ("doctor_notes"%string, dn)]). }
  split.
  - unfold check_for_contradictions. rewrite Hseen. reflexivity.
  - intros Han Hco Hob Hsr Hdn report.
    destruct (report_by_type rt self db diag cat an co ob sr dn icd graph)
      as (_ & _ & HA & HB & HC & _).
    fold report in HA, HB, HC. rewrite HA, HB, HC, <- Hseen.
    rewrite Han, Hco, Hob, Hsr, Hdn. cbn [filter_non_empty].
    unfold _check_type_a, _check_type_b, _check_type_c.
    cbn [type_a_loop type_b_loop type_c_fields].
    destruct (_is_healthy_text rt self diag); cbn [negb];
      try destruct (search_diseases_in_text rt db diag 2 (65 # 100)%Q);
      repeat split.
Qed.

End ShortFields.

Section SevereKeyword.

Context (rt : Runtime) (self : ContradictionChecker).

(** A keyword that is absent, or negated at its first occurrence. *)
Local Abbreviation passed_over t :=
  (fun k : text =>
     match find t k with
     | Some q => unnegated_at t k q = false
     | None => True
     end).

Lemma severe_scan_first t kws :
  match severe_scan t kws with
  | (true, Some kw) =>
      exists before after p,
        kws = before ++ kw :: after
        /\ find t kw = Some p /\ unnegated_at t kw p = true
        /\ Forall (passed_over t) before
  | (false, None) => Forall (passed_over t) kws
  | _ => False
  end.
Proof.
  induction kws as [|k rest IH]; cbn [severe_scan]; [constructor|].
  destruct (find t k) as [p|] eqn:Hk.
  - destruct (any_in negation_before _ || any_in negation_after _) eqn:Hneg.
    + assert (Hk' : passed_over t k).
      { rewrite Hk. unfold unnegated_at.
        apply orb_true_iff in Hneg. destruct Hneg as [-> | ->];
          [reflexivity | apply andb_false_r]. }
      destruct (severe_scan t rest) as [[|] [kw|]]; try exact IH.
      * destruct IH as (before & after & q & -> & Hq & Hun & Hb).
        exists (k :: before), after, q. repeat split; auto.
      * now constructor.
    + exists [], rest, p. repeat split; auto.
      apply orb_false_iff in Hneg. destruct Hneg as [Ha Hb].
      unfold unnegated_at. now rewrite Ha, Hb.
  - assert (Hk' : passed_over t k) by now rewrite Hk.
    destruct (severe_scan t rest) as [[|] [kw|]]; try exact IH.
    + destruct IH as (before & after & q & -> & Hq & Hun & Hb).
      exists (k :: before), after, q. repeat split; auto.
    + now constructor.
Qed.

(** X20.  [_contains_severe_condition] reports a keyword exactly when
    it answers [True], and the keyword it reports is the first one of
    the severe vocabulary, in vocabulary order, that occurs in the
    lower-cased text with no negation marker around its first
    occurrence; every keyword before it is absent or negated there.
    For a non-empty text it answers [False] only when every keyword of
    the vocabulary is absent or negated at its first occurrence. *)
Theorem severe_keyword_is_first_unnegated txt :
  let t := str_lower rt txt in
  let r := _contains_severe_condition rt self txt in
  (fst r = true <-> exists kw, snd r = Some kw)
  /\ (forall kw,
         snd r = Some kw ->
         exists before after p,
           severe_keywords self = before ++ kw :: after
           /\ find t kw = Some p /\ unnegated_at t kw p = true
           /\ Forall (passed_over t) before)
  /\ (txt <> [] -> fst r = false ->
      Forall (passed_over t) (severe_keywords self)).
Proof.
  cbv zeta. unfold _contains_severe_condition.
  destruct txt as [|c txt]; cbn [truthy negb fst snd].
  - split; [split; [discriminate | intros [kw H]; discriminate]|].
    split; [discriminate | intros H; now elim H].
  - pose proof (severe_scan_first (str_lower rt (c :: txt))
                  (severe_keywords self)) as H.
    destruct (severe_scan _ _) as [[|] [kw|]]; cbn [fst snd];
      try (now destruct H).
    + split; [split; eauto|]. split; [|discriminate].
      intros kw' [= <-]. exact H.
    + split; [split; [discriminate | intros [kw Hkw]; discriminate]|].
      split; [discriminate | auto].
Qed.

End SevereKeyword.


(* ===================================================================== *)
(** * The other retrievers *)
(* ===================================================================== *)

Section OtherRetrievers.

Context (rt : Runtime).

Local Abbreviation has_embedding :=
  (fun c : PointCriterion (Embedding rt) =>
     match criteria_embedding c with Some _ => true | None => false end).

Local Abbreviation by_criterion_similarity :=
  (fun a b : SimilarCriterion => (sc_similarity b <= sc_similarity a)%Q).






Lemma limit_rejected_spec k :
  limit_rejected k = true <-> (k < 0 \/ 2 ^ 63 <= k)%Z.
Proof.
  unfold limit_rejected. now rewrite orb_true_iff, Z.ltb_lt, Z.leb_le.
Qed.

Lemma article_rejected_spec art :
  article_rejected art = true <->
  exists a, art = Some a /\ a <> 0%Z /\ ~ (- 2 ^ 31 <= a < 2 ^ 31)%Z.
Proof.
  unfold article_rejected. destruct art as [a|].
  - rewrite andb_true_iff, !negb_true_iff, Z.eqb_neq.
    rewrite <- not_true_iff_false, fits_int32_spec. split.
    + intros [Ha Hrange]. exists a. auto.
    + intros (a' & [= <-] & Ha & Hrange). auto.
  - split; [discriminate | intros (a & H & _); discriminate].
Qed.

(** X21.  [find_similar_criteria] fails loudly: it raises exactly the
    exception of the embedding provider when that one fails, else
    exactly the exception of the session when that one fails, else a
    database error when the query is refused -- the limit is negative
    or does not fit 63 bits, or the article, neither null nor 0, does
    not fit the 32-bit column -- and in no other case.  A failure of
    the provider or of the session makes [search_diseases_in_text]
    answer the empty list. *)
Theorem find_similar_criteria_raises db txt top_k art e :
  (find_similar_criteria rt db txt top_k art = Raise e <->
   create_embedding rt txt = Raise e
   \/ ((exists q, create_embedding rt txt = Ok q)
       /\ (execute_raises db = Some e
           \/ (execute_raises db = None /\ e = DatabaseError
               /\ ((get_or top_k RAG_TOP_K < 0)%Z
                   \/ (2 ^ 63 <= get_or top_k RAG_TOP_K)%Z
                   \/ exists a, art = Some a /\ a <> 0%Z
                                /\ ~ (- 2 ^ 31 <= a < 2 ^ 31)%Z)))))
  /\ (create_embedding rt txt = Raise e \/ execute_raises db = Some e ->
      forall k thr, search_diseases_in_text rt db txt k thr = []).
Proof.
  split.
  - unfold find_similar_criteria, execute_nearest_in_article.
    destruct (create_embedding rt txt) as [q|e'] eqn:Hq; cbn [exc_bind].
    + destruct (execute_raises db) as [e'|] eqn:Hdb; cbn [exc_bind].
      * split.
        -- intros [= ->]. right. split; eauto.
        -- intros [H | [_ [[= ->] | (H & _)]]]; try discriminate.
           reflexivity.
      * assert (Hrefused :
                  limit_rejected (get_or top_k RAG_TOP_K)
                  || article_rejected art = true
                  <-> ((get_or top_k RAG_TOP_K < 0)%Z
                       \/ (2 ^ 63 <= get_or top_k RAG_TOP_K)%Z
                       \/ exists a, art = Some a /\ a <> 0%Z
                                    /\ ~ (- 2 ^ 31 <= a < 2 ^ 31)%Z))
          by (rewrite orb_true_iff, limit_rejected_spec,
                article_rejected_spec; tauto).
        destruct (limit_rejected _ || article_rejected _);
          cbn [exc_bind].
        -- split.
           ++ intros [= <-]. right. split; [eauto|]. right.
              split; [reflexivity|]. split; [reflexivity|].
              now apply Hrefused.
           ++ intros [H | [_ [H | (_ & -> & _)]]]; try discriminate.
              reflexivity.
        -- split; [discriminate|].
           intros [H | [_ [H | (_ & _ & H)]]]; try discriminate.
           apply Hrefused in H. discriminate.
    + split.
      * intros [= ->]. now left.
      * intros [[= ->] | [[q Hq'] _]]; [reflexivity | discriminate].
  - intros [H | H] k thr.
    + eapply search_embedding_raises; eassumption.
    + eapply search_session_raises; eassumption.
Qed.


Lemma search_needs_ten_characters db v k thr :
  truthy v && (10 <=? List.length (strip v))%nat = false ->
  search_diseases_in_text rt db v k thr = [].
Proof.
  intros H. unfold search_diseases_in_text.
  destruct (truthy v); cbn [negb orb andb] in *; [|reflexivity].
  apply Nat.leb_gt in H. apply Nat.ltb_lt in H. now rewrite H.
Qed.

(** X23.  [search_diseases_in_multiple_fields] answers, in the order
    of the given fields, with exactly the fields whose own search is
    not empty, each with the result of that search; its test of the
    field's length adds nothing to the one the search makes.  It never
    raises: with the embedding provider or the session down the answer
    is empty. *)
Theorem multiple_fields_spec db fields top_k thr :
  let hits v := search_diseases_in_text rt db v top_k thr in
  let res := search_diseases_in_multiple_fields rt db fields top_k thr in
  res = flat_map (fun kf =>
                    match snd kf with
                    | Some v => match hits v with
                                | [] => []
                                | _ :: _ => [(fst kf, hits v)]
                                end
                    | None => []
                    end) fields
  /\ (forall k ds,
         In (k, ds) res <->
         ds <> [] /\ exists v, In (k, Some v) fields /\ ds = hits v)
  /\ (forall e, (forall txt, create_embedding rt txt = Raise e)
                \/ execute_raises db = Some e -> res = []).
Proof.
  intros hits res.
  assert (Hres : res = flat_map (fun kf =>
                    match snd kf with
                    | Some v => match hits v with
                                | [] => []
                                | _ :: _ => [(fst kf, hits v)]
                                end
                    | None => []
                    end) fields).
  { subst res hits.
    induction fields as [|[k [v|]] rest IH];
      cbn [search_diseases_in_multiple_fields flat_map fst snd];
      [reflexivity | | exact IH].
    destruct (truthy v && (10 <=? List.length (strip v))%nat) eqn:Hlen.
    - rewrite IH. now destruct (search_diseases_in_text rt db v top_k thr).
    - rewrite (search_needs_ten_characters db v top_k thr Hlen). exact IH. }
  split; [exact Hres|]. split.
  - intros k ds. rewrite Hres, in_flat_map. split.
    + intros ([k' [v|]] & Hin & Hds); cbn [fst snd] in Hds; [|destruct Hds].
      destruct (hits v) as [|d ds'] eqn:Hv; [destruct Hds|].
      destruct Hds as [[= <- <-]|[]]. split; [discriminate|].
      exists v. split; [exact Hin | now rewrite Hv].
    + intros (Hne & v & Hin & ->). exists (k, Some v). split; [exact Hin|].
      cbn [fst snd]. destruct (hits v); [now elim Hne | now left].
  - intros e He. rewrite Hres. clear Hres.
    induction fields as [|[k [v|]] rest IH]; cbn [flat_map fst snd];
      [reflexivity | | exact IH].
    assert (Hv : hits v = [])
      by (subst hits; destruct He as [He|He];
          [eapply search_embedding_raises; apply He
          |eapply search_session_raises; eassumption]).
    rewrite Hv. exact IH.
Qed.

End OtherRetrievers.



(** The same query, run: one criterion, at similarity 1. *)
Example criteria_of_article_43 :
  exc_map (map (fun r => (sc_article r, sc_similarity r)))
    (find_similar_criteria Sample.rt Sample.db Sample.hypertension_text
                           None (Some 43%Z))
  = Ok [(43%Z, (10000 # 10000)%Q)].
Proof. vm_compute. reflexivity. Qed.


(* ===================================================================== *)
(** * The reference look-ups *)
(* ===================================================================== *)

Lemma scalar_one_or_none_some {A} (rows : list A) r :
  scalar_one_or_none rows = Ok (Some r) <-> rows = [r].
Proof.
  destruct rows as [|x [|y rest]]; cbn [scalar_one_or_none];
    split; try discriminate; congruence.
Qed.

Section LookUps.

Variable E : Type.

(** [subpoint] against a stored cell, as [validate_article_subpoint]
    compares them. *)
Local Abbreviation same_subpoint sp :=
  (fun cell : option text =>
     if no_subpoint sp then sql_null_or_empty cell else sql_eq cell sp).

(** When the exact look-up answers. *)
Lemma exact_lookup_spec (db : Db E) a sp g c :
  get_category_for_article_subpoint db a sp g = Some c <->
  execute_raises db = None
  /\ exists d,
      filter (fun d => (pd_article d =? a)%Z && sql_eq (pd_subpoint d) sp)
             (points_diagnoses db) = [d]
      /\ categories_get (pd_graphs d) g = Some c.
Proof.
  unfold get_category_for_article_subpoint, execute_select.
  destruct (execute_raises db) as [e|]; cbn [exc_bind].
  - split; [discriminate | intros [H _]; discriminate].
  - set (rows := filter _ (points_diagnoses db)).
    destruct rows as [|d [|d' rest]]; cbn [scalar_one_or_none exc_bind].
    + split; [discriminate | intros (_ & d & H & _); discriminate].
    + split.
      * intros H. split; [reflexivity|]. exists d. auto.
      * intros (_ & d' & [= <-] & H). exact H.
    + split; [discriminate | intros (_ & d0 & H & _); discriminate].
Qed.

(** X24.  [get_category_for_article_subpoint] answers a category
    exactly when the session works, exactly one row of the reference
    table matches the article and the subpoint, and that row has a
    category for the graph.  So it answers [None] when two rows match,
    even if they agree, and for every graph outside 1..4. *)
Theorem get_category_needs_exactly_one_row (db : Db E) a sp g :
  (forall c,
      get_category_for_article_subpoint db a sp g = Some c <->
      execute_raises db = None
      /\ exists d,
          filter (fun d => (pd_article d =? a)%Z
                           && sql_eq (pd_subpoint d) sp)
                 (points_diagnoses db) = [d]
          /\ categories_get (pd_graphs d) g = Some c)
  /\ (forall d d' rest,
         filter (fun d => (pd_article d =? a)%Z
                          && sql_eq (pd_subpoint d) sp)
                (points_diagnoses db) = d :: d' :: rest ->
         get_category_for_article_subpoint db a sp g = None)
  /\ ((g < 1 \/ 4 < g)%Z ->
      get_category_for_article_subpoint db a sp g = None).
Proof.
  split; [intros c; apply exact_lookup_spec|]. split.
  - intros d d' rest Hrows.
    destruct (get_category_for_article_subpoint db a sp g) as [c|] eqn:Hc;
      [|reflexivity].
    apply exact_lookup_spec in Hc. destruct Hc as (_ & d0 & H & _).
    rewrite Hrows in H. discriminate.
  - intros Hg.
    destruct (get_category_for_article_subpoint db a sp g) as [c|] eqn:Hc;
      [|reflexivity].
    apply exact_lookup_spec in Hc. destruct Hc as (_ & d & _ & Hc).
    unfold categories_get in Hc.
    destruct (g =? 1)%Z eqn:H1; [apply Z.eqb_eq in H1; lia|].
    destruct (g =? 2)%Z eqn:H2; [apply Z.eqb_eq in H2; lia|].
    destruct (g =? 3)%Z eqn:H3; [apply Z.eqb_eq in H3; lia|].
    destruct (g =? 4)%Z eqn:H4; [apply Z.eqb_eq in H4; lia|].
    discriminate.
Qed.

Lemma validate_try_spec (db : Db E) a sp :
  execute_raises db = None ->
  validate_article_subpoint_try db a sp
  = let criterion :=
      List.find (fun c => (pc_article c =? a)%Z
                          && same_subpoint sp (pc_subpoint c))
                (point_criteria db) in
    let diagnosis :=
      List.find (fun d => (pd_article d =? a)%Z
                          && same_subpoint sp (pd_subpoint d))
                (points_diagnoses db) in
    match criterion, diagnosis with
    | None, None =>
        Ok {| is_valid := false; v_article := a; v_subpoint := sp;
              error_message := Some (NotInHandbook sp a);
              v_categories := None |}
    | _, _ =>
        Ok {| is_valid := true; v_article := a; v_subpoint := sp;
              error_message := None;
              v_categories := option_map pd_graphs diagnosis |}
    end.
Proof.
  intros Hdb. unfold validate_article_subpoint_try, execute_select.
  rewrite Hdb. cbn [exc_bind]. rewrite !find_is_first_filtered.
  cbn [exc_bind]. destruct (no_subpoint sp); reflexivity.
Qed.

(** X25.  [validate_article_subpoint] never raises.  It declares the
    pair valid exactly when the session works and the criteria table
    or the diagnoses table holds a row of the article with that
    subpoint -- for an absent subpoint (None, "", "null", "None"): a
    stored NULL, "" or "null".  The categories it returns are those of
    the first such row of the diagnoses table, and none when only the
    criteria table has one.  It carries an error message exactly when
    the pair is not valid, and always echoes the article and subpoint
    it was asked about. *)
Theorem validate_valid_iff_row_exists (db : Db E) a sp :
  let r := validate_article_subpoint db a sp in
  (is_valid r = true <->
   execute_raises db = None
   /\ ((exists c, In c (point_criteria db) /\ pc_article c = a
                  /\ same_subpoint sp (pc_subpoint c) = true)
       \/ (exists d, In d (points_diagnoses db) /\ pd_article d = a
                     /\ same_subpoint sp (pd_subpoint d) = true)))
  /\ v_categories r
     = match execute_raises db with
       | Some _ => None
       | None =>
           option_map pd_graphs
             (List.find (fun d => (pd_article d =? a)%Z
                                  && same_subpoint sp (pd_subpoint d))
                        (points_diagnoses db))
       end
  /\ (is_valid r = true <-> error_message r = None)
  /\ v_article r = a /\ v_subpoint r = sp.
Proof.
  cbv zeta. unfold validate_article_subpoint.
  destruct (execute_raises db) as [e|] eqn:Hdb.
  - unfold validate_article_subpoint_try, execute_select. rewrite Hdb.
    cbn [exc_bind is_valid v_categories error_message v_article v_subpoint].
    repeat split; try discriminate. intros [H _]. discriminate.
  - rewrite (validate_try_spec db a sp Hdb). cbv zeta.
    assert (Hfound_c : forall c,
               List.find (fun c => (pc_article c =? a)%Z
                                   && same_subpoint sp (pc_subpoint c))
                         (point_criteria db) = Some c ->
               exists c, In c (point_criteria db) /\ pc_article c = a
                         /\ same_subpoint sp (pc_subpoint c) = true).
    { intros c Hc. apply find_some in Hc. destruct Hc as [Hin Hc].
      apply andb_true_iff in Hc. destruct Hc as [Ha Hs].
      apply Z.eqb_eq in Ha. eauto. }
    assert (Hfound_d : forall d,
               List.find (fun d => (pd_article d =? a)%Z
                                   && same_subpoint sp (pd_subpoint d))
                         (points_diagnoses db) = Some d ->
               exists d, In d (points_diagnoses db) /\ pd_article d = a
                         /\ same_subpoint sp (pd_subpoint d) = true).
    { intros d Hd. apply find_some in Hd. destruct Hd as [Hin Hd].
      apply andb_true_iff in Hd. destruct Hd as [Ha Hs].
      apply Z.eqb_eq in Ha. eauto. }
    destruct (List.find _ (point_criteria db)) as [c|] eqn:Hc;
      destruct (List.find _ (points_diagnoses db)) as [d|] eqn:Hd;
      cbn [is_valid v_categories error_message v_article v_subpoint
           option_map].
    + split; [|repeat split]. split; [|reflexivity].
      intros _. split; [reflexivity|]. left. eauto.
    + split; [|repeat split]. split; [|reflexivity].
      intros _. split; [reflexivity|]. left. eauto.
    + split; [|repeat split]. split; [|reflexivity].
      intros _. split; [reflexivity|]. right. eauto.
    + split; [|repeat split; discriminate]. split; [discriminate|].
      intros (_ & [(c & Hin & Ha & Hs) | (d & Hin & Ha & Hs)]).
      * eapply find_none in Hc; [|exact Hin].
        cbv beta in Hc. rewrite Hs, Ha, Z.eqb_refl in Hc. discriminate.
      * eapply find_none in Hd; [|exact Hin].
        cbv beta in Hd. rewrite Hs, Ha, Z.eqb_refl in Hd. discriminate.
Qed.

(** X26.  The two look-ups agree where both apply: when the exact
    look-up [get_category_for_article_subpoint] answers a category for
    an actual subpoint (not None, "", "null" or "None"),
    [validate_article_subpoint] declares the pair valid, without an
    error message, and the categories it returns give the same
    category for the graph. *)
Theorem validate_agrees_with_exact_lookup (db : Db E) a sp g c :
  no_subpoint sp = false ->
  get_category_for_article_subpoint db a sp g = Some c ->
  let r := validate_article_subpoint db a sp in
  is_valid r = true /\ error_message r = None
  /\ exists cs, v_categories r = Some cs /\ categories_get cs g = Some c.
Proof.
  intros Hsp Hcat r. subst r.
  apply exact_lookup_spec in Hcat.
  destruct Hcat as (Hdb & d & Hrows & Hc).
  unfold validate_article_subpoint.
  rewrite (validate_try_spec db a sp Hdb), Hsp. cbv zeta.
  assert (Hd : List.find (fun d => (pd_article d =? a)%Z
                                   && sql_eq (pd_subpoint d) sp)
                         (points_diagnoses db) = Some d).
  { pose proof (find_is_first_filtered
                  (fun d => (pd_article d =? a)%Z
                            && sql_eq (pd_subpoint d) sp)
                  (points_diagnoses db)) as H.
    rewrite Hrows in H. cbn [firstn scalar_one_or_none] in H. congruence. }
  rewrite Hd. destruct (List.find _ (point_criteria db));
    cbn [is_valid error_message v_categories option_map]; eauto.
Qed.

(** X27.  The four spellings of "no subpoint" -- None, "", "null" and
    "None" -- are interchangeable for [validate_article_subpoint]:
    whichever two of them are asked about, the answers agree on
    validity and on the categories, and both or neither carry an error
    message. *)
Theorem no_subpoint_spellings_equivalent (db : Db E) a sp1 sp2 :
  no_subpoint sp1 = true -> no_subpoint sp2 = true ->
  let r1 := validate_article_subpoint db a sp1 in
  let r2 := validate_article_subpoint db a sp2 in
  is_valid r1 = is_valid r2 /\ v_categories r1 = v_categories r2
  /\ (error_message r1 = None <-> error_message r2 = None).
Proof.
  intros H1 H2. cbv zeta. unfold validate_article_subpoint.
  destruct (execute_raises db) as [e|] eqn:Hdb.
  - unfold validate_article_subpoint_try, execute_select. rewrite Hdb.
    cbn [exc_bind is_valid v_categories error_message].
    repeat split; discriminate.
  - rewrite !(validate_try_spec db a _ Hdb), H1, H2. cbv zeta.
    destruct (List.find _ (point_criteria db)),
      (List.find _ (points_diagnoses db));
      cbn [is_valid v_categories error_message]; repeat split;
      discriminate.
Qed.

End LookUps.

(** X26 on the sample store: article 43, subpoint "3", graph 1. *)
Lemma validate_agrees_with_exact_lookup_witness :
  no_subpoint (Some (u "3")) = false
  /\ get_category_for_article_subpoint Sample.db 43 (Some (u "3")) 1
     = Some cat_D
  /\ let r := validate_article_subpoint Sample.db 43 (Some (u "3")) in
     is_valid r = true /\ error_message r = None
     /\ exists cs, v_categories r = Some cs
                   /\ categories_get cs 1 = Some cat_D.
Proof.
  split; [reflexivity|]. split; [vm_compute; reflexivity|].
  apply (@validate_agrees_with_exact_lookup Sample.vec Sample.db 43
           (Some (u "3")) 1 cat_D); vm_compute; reflexivity.
Defined.

(** X27 on the sample store: article 88 asked about with None and with
    the string "None". *)
Lemma no_subpoint_spellings_equivalent_witness :
  no_subpoint None = true /\ no_subpoint (Some (u "None")) = true
  /\ let r1 := validate_article_subpoint Sample.db 88 None in
     let r2 := validate_article_subpoint Sample.db 88 (Some (u "None")) in
     is_valid r1 = is_valid r2 /\ v_categories r1 = v_categories r2
     /\ (error_message r1 = None <-> error_message r2 = None).
Proof.
  split; [reflexivity|]. split; [vm_compute; reflexivity|].
  apply (@no_subpoint_spellings_equivalent Sample.vec Sample.db 88
           None (Some (u "None"))); vm_compute; reflexivity.
Defined.


(* ===================================================================== *)
(** * Batched embeddings *)
(* ===================================================================== *)

Section Batches.

Variable E : Type.
Variable embeddings_create : list text -> Exc (list E).

(** A provider that embeds each text of a batch on its own, by [f]. *)
Variable f : text -> E.
Hypothesis pointwise : forall batch, embeddings_create batch = Ok (map f batch).

Lemma embed_batches_pointwise texts b fuel i acc :
  0 < b -> List.length texts - i <= fuel ->
  embed_batches embeddings_create texts
    (range_from fuel i (List.length texts) b) b acc
  = Ok (acc ++ map f (skipn i texts)).
Proof.
  intros Hb. revert i acc.
  induction fuel as [|fuel IH]; intros i acc Hfuel; cbn [range_from].
  - cbn [embed_batches]. rewrite skipn_all2 by lia. now rewrite app_nil_r.
  - destruct (i <? List.length texts) eqn:Hi.
    + apply Nat.ltb_lt in Hi. cbn [embed_batches].
      rewrite pointwise. cbn [exc_bind].
      rewrite IH by lia. unfold list_slice.
      replace (i + b - i) with b by lia.
      rewrite <- app_assoc, <- map_app.
      replace (skipn (i + b) texts) with (skipn b (skipn i texts))
        by (rewrite skipn_skipn; f_equal; lia).
      now rewrite firstn_skipn.
    + apply Nat.ltb_ge in Hi. cbn [embed_batches].
      rewrite skipn_all2 by lia. now rewrite app_nil_r.
Qed.

(** X28.  Batching is transparent: with a provider that embeds each
    text of a batch on its own, [create_embeddings_batch] returns, for
    every positive batch size, one embedding per text, in the order of
    the texts, exactly as one call on the whole list would.  A batch
    size of zero raises [ValueError]; a negative one returns the empty
    list for whatever texts were given, the provider never being
    called. *)
Theorem batching_is_transparent texts batch_size :
  create_embeddings_batch embeddings_create texts batch_size
  = if (batch_size =? 0)%Z then Raise (OtherError "ValueError")
    else if (batch_size <? 0)%Z then Ok []
    else Ok (map f texts).
Proof.
  unfold create_embeddings_batch, py_range.
  destruct (batch_size =? 0)%Z eqn:Hz; [reflexivity|].
  destruct (batch_size <? 0)%Z eqn:Hn; [reflexivity|].
  apply Z.eqb_neq in Hz. apply Z.ltb_ge in Hn. cbn [exc_bind].
  rewrite embed_batches_pointwise by lia. reflexivity.
Qed.

End Batches.

(** X28 on seven texts in batches of three, the provider returning the
    length of each text. *)
Lemma batching_is_transparent_witness :
  let provider := fun batch : list text => Ok (map (@List.length N) batch) in
  let texts := [u "a"; u "bb"; u "ccc"; u "dddd"; u "eeeee"; u "ffffff";
                u "ggggggg"] in
  (forall batch, provider batch = Ok (map (@List.length N) batch))
  /\ create_embeddings_batch provider texts 3
     = if (3 =? 0)%Z then Raise (OtherError "ValueError")
       else if (3 <? 0)%Z then Ok []
       else Ok (map (@List.length N) texts).
Proof.
  intros provider texts. split; [reflexivity|].
  apply (@batching_is_transparent nat provider (@List.length N)).
  reflexivity.
Defined.
